(** * openfort-react: client registry, email verification flow,
      transport helper and connect-error logging

    A shallow embedding of
    - [openfort/core/client.ts] (the shared client singleton),
    - [components/Pages/EmailVerification/index.tsx] (the two effects of the
      page and its rendering),
    - [getDefaultTransports] / [createTransport],
    - the [onError] handler of [hooks/useConnect.tsx],
    followed by the properties proved about them.

    JavaScript strings are modelled as byte strings ([string]); a value that
    may be [undefined]/[null] is an [option]; module-level and browser state is
    passed explicitly; calls that leave the module (SDK, logger, router,
    history) are recorded in an event trace in program order. *)

From Stdlib Require Import Ascii String ZArith Lia Bool.
From stdpp Require Import gmap strings list fin_maps.

Local Open Scope string_scope.

(** ** JavaScript truthiness of the values the code tests *)

Module Js.

(** [!!s] for a string: only the empty string is falsy. *)
Definition truthy (s : string) : bool := negb (String.eqb s "").

(** [!!v] for [v : string | null | undefined]. *)
Definition truthy_opt (v : option string) : bool :=
  match v with
  | Some s => truthy s
  | None => false
  end.

(** [v + k] where [v] may be [undefined]: string concatenation turns
    [undefined] into the text "undefined". *)
Definition plus (v : option string) (k : string) : string :=
  match v with
  | Some s => s +:+ k
  | None => "undefined" +:+ k
  end.

(** The string a truthiness test lets through: [Some s] exactly when the
    value is a non-empty string. *)
Definition nonempty (v : option string) : option string :=
  match v with
  | Some s => if truthy s then Some s else None
  | None => None
  end.

(** An [Error] value; [message] may be absent on objects that only look like
    errors. *)
Record Error := mkError { message : option string }.

(** How a call ends: with a value, or with a thrown value. *)
Inductive Completion (A : Type) :=
| Normal (a : A)
| Throw (e : Error).
Arguments Normal {A} a.
Arguments Throw {A} e.

(** How a promise settles. *)
Inductive Settled :=
| Fulfilled
| Rejected (e : Error).

(** An argument handed to a logger, and one logger call. *)
Inductive LogArg :=
| LStr (s : string)
| LErr (e : Error).

Definition LogCall : Type := list LogArg.

End Js.

(** ** openfort/core/client.ts *)

Module Registry.

(** The SDK configuration object; only its identity matters here. *)
Record OpenfortSDKConfiguration := { publishableKey : string }.

(** An SDK client object. [ref] is the object's identity: two [new]
    expressions never yield the same [ref]. *)
Record OpenfortClient := { ref : nat; configuration : OpenfortSDKConfiguration }.

(** Module state: the number of client objects constructed so far and the
    module-level [let defaultClient]. *)
Record State := { constructed : nat; defaultClient : option OpenfortClient }.

Definition initial : State := {| constructed := 0; defaultClient := None |}.

(** [new OpenfortClient(config)] *)
Definition new_OpenfortClient (config : OpenfortSDKConfiguration) (st : State)
  : OpenfortClient * State :=
  ({| ref := constructed st; configuration := config |},
   {| constructed := S (constructed st); defaultClient := defaultClient st |}).

Definition createOpenfortClient (config : OpenfortSDKConfiguration) (st : State)
  : OpenfortClient * State :=
  new_OpenfortClient config st.

Definition uninitialized_message : string :=
  "Openfort client not initialized. Make sure to wrap your app with OpenfortProvider.".

Definition getDefaultClient (options : option OpenfortSDKConfiguration) (st : State)
  : Js.Completion OpenfortClient * State :=
  let st1 :=
    match defaultClient st, options with
    | None, Some o =>
        let (c, st') := new_OpenfortClient o st in
        {| constructed := constructed st'; defaultClient := Some c |}
    | _, _ => st
    end in
  match defaultClient st1 with
  | None => (Js.Throw (Js.mkError (Some uninitialized_message)), st1)
  | Some c => (Js.Normal c, st1)
  end.

Definition setDefaultClient (client : OpenfortClient) (st : State) : State :=
  {| constructed := constructed st; defaultClient := Some client |}.

(** A call into the module, for reasoning about arbitrary call sequences. *)
Inductive Call :=
| CallCreate (config : OpenfortSDKConfiguration)
| CallGet (options : option OpenfortSDKConfiguration)
| CallSet (client : OpenfortClient).

Definition is_set (c : Call) : bool :=
  match c with
  | CallSet _ => true
  | _ => false
  end.

Definition step (c : Call) (st : State) : State :=
  match c with
  | CallCreate config => snd (createOpenfortClient config st)
  | CallGet options => snd (getDefaultClient options st)
  | CallSet client => setDefaultClient client st
  end.

Definition run (cs : list Call) (st : State) : State :=
  foldl (fun s c => step c s) st cs.

Definition is_create (c : Call) : bool :=
  match c with
  | CallCreate _ => true
  | _ => false
  end.

End Registry.

(** ** The browser's [String.prototype.replace], [URL] and [URLSearchParams]

    Only what the page uses: [replace] with a string pattern, [new URL(href)]
    on an already serialised hierarchical (http/https) href,
    [searchParams.get/append/delete] and [toString]. *)

Module Url.

Fixpoint startsWith (pat s : string) : bool :=
  match pat, s with
  | EmptyString, _ => true
  | String p pat', String c s' => Ascii.eqb p c && startsWith pat' s'
  | String _ _, EmptyString => false
  end.

Fixpoint drop (n : nat) (s : string) : string :=
  match n, s with
  | O, _ => s
  | S n', String _ s' => drop n' s'
  | S _, EmptyString => EmptyString
  end.

(** Whether the byte [c] occurs in [s]. *)
Fixpoint has (c : ascii) (s : string) : bool :=
  match s with
  | EmptyString => false
  | String a s' => Ascii.eqb a c || has c s'
  end.

(** [s.includes(pat)] *)
Fixpoint includes (pat s : string) : bool :=
  startsWith pat s ||
  match s with
  | EmptyString => false
  | String _ s' => includes pat s'
  end.

(** [s.replace(pat, rep)] for a string pattern: the first occurrence only.
    ([rep] is taken literally; the replacement used by the page has no [$].) *)
Fixpoint replace (pat rep s : string) : string :=
  if startsWith pat s then rep +:+ drop (String.length pat) s
  else match s with
       | EmptyString => EmptyString
       | String c s' => String c (replace pat rep s')
       end.

(** Splits at the first [sep]: the text before it and, when [sep] occurs, the
    text after it. *)
Fixpoint cut (sep : ascii) (s : string) : string * option string :=
  match s with
  | EmptyString => (EmptyString, None)
  | String c s' =>
      if Ascii.eqb c sep then (EmptyString, Some s')
      else let (a, b) := cut sep s' in (String c a, b)
  end.

(** Splits at every [sep]. *)
Fixpoint split (sep : ascii) (s : string) : list string :=
  match s with
  | EmptyString => [EmptyString]
  | String c s' =>
      if Ascii.eqb c sep then EmptyString :: split sep s'
      else match split sep s' with
           | h :: t => String c h :: t
           | [] => [String c EmptyString]
           end
  end.

Fixpoint join (sep : string) (l : list string) : string :=
  match l with
  | [] => EmptyString
  | [x] => x
  | x :: l' => x +:+ sep +:+ join sep l'
  end.

(** *** application/x-www-form-urlencoded *)

Definition hex_val (c : ascii) : option nat :=
  let n := nat_of_ascii c in
  if ((48 <=? n) && (n <=? 57))%nat then Some (n - 48)
  else if ((65 <=? n) && (n <=? 70))%nat then Some (n - 55)
  else if ((97 <=? n) && (n <=? 102))%nat then Some (n - 87)
  else None.

Definition hex_digit (n : nat) : ascii :=
  if (n <? 10)%nat then ascii_of_nat (48 + n) else ascii_of_nat (55 + n).

(** Bytes the serialiser leaves as they are: ASCII alphanumerics and [*-._]. *)
Definition unreserved (c : ascii) : bool :=
  let n := nat_of_ascii c in
  ((48 <=? n) && (n <=? 57) || (65 <=? n) && (n <=? 90) || (97 <=? n) && (n <=? 122)
   || (n =? 42) || (n =? 45) || (n =? 46) || (n =? 95))%nat.

Definition encode_byte (c : ascii) : string :=
  if Ascii.eqb c " " then "+"
  else if unreserved c then String c EmptyString
  else let n := nat_of_ascii c in
       String "%" (String (hex_digit (n / 16)) (String (hex_digit (n mod 16)) EmptyString)).

Fixpoint urlencode (s : string) : string :=
  match s with
  | EmptyString => EmptyString
  | String c s' => encode_byte c +:+ urlencode s'
  end.

Fixpoint plus_to_space (s : string) : string :=
  match s with
  | EmptyString => EmptyString
  | String c s' => String (if Ascii.eqb c "+" then " "%char else c) (plus_to_space s')
  end.

Fixpoint percent_decode (s : string) : string :=
  match s with
  | EmptyString => EmptyString
  | String c s' =>
      if Ascii.eqb c "%" then
        match s' with
        | String h (String l s'') =>
            match hex_val h, hex_val l with
            | Some a, Some b => String (ascii_of_nat (16 * a + b)) (percent_decode s'')
            | _, _ => String c (percent_decode s')
            end
        | _ => String c (percent_decode s')
        end
      else String c (percent_decode s')
  end.

Definition urldecode (s : string) : string := percent_decode (plus_to_space s).

Definition parse_pair (seq : string) : string * string :=
  let (n, v) := cut "=" seq in (urldecode n, urldecode (default EmptyString v)).

(** The urlencoded parser: empty sequences between [&] are skipped. *)
Definition parse_urlencoded (q : string) : list (string * string) :=
  map parse_pair (filter (fun seq => seq <> EmptyString) (split "&" q)).

Definition serialize_pair (p : string * string) : string :=
  urlencode (fst p) +:+ "=" +:+ urlencode (snd p).

Definition serialize_urlencoded (ps : list (string * string)) : string :=
  join "&" (map serialize_pair ps).

(** *** URL objects *)

(** [base] is everything before the query: scheme, authority and path. The
    [searchParams] list is the parsed query, kept in step with [query] by the
    update steps of every mutation. *)
Record URL := {
  base : string;
  query : option string;
  fragment : option string;
  searchParams : list (string * string)
}.

(** [new URL(href)] *)
Definition new_URL (href : string) : URL :=
  let (rest, frag) := cut "#" href in
  let (b, q) := cut "?" rest in
  {| base := b; query := q; fragment := frag;
     searchParams := parse_urlencoded (default EmptyString q) |}.

(** [url.toString()] / [url.href] *)
Definition toString (u : URL) : string :=
  base u
  +:+ match query u with Some q => "?" +:+ q | None => EmptyString end
  +:+ match fragment u with Some f => "#" +:+ f | None => EmptyString end.

(** The update steps run after a mutation of [searchParams]: an empty
    serialisation clears the query. *)
Definition update (ps : list (string * string)) (u : URL) : URL :=
  let q := serialize_urlencoded ps in
  {| base := base u;
     query := if String.eqb q EmptyString then None else Some q;
     fragment := fragment u;
     searchParams := ps |}.

(** [url.searchParams.get(name)]: the first value, or [null]. *)
Definition get (name : string) (u : URL) : option string :=
  snd <$> List.find (fun p => String.eqb (fst p) name) (searchParams u).

(** [url.searchParams.append(name, value)] *)
Definition append (name value : string) (u : URL) : URL :=
  update (searchParams u ++ [(name, value)])%list u.

(** [url.searchParams.delete(name)]: removes every pair called [name]. *)
Definition delete (name : string) (u : URL) : URL :=
  update (List.filter (fun p => negb (String.eqb (fst p) name)) (searchParams u)) u.

(** *** [window.location]

    The location is given by its serialised href. For an http(s) page that is
    [scheme://[credentials@]host[:port]/path[?query][#fragment]], with the
    default port already left out. *)

(** The page is served over http or https. *)
Definition is_http (href : string) : bool :=
  startsWith "http://" href || startsWith "https://" href.

(** [host[:port]] of an authority: the text after the credentials, that is
    after the last [@], or the whole authority when it has none. *)
Fixpoint hostport (authority : string) : string :=
  match authority with
  | EmptyString => EmptyString
  | String c rest =>
      if has "@" rest then hostport rest
      else if Ascii.eqb c "@" then rest else authority
  end.

(** Scheme, authority and path of a hierarchical href; the path of an href
    that stops after the authority is [/]. *)
Definition hierarchy (href : string) : option (string * string * string) :=
  match cut ":" (base (new_URL href)) with
  | (scheme, Some rest) =>
      if startsWith "//" rest then
        let (authority, path) := cut "/" (drop 2 rest) in
        Some (scheme, authority,
              match path with
              | Some p => String "/" p
              | None => "/"
              end)
      else None
  | (_, None) => None
  end.

(** The schemes whose URLs have a tuple origin. *)
Definition tuple_origin_scheme (scheme : string) : bool :=
  existsb (String.eqb scheme) ["http"; "https"; "ws"; "wss"; "ftp"].

(** [window.location.origin]: scheme, host and port, never the credentials.
    Any other location has the opaque origin, serialised as [null]. *)
Definition origin (href : string) : string :=
  match hierarchy href with
  | Some (scheme, authority, _) =>
      if tuple_origin_scheme scheme then scheme +:+ "://" +:+ hostport authority
      else "null"
  | None => "null"
  end.

(** [window.location.pathname]; for a location that is not hierarchical, what
    follows the scheme. *)
Definition pathname (href : string) : string :=
  match hierarchy href with
  | Some (_, _, path) => path
  | None =>
      match cut ":" (base (new_URL href)) with
      | (_, Some rest) => rest
      | (b, None) => b
      end
  end.

(** [window.location.origin + window.location.pathname] of a location whose
    href is [href]. *)
Definition origin_pathname (href : string) : string := origin href +:+ pathname href.

End Url.

(** ** components/Pages/EmailVerification/index.tsx *)

Module EmailVerification.

(** [routes.EMAIL_LOGIN] of components/Openfort/types.ts. *)
Definition EMAIL_LOGIN : string := "emailLogin".

Record VerificationResponse := { success : bool; error : option string }.

(** What the page does to the outside, in program order. *)
Inductive Event :=
| SetRoute (r : string)
| RemoveItem (key : string)
| RequestEmailVerification (email redirectUrl : string)
| VerifyEmail (email state : string)
| Log (call : Js.LogCall)
| ConsoleError (msg : string)
| ReplaceState (url : string).

(** [client.auth]: how each SDK promise settles for given arguments. *)
Record Auth := {
  requestEmailVerification : string -> string -> Js.Settled;
  verifyEmail : string -> string -> Js.Settled
}.

(** The browser and router state the page reads and writes. [entries] is the
    number of session-history entries. *)
Record World := {
  href : string;
  entries : nat;
  localStorage : gmap string string;
  route : string;
  trace : list Event
}.

(** The component's hooks: three [useState] cells and the [useMemo] cell.
    [shouldSendEmailVerification] is [false | string]: [None] is [false]. *)
Record Hooks := {
  loading : bool;
  shouldSendEmailVerification : option string;
  emailInStorage : option string;
  verificationResponse : option VerificationResponse
}.

Definition emit (e : Event) (w : World) : World :=
  {| href := href w; entries := entries w; localStorage := localStorage w;
     route := route w; trace := (trace w ++ [e])%list |}.

Definition setRoute (r : string) (w : World) : World :=
  emit (SetRoute r)
    {| href := href w; entries := entries w; localStorage := localStorage w;
       route := r; trace := trace w |}.

(** [localStorage.removeItem(key)] *)
Definition removeItem (key : string) (w : World) : World :=
  emit (RemoveItem key)
    {| href := href w; entries := entries w;
       localStorage := delete key (localStorage w);
       route := route w; trace := trace w |}.

(** [window.history.replaceState({}, title, url)]: the current entry is
    rewritten, no entry is added. *)
Definition replaceState (url : string) (w : World) : World :=
  emit (ReplaceState url)
    {| href := url; entries := entries w; localStorage := localStorage w;
       route := route w; trace := trace w |}.

Definition setLoading (b : bool) (h : Hooks) : Hooks :=
  {| loading := b;
     shouldSendEmailVerification := shouldSendEmailVerification h;
     emailInStorage := emailInStorage h;
     verificationResponse := verificationResponse h |}.

Definition setShouldSendEmailVerification (v : option string) (h : Hooks) : Hooks :=
  {| loading := loading h;
     shouldSendEmailVerification := v;
     emailInStorage := emailInStorage h;
     verificationResponse := verificationResponse h |}.

Definition setVerificationResponse (r : VerificationResponse) (h : Hooks) : Hooks :=
  {| loading := loading h;
     shouldSendEmailVerification := shouldSendEmailVerification h;
     emailInStorage := emailInStorage h;
     verificationResponse := Some r |}.

Definition verification_keys : list string :=
  ["state"; "openfortEmailVerificationUI"; "email"].

(** The [url] object the mount effect works on, for a given
    [window.location.href]. *)
Definition page_url (href : string) : Url.URL :=
  Url.new_URL (Url.replace "?state=" "&state=" href).

(** The value the page reads for a query parameter, when it is a non-empty
    string (what the [if (!v)] tests of the effect let through). *)
Definition reads (name : string) (href : string) : option string :=
  Js.nonempty (Url.get name (page_url href)).

Definition verify_error_text : string :=
  "There was an error verifying your email. Please try again.".

Section Page.

(** [emailToVerifyLocalStorageKey] of constants/openfort, and the SDK client
    obtained from [useOpenfortCore]. *)
Variable emailToVerifyLocalStorageKey : string.
Variable client : Auth.

(** The first render: initial [useState] values, and [useMemo] reading local
    storage once. *)
Definition first_render (w : World) : Hooks :=
  {| loading := true;
     shouldSendEmailVerification := None;
     emailInStorage := localStorage w !! emailToVerifyLocalStorageKey;
     verificationResponse := None |}.

Definition sendEmailVerification (email : string) (w : World) : World :=
  if negb (Js.truthy email) then emit (Log [Js.LStr "No linked account found"]) w
  else
    let redirectUrl := Url.new_URL (Url.origin_pathname (href w)) in
    let redirectUrl := Url.append "openfortEmailVerificationUI" "true" redirectUrl in
    let redirectUrl := Url.append "email" email redirectUrl in
    let w1 := emit (RequestEmailVerification email (Url.toString redirectUrl)) w in
    match requestEmailVerification client email (Url.toString redirectUrl) with
    | Js.Fulfilled => w1
    | Js.Rejected e =>
        emit (Log [Js.LStr "Error requesting email verification"; Js.LErr e]) w1
    end.

(** The effect that depends on [shouldSendEmailVerification]. *)
Definition send_effect (h : Hooks) (w : World) : World :=
  match Js.nonempty (shouldSendEmailVerification h) with
  | Some email => sendEmailVerification email w
  | None => w
  end.

Definition removeParams (url : Url.URL) (w : World) : World :=
  let url := foldl (fun u key => Url.delete key u) url verification_keys in
  replaceState (Url.toString url) w.

(** The effect with no dependencies, run once after the first render. The
    asynchronous block is followed to the point where the [verifyEmail]
    promise has settled. *)
Definition mount_effect (h : Hooks) (w : World) : Hooks * World :=
  let fixedUrl := Url.replace "?state=" "&state=" (href w) in
  let url := Url.new_URL fixedUrl in
  let openfortEmailVerificationUI := Url.get "openfortEmailVerificationUI" url in
  match Js.nonempty openfortEmailVerificationUI with
  | None =>
      match Js.nonempty (emailInStorage h) with
      | None => (h, setRoute EMAIL_LOGIN w)
      | Some _ =>
          let h := setShouldSendEmailVerification (emailInStorage h) h in
          let w := removeItem emailToVerifyLocalStorageKey w in
          let h := setLoading false h in
          (h, w)
      end
  | Some _ =>
      let state := Url.get "state" url in
      let email := Url.get "email" url in
      match Js.nonempty state with
      | None => (h, emit (ConsoleError "No state found in URL") w)
      | Some state =>
          match Js.nonempty email with
          | None => (h, setRoute EMAIL_LOGIN w)
          | Some email =>
              let w := emit (Log [Js.LStr "EmailVerification"; Js.LStr state; Js.LStr email]) w in
              let w := emit (VerifyEmail email state) w in
              let '(h, w) :=
                match verifyEmail client email state with
                | Js.Fulfilled =>
                    (setVerificationResponse {| success := true; error := None |} h, w)
                | Js.Rejected e =>
                    let h := setVerificationResponse
                               {| success := false; error := Some verify_error_text |} h in
                    (h, emit (Log [Js.LStr "Error verifying email"; Js.LErr e]) w)
                end in
              let w := removeParams url w in
              let h := setLoading false h in
              (h, w)
          end
      end
  end.

(** One page load: first render, both effects in declaration order, then the
    re-run of the first effect when its dependency has changed. *)
Definition page_load (w : World) : Hooks * World :=
  let h0 := first_render w in
  let w := send_effect h0 w in
  let '(h1, w) := mount_effect h0 w in
  let w :=
    if decide (shouldSendEmailVerification h1 = shouldSendEmailVerification h0)
    then w else send_effect h1 w in
  (h1, w).

End Page.

(** What the component renders. *)
Inductive View :=
| Loader (reason : string)
| ResultView (title body : string)
| EmailSent (email : option string).

Definition render (h : Hooks) : View :=
  if loading h then Loader "Checking if account is verified"
  else match verificationResponse h with
       | Some r =>
           ResultView
             (if success r then "Email verified" else "Email verification failed")
             (match Js.nonempty (error r) with
              | Some e => e
              | None => "Your email has been verified."
              end)
       | None => EmailSent (emailInStorage h)
       end.

(** The states of the flow, read off the rendering. *)
Inductive Phase := CHECKING | AWAITING_USER_CHECK | DONE.

Definition phase (h : Hooks) : Phase :=
  match render h with
  | Loader _ => CHECKING
  | ResultView _ _ => DONE
  | EmailSent _ => AWAITING_USER_CHECK
  end.

(** The three values the mount effect looks up in the URL. *)
Definition verification_params (href : string) : list (option string) :=
  map (fun name => Url.get name (page_url href))
      ["openfortEmailVerificationUI"; "state"; "email"].

(** A world at page load: one history entry, the router on
    [routes.EMAIL_VERIFICATION], nothing traced yet. *)
Definition at_load (href : string) (storage : gmap string string) : World :=
  {| href := href; entries := 1; localStorage := storage;
     route := "emailVerification"; trace := [] |}.

(** A client whose two operations settle the same way for all arguments. *)
Definition settling (request verify : Js.Settled) : Auth :=
  {| requestEmailVerification := fun _ _ => request;
     verifyEmail := fun _ _ => verify |}.

(** Position of the first event satisfying [p] in a trace. *)
Fixpoint first_index (p : Event -> bool) (t : list Event) : option nat :=
  match t with
  | [] => None
  | e :: t' => if p e then Some 0 else S <$> first_index p t'
  end.

Definition is_sdk_call (e : Event) : bool :=
  match e with
  | RequestEmailVerification _ _ | VerifyEmail _ _ => true
  | _ => false
  end.

Definition is_request (e : Event) : bool :=
  match e with
  | RequestEmailVerification _ _ => true
  | _ => false
  end.

Definition is_remove (key : string) (e : Event) : bool :=
  match e with
  | RemoveItem k => String.eqb k key
  | _ => false
  end.

Definition is_verify (e : Event) : bool :=
  match e with
  | VerifyEmail _ _ => true
  | _ => false
  end.

(** The [redirectUrl.toString()] that [sendEmailVerification] hands to the
    SDK, for a location [href] and an email. *)
Definition redirectUrl_of (href email : string) : string :=
  Url.toString
    (Url.append "email" email
       (Url.append "openfortEmailVerificationUI" "true"
          (Url.new_URL (Url.origin_pathname href)))).

(** A state token that survives being pasted into a query unescaped: none of
    [? # & + %]. *)
Definition plain_token (s : string) : bool :=
  negb (Url.has "?" s || Url.has "#" s || Url.has "&" s || Url.has "+" s || Url.has "%" s).

(** The request event comes before the removal of [key] in the trace. *)
Definition request_before_removal (key : string) (t : list Event) : Prop :=
  exists i j, first_index is_request t = Some i
              /\ first_index (is_remove key) t = Some j
              /\ i < j.

End EmailVerification.

(** ** getDefaultTransports *)

Module Transports.

(** An entry of the [chainConfigs] table (constants/chainConfigs), as far as
    [createTransport] reads it. *)
Record ProviderUrls := { httpUrl : option string; webSocketUrl : option string }.
Record RpcUrls := { alchemy : option ProviderUrls; infura : option ProviderUrls }.
Record ChainConfig := { id : Z; rpcUrls : option RpcUrls }.

(** A wagmi [Chain]; [chain.id] is the only field the helper reads. *)
Record Chain := { chain_id : Z; chain_name : string }.

Definition mainnet : Chain := {| chain_id := 1; chain_name := "Ethereum" |}.
Definition polygon : Chain := {| chain_id := 137; chain_name := "Polygon" |}.
Definition optimism : Chain := {| chain_id := 10; chain_name := "OP Mainnet" |}.
Definition arbitrum : Chain := {| chain_id := 42161; chain_name := "Arbitrum One" |}.

Inductive Provider := Alchemy | Infura | Public.

(** [http(url?)] and [webSocket(url)] of wagmi; [http None] is the public
    transport [http()]. *)
Inductive Transport :=
| http (url : option string)
| webSocket (url : string).

(** [fallback(urls)] *)
Record FallbackTransport := fallback { ordered : list Transport }.

Section Table.

Variable chainConfigs : list ChainConfig.

Definition createTransport (chain : Chain) (provider : Provider) (apiKey : string)
  : Transport :=
  let supportedChain := List.find (fun c => Z.eqb (id c) (chain_id chain)) chainConfigs in
  match supportedChain ≫= rpcUrls with
  | Some urls =>
      match provider with
      | Alchemy =>
          if Js.truthy_opt (alchemy urls ≫= httpUrl)
          then http (Some (Js.plus (alchemy urls ≫= httpUrl) apiKey))
          else webSocket (Js.plus (alchemy urls ≫= webSocketUrl) apiKey)
      | Infura =>
          if Js.truthy_opt (infura urls ≫= httpUrl)
          then http (Some (Js.plus (infura urls ≫= httpUrl) apiKey))
          else webSocket (Js.plus (infura urls ≫= webSocketUrl) apiKey)
      | Public => http None
      end
  | None => http None
  end.

(** The entry a provider contributes to a chain's list: one transport when its
    key is a non-empty string, nothing otherwise. *)
Definition slot (chain : Chain) (provider : Provider) (key : option string)
  : list Transport :=
  match Js.nonempty key with
  | Some k => [createTransport chain provider k]
  | None => []
  end.

(** The body of the [forEach] callback up to [fallback(urls)]. *)
Definition urls_for (alchemyId infuraId : option string) (chain : Chain)
  : list Transport :=
  let urls : list Transport := [] in
  let urls :=
    match Js.nonempty alchemyId with
    | Some key => (urls ++ [createTransport chain Alchemy key])%list
    | None => urls
    end in
  let urls :=
    match Js.nonempty infuraId with
    | Some key => (urls ++ [createTransport chain Infura key])%list
    | None => urls
    end in
  (urls ++ [http None])%list.

Definition getDefaultTransports (chains : option (list Chain))
    (alchemyId infuraId : option string) : gmap Z FallbackTransport :=
  let chains := default [mainnet; polygon; optimism; arbitrum] chains in
  foldl (fun transports chain =>
           <[chain_id chain := fallback (urls_for alchemyId infuraId chain)]> transports)
        ∅ chains.

End Table.

End Transports.

(** ** hooks/useConnect.tsx *)

Module UseConnect.

(** The [onError] handler installed by the hook: the calls it makes to
    [context.log]. *)
Definition onError (err : Js.Error) : list Js.LogCall :=
  match Js.nonempty (Js.message err) with
  | Some message =>
      if negb (String.eqb message "User rejected request")
      then [[Js.LStr message; Js.LErr err]]
      else []
  | None => [[Js.LStr "Could not connect."; Js.LErr err]]
  end.

End UseConnect.

(** * Properties *)

(** ** Client registry *)

Lemma getDefaultClient_set (st : Registry.State) (c : Registry.OpenfortClient)
    (options : option Registry.OpenfortSDKConfiguration) :
  Registry.defaultClient st = Some c ->
  Registry.getDefaultClient options st = (Js.Normal c, st).
Proof.
  intros Hc. unfold Registry.getDefaultClient. rewrite Hc. simpl.
  now rewrite Hc.
Qed.

Lemma getDefaultClient_unset_config (st : Registry.State)
    (config : Registry.OpenfortSDKConfiguration) :
  Registry.defaultClient st = None ->
  Registry.getDefaultClient (Some config) st =
    (Js.Normal {| Registry.ref := Registry.constructed st;
                  Registry.configuration := config |},
     {| Registry.constructed := S (Registry.constructed st);
        Registry.defaultClient :=
          Some {| Registry.ref := Registry.constructed st;
                  Registry.configuration := config |} |}).
Proof.
  intros Hn. unfold Registry.getDefaultClient. now rewrite Hn.
Qed.

Lemma getDefaultClient_unset_none (st : Registry.State) :
  Registry.defaultClient st = None ->
  Registry.getDefaultClient None st =
    (Js.Throw (Js.mkError (Some Registry.uninitialized_message)), st).
Proof.
  intros Hn. unfold Registry.getDefaultClient. rewrite Hn. simpl. now rewrite Hn.
Qed.

(** A step never clears the singleton. *)
Lemma step_keeps_set (call : Registry.Call) (st : Registry.State) :
  is_Some (Registry.defaultClient st) ->
  is_Some (Registry.defaultClient (Registry.step call st)).
Proof.
  intros [c Hc]. destruct call as [config|options|client]; simpl.
  - now exists c.
  - rewrite (getDefaultClient_set st c options Hc). now exists c.
  - now eexists.
Qed.

(** A step other than [setDefaultClient] keeps a stored instance. *)
Lemma step_keeps_instance (call : Registry.Call) (st : Registry.State)
    (c : Registry.OpenfortClient) :
  Registry.is_set call = false ->
  Registry.defaultClient st = Some c ->
  Registry.defaultClient (Registry.step call st) = Some c.
Proof.
  intros Hs Hc. destruct call as [config|options|client]; simpl in *.
  - exact Hc.
  - now rewrite (getDefaultClient_set st c options Hc).
  - discriminate.
Qed.

Lemma run_keeps_set (calls : list Registry.Call) (st : Registry.State) :
  is_Some (Registry.defaultClient st) ->
  is_Some (Registry.defaultClient (Registry.run calls st)).
Proof.
  revert st. induction calls as [|call calls IH]; intros st Hs; simpl.
  - exact Hs.
  - apply IH. now apply step_keeps_set.
Qed.

Lemma run_keeps_instance (calls : list Registry.Call) (st : Registry.State)
    (c : Registry.OpenfortClient) :
  forallb (fun call => negb (Registry.is_set call)) calls = true ->
  Registry.defaultClient st = Some c ->
  Registry.defaultClient (Registry.run calls st) = Some c.
Proof.
  revert st. induction calls as [|call calls IH]; intros st Hns Hc; simpl in *.
  - exact Hc.
  - apply andb_prop in Hns as [Hcall Hrest].
    apply IH; [exact Hrest|].
    apply step_keeps_instance; [|exact Hc].
    now apply negb_true_iff.
Qed.

(** Only first-time initialisation and [setDefaultClient] write the
    singleton. *)
Lemma step_writes (call : Registry.Call) (st : Registry.State) :
  Registry.defaultClient (Registry.step call st) <> Registry.defaultClient st ->
  (exists client, call = Registry.CallSet client)
  \/ (exists config, call = Registry.CallGet (Some config)
                     /\ Registry.defaultClient st = None).
Proof.
  intros Hneq. destruct call as [config|options|client].
  - now contradiction Hneq.
  - destruct (Registry.defaultClient st) as [c|] eqn:Hc.
    + contradiction Hneq. simpl.
      now rewrite (getDefaultClient_set st c options Hc).
    + destruct options as [config|].
      * right. now exists config.
      * contradiction Hneq. simpl.
        now rewrite (getDefaultClient_unset_none st Hc).
  - left. now exists client.
Qed.

(** C1. With the singleton unset, [getDefaultClient] given a config
    constructs a client, stores it and returns it, and every later call, with
    or without a config, returns that same instance and constructs nothing;
    given no config it throws the error whose message tells the caller to wrap
    the app with OpenfortProvider, and the singleton stays unset. *)
Theorem C1_getDefaultClient_init_or_throw (st : Registry.State) :
  Registry.defaultClient st = None ->
  (forall config : Registry.OpenfortSDKConfiguration,
     exists c st1,
       Registry.getDefaultClient (Some config) st = (Js.Normal c, st1)
       /\ c = fst (Registry.new_OpenfortClient config st)
       /\ Registry.constructed st1 = S (Registry.constructed st)
       /\ Registry.defaultClient st1 = Some c
       /\ forall options, Registry.getDefaultClient options st1 = (Js.Normal c, st1))
  /\ (exists e,
        Registry.getDefaultClient None st = (Js.Throw e, st)
        /\ Js.message e =
             Some "Openfort client not initialized. Make sure to wrap your app with OpenfortProvider."
        /\ Registry.defaultClient (snd (Registry.getDefaultClient None st)) = None).
Proof.
  intros Hn. split.
  - intros config. eexists _, _. split.
    + apply getDefaultClient_unset_config, Hn.
    + split; [reflexivity|]. split; [reflexivity|]. split; [reflexivity|].
      intros options. now apply getDefaultClient_set.
  - eexists. rewrite (getDefaultClient_unset_none st Hn). repeat split. exact Hn.
Qed.

Lemma C1_witness :
  Registry.defaultClient Registry.initial = None
  /\ (exists c st1,
        Registry.getDefaultClient (Some {| Registry.publishableKey := "pk_test_123" |})
          Registry.initial = (Js.Normal c, st1)
        /\ forall options, Registry.getDefaultClient options st1 = (Js.Normal c, st1))
  /\ fst (Registry.getDefaultClient None Registry.initial)
     = Js.Throw (Js.mkError (Some Registry.uninitialized_message)).
Proof.
  destruct (C1_getDefaultClient_init_or_throw Registry.initial eq_refl) as [Hcfg Hthrow].
  split; [reflexivity|]. split.
  - destruct (Hcfg {| Registry.publishableKey := "pk_test_123" |})
      as (c & st1 & Hget & _ & _ & _ & Hagain).
    now exists c, st1.
  - reflexivity.
Defined.

(** C3. [setDefaultClient h] followed by [getDefaultClient] with any config
    (or none) returns exactly [h]; the config is ignored, no client is
    constructed and the stored value is still [h]. *)
Theorem C3_set_then_get (h : Registry.OpenfortClient)
    (options : option Registry.OpenfortSDKConfiguration) (st : Registry.State) :
  Registry.getDefaultClient options (Registry.setDefaultClient h st)
    = (Js.Normal h, Registry.setDefaultClient h st)
  /\ Registry.constructed (snd (Registry.getDefaultClient options (Registry.setDefaultClient h st)))
     = Registry.constructed st
  /\ Registry.defaultClient (snd (Registry.getDefaultClient options (Registry.setDefaultClient h st)))
     = Some h.
Proof.
  assert (Hget : Registry.getDefaultClient options (Registry.setDefaultClient h st)
                 = (Js.Normal h, Registry.setDefaultClient h st))
    by now apply getDefaultClient_set.
  rewrite Hget. now repeat split.
Qed.

(** C9. Once a [getDefaultClient] call has returned a client [c], the
    singleton is set and no sequence of calls clears it; as long as
    [setDefaultClient] is not called, every later [getDefaultClient], with or
    without a config, returns [c] without throwing and leaves the state as it
    was; and a call changes the stored instance only if it is
    [setDefaultClient] or a [getDefaultClient] with a config on an unset
    singleton, so never [createOpenfortClient] or a repeated
    [getDefaultClient]. *)
Theorem C9_singleton_invariant (st st1 : Registry.State)
    (options : option Registry.OpenfortSDKConfiguration) (c : Registry.OpenfortClient) :
  Registry.getDefaultClient options st = (Js.Normal c, st1) ->
  Registry.defaultClient st1 = Some c
  /\ (forall calls, is_Some (Registry.defaultClient (Registry.run calls st1)))
  /\ (forall calls options',
        forallb (fun call => negb (Registry.is_set call)) calls = true ->
        Registry.getDefaultClient options' (Registry.run calls st1)
          = (Js.Normal c, Registry.run calls st1))
  /\ (forall call s,
        Registry.defaultClient (Registry.step call s) <> Registry.defaultClient s ->
        (exists client, call = Registry.CallSet client)
        \/ (exists config, call = Registry.CallGet (Some config)
                           /\ Registry.defaultClient s = None)).
Proof.
  intros Hget.
  assert (Hc : Registry.defaultClient st1 = Some c).
  { unfold Registry.getDefaultClient in Hget.
    destruct (Registry.defaultClient st) as [d|] eqn:Hd; simpl in Hget.
    - rewrite Hd in Hget. now inversion Hget; subst.
    - destruct options as [config|]; simpl in Hget.
      + now inversion Hget; subst.
      + rewrite Hd in Hget. discriminate. }
  split; [exact Hc|]. split; [|split].
  - intros calls. apply run_keeps_set. now exists c.
  - intros calls options' Hns. apply getDefaultClient_set.
    now apply run_keeps_instance.
  - intros call s. apply step_writes.
Qed.

Lemma C9_witness :
  let cfg := {| Registry.publishableKey := "pk_test_123" |} in
  let c := {| Registry.ref := 0; Registry.configuration := cfg |} in
  let st1 := {| Registry.constructed := 1; Registry.defaultClient := Some c |} in
  Registry.getDefaultClient (Some cfg) Registry.initial = (Js.Normal c, st1)
  /\ Registry.getDefaultClient None
       (Registry.run [Registry.CallCreate cfg; Registry.CallGet (Some cfg)] st1)
     = (Js.Normal c, Registry.run [Registry.CallCreate cfg; Registry.CallGet (Some cfg)] st1).
Proof.
  intros cfg c st1. split; [reflexivity|].
  apply (C9_singleton_invariant Registry.initial st1 (Some cfg) c eq_refl).
  reflexivity.
Defined.

(** ** Transport helper *)

Section TransportFacts.

Variable chainConfigs : list Transports.ChainConfig.
Variables alchemyId infuraId : option string.

Lemma urls_for_slots (chain : Transports.Chain) :
  Transports.urls_for chainConfigs alchemyId infuraId chain
  = (Transports.slot chainConfigs chain Transports.Alchemy alchemyId
       ++ Transports.slot chainConfigs chain Transports.Infura infuraId
       ++ [Transports.http None])%list.
Proof.
  unfold Transports.urls_for, Transports.slot.
  destruct (Js.nonempty alchemyId), (Js.nonempty infuraId); reflexivity.
Qed.

(** The helper reads nothing of a chain but its id. *)
Lemma createTransport_id (c1 c2 : Transports.Chain) provider key :
  Transports.chain_id c1 = Transports.chain_id c2 ->
  Transports.createTransport chainConfigs c1 provider key
  = Transports.createTransport chainConfigs c2 provider key.
Proof. intros Hid. unfold Transports.createTransport. now rewrite Hid. Qed.

Lemma urls_for_id (c1 c2 : Transports.Chain) :
  Transports.chain_id c1 = Transports.chain_id c2 ->
  Transports.urls_for chainConfigs alchemyId infuraId c1
  = Transports.urls_for chainConfigs alchemyId infuraId c2.
Proof.
  intros Hid. rewrite !urls_for_slots. unfold Transports.slot.
  destruct (Js.nonempty alchemyId), (Js.nonempty infuraId);
    now rewrite ?(createTransport_id c1 c2 _ _ Hid).
Qed.

Lemma createTransport_unlisted (chain : Transports.Chain) provider key :
  List.find (fun c => Z.eqb (Transports.id c) (Transports.chain_id chain)) chainConfigs = None ->
  Transports.createTransport chainConfigs chain provider key = Transports.http None.
Proof. intros Hf. unfold Transports.createTransport. now rewrite Hf. Qed.

Lemma createTransport_listed (chain : Transports.Chain) cfg urls provider key :
  List.find (fun c => Z.eqb (Transports.id c) (Transports.chain_id chain)) chainConfigs = Some cfg ->
  Transports.rpcUrls cfg = Some urls ->
  provider <> Transports.Public ->
  exists u, Transports.createTransport chainConfigs chain provider key
              = Transports.http (Some (u +:+ key))
            \/ Transports.createTransport chainConfigs chain provider key
              = Transports.webSocket (u +:+ key).
Proof.
  intros Hf Hu Hp. unfold Transports.createTransport. rewrite Hf. simpl. rewrite Hu.
  destruct provider; [| |contradiction].
  - destruct (Js.truthy_opt _) eqn:Ht.
    + destruct (Transports.alchemy urls ≫= Transports.httpUrl) as [u|]; [|discriminate].
      exists u. now left.
    + destruct (Transports.alchemy urls ≫= Transports.webSocketUrl) as [u|];
        eexists; right; reflexivity.
  - destruct (Js.truthy_opt _) eqn:Ht.
    + destruct (Transports.infura urls ≫= Transports.httpUrl) as [u|]; [|discriminate].
      exists u. now left.
    + destruct (Transports.infura urls ≫= Transports.webSocketUrl) as [u|];
        eexists; right; reflexivity.
Qed.

(** What the [forEach] loop leaves under a key, starting from any record. *)
Lemma transports_fold (chains : list Transports.Chain)
    (m : gmap Z Transports.FallbackTransport) (i : Z) :
  let f := fun (transports : gmap Z Transports.FallbackTransport) chain =>
             <[Transports.chain_id chain :=
                 Transports.fallback
                   (Transports.urls_for chainConfigs alchemyId infuraId chain)]> transports in
  (exists chain, chain ∈ chains /\ Transports.chain_id chain = i
                 /\ foldl f m chains !! i
                    = Some (Transports.fallback
                              (Transports.urls_for chainConfigs alchemyId infuraId chain)))
  \/ ((forall chain, chain ∈ chains -> Transports.chain_id chain <> i)
      /\ foldl f m chains !! i = m !! i).
Proof.
  intros f. revert m. induction chains as [|c cs IH]; intros m; simpl.
  - right. split; [|reflexivity]. intros chain Hin. inversion Hin.
  - destruct (IH (f m c)) as [(chain & Hin & Hid & Hl)|[Hnone Hl]].
    + left. exists chain. split; [now right|]. now split.
    + destruct (decide (Transports.chain_id c = i)) as [Heq|Hne].
      * left. exists c. split; [now left|]. split; [exact Heq|].
        rewrite Hl. unfold f. rewrite <- Heq. apply lookup_insert_eq.
      * right. split.
        -- intros chain Hin. apply elem_of_cons in Hin as [->|Hin]; [exact Hne|].
           now apply Hnone.
        -- rewrite Hl. unfold f. now apply lookup_insert_ne.
Qed.

(** The transport of a provider for a chain listed with RPC URLs, case by
    case on the URLs the table holds for that provider. *)
Lemma createTransport_exact (chain : Transports.Chain) (cfg : Transports.ChainConfig)
    (rpc : Transports.RpcUrls) (provider : Transports.Provider)
    (urls : option Transports.ProviderUrls) (key : string) :
  List.find (fun c => Z.eqb (Transports.id c) (Transports.chain_id chain)) chainConfigs
    = Some cfg ->
  Transports.rpcUrls cfg = Some rpc ->
  (provider = Transports.Alchemy /\ urls = Transports.alchemy rpc)
  \/ (provider = Transports.Infura /\ urls = Transports.infura rpc) ->
  (forall u, urls ≫= Transports.httpUrl = Some u -> u <> "" ->
     Transports.createTransport chainConfigs chain provider key
     = Transports.http (Some (u +:+ key)))
  /\ (forall ws, Js.truthy_opt (urls ≫= Transports.httpUrl) = false ->
        urls ≫= Transports.webSocketUrl = Some ws ->
        Transports.createTransport chainConfigs chain provider key
        = Transports.webSocket (ws +:+ key))
  /\ (Js.truthy_opt (urls ≫= Transports.httpUrl) = false ->
      urls ≫= Transports.webSocketUrl = None ->
      Transports.createTransport chainConfigs chain provider key
      = Transports.webSocket ("undefined" +:+ key)).
Proof.
  intros Hf Hr Hp. unfold Transports.createTransport. rewrite Hf. simpl. rewrite Hr.
  destruct Hp as [[-> ->]|[-> ->]].
  - destruct (Transports.alchemy rpc ≫= Transports.httpUrl) as [u|] eqn:Hu; simpl.
    + unfold Js.truthy. destruct (String.eqb_spec u ""); simpl.
      * subst u. split; [intros u [= <-] Hne; contradiction|].
        split; [intros ws _ ->; reflexivity|intros _ ->; reflexivity].
      * split; [intros u' [= <-] _; reflexivity|].
        split; [intros ws [=]|intros [=]].
    + split; [intros u [=]|].
      split; [intros ws _ ->; reflexivity|intros _ ->; reflexivity].
  - destruct (Transports.infura rpc ≫= Transports.httpUrl) as [u|] eqn:Hu; simpl.
    + unfold Js.truthy. destruct (String.eqb_spec u ""); simpl.
      * subst u. split; [intros u [= <-] Hne; contradiction|].
        split; [intros ws _ ->; reflexivity|intros _ ->; reflexivity].
      * split; [intros u' [= <-] _; reflexivity|].
        split; [intros ws [=]|intros [=]].
    + split; [intros u [=]|].
      split; [intros ws _ ->; reflexivity|intros _ ->; reflexivity].
Qed.

Lemma createTransport_no_rpcUrls (chain : Transports.Chain) (cfg : Transports.ChainConfig)
    (provider : Transports.Provider) (key : string) :
  List.find (fun c => Z.eqb (Transports.id c) (Transports.chain_id chain)) chainConfigs
    = Some cfg ->
  Transports.rpcUrls cfg = None ->
  Transports.createTransport chainConfigs chain provider key = Transports.http None.
Proof.
  intros Hf Hr. unfold Transports.createTransport. rewrite Hf. simpl. now rewrite Hr.
Qed.

(** C8. For every chain of the input (or of the default list when none is
    given) the record holds, under the chain's id, the fallback of: the Alchemy
    transport when an Alchemy key is supplied, then the Infura transport when
    an Infura key is supplied, then the public transport [http()] as the last
    element. For a chain with an entry and RPC URLs in the chain-config table
    the Alchemy transport is built from the entry's Alchemy URLs and the
    Alchemy key, the Infura transport from the entry's Infura URLs and the
    Infura key: [http(url + key)] on the provider's non-empty http URL,
    otherwise [webSocket(url + key)] on its webSocket URL (the text
    'undefined' when there is none). For a chain absent from the table, or
    listed without RPC URLs, every element of the list is the public transport
    (one per supplied key, plus the final one). Ids of no input chain have no
    entry. *)
Theorem C8_default_transports (chains : option (list Transports.Chain))
    (chain : Transports.Chain) :
  chain ∈ default [Transports.mainnet; Transports.polygon; Transports.optimism;
                   Transports.arbitrum] chains ->
  exists urls,
    Transports.getDefaultTransports chainConfigs chains alchemyId infuraId
      !! Transports.chain_id chain = Some (Transports.fallback urls)
    /\ urls = ((match Js.nonempty alchemyId with
                | Some key =>
                    [Transports.createTransport chainConfigs chain Transports.Alchemy key]
                | None => []
                end)
               ++ (match Js.nonempty infuraId with
                   | Some key =>
                       [Transports.createTransport chainConfigs chain Transports.Infura key]
                   | None => []
                   end)
               ++ [Transports.http None])%list
    /\ last urls = Some (Transports.http None)
    /\ (forall cfg rpc provider key,
          List.find (fun c => Z.eqb (Transports.id c) (Transports.chain_id chain)) chainConfigs
            = Some cfg ->
          Transports.rpcUrls cfg = Some rpc ->
          provider <> Transports.Public ->
          exists u, Transports.createTransport chainConfigs chain provider key
                      = Transports.http (Some (u +:+ key))
                    \/ Transports.createTransport chainConfigs chain provider key
                      = Transports.webSocket (u +:+ key))
    /\ (List.find (fun c => Z.eqb (Transports.id c) (Transports.chain_id chain)) chainConfigs
          = None ->
        urls = replicate (length urls) (Transports.http None))
    /\ (forall i,
          (forall c, c ∈ default [Transports.mainnet; Transports.polygon;
                                  Transports.optimism; Transports.arbitrum] chains ->
                     Transports.chain_id c <> i) ->
          Transports.getDefaultTransports chainConfigs chains alchemyId infuraId !! i = None)
    /\ (forall cfg rpc key,
          List.find (fun c => Z.eqb (Transports.id c) (Transports.chain_id chain)) chainConfigs
            = Some cfg ->
          Transports.rpcUrls cfg = Some rpc ->
          let of_provider :=
            fun (provider : Transports.Provider) (from : option Transports.ProviderUrls) =>
              (forall u, from ≫= Transports.httpUrl = Some u -> u <> "" ->
                 Transports.createTransport chainConfigs chain provider key
                 = Transports.http (Some (u +:+ key)))
              /\ (forall ws, Js.truthy_opt (from ≫= Transports.httpUrl) = false ->
                    from ≫= Transports.webSocketUrl = Some ws ->
                    Transports.createTransport chainConfigs chain provider key
                    = Transports.webSocket (ws +:+ key))
              /\ (Js.truthy_opt (from ≫= Transports.httpUrl) = false ->
                  from ≫= Transports.webSocketUrl = None ->
                  Transports.createTransport chainConfigs chain provider key
                  = Transports.webSocket ("undefined" +:+ key)) in
          of_provider Transports.Alchemy (Transports.alchemy rpc)
          /\ of_provider Transports.Infura (Transports.infura rpc))
    /\ (forall cfg,
          List.find (fun c => Z.eqb (Transports.id c) (Transports.chain_id chain)) chainConfigs
            = Some cfg ->
          Transports.rpcUrls cfg = None ->
          urls = replicate (length urls) (Transports.http None)).
Proof.
  intros Hin.
  exists (Transports.urls_for chainConfigs alchemyId infuraId chain).
  split; [|split; [|split; [|split; [|split; [|split; [|split]]]]]].
  - unfold Transports.getDefaultTransports.
    destruct (transports_fold
                (default [Transports.mainnet; Transports.polygon; Transports.optimism;
                          Transports.arbitrum] chains) ∅ (Transports.chain_id chain))
      as [(c & _ & Hid & Hl)|[Hnone _]].
    + rewrite Hl. now rewrite (urls_for_id c chain Hid).
    + now contradiction (Hnone chain Hin).
  - apply urls_for_slots.
  - rewrite urls_for_slots, !app_assoc. apply last_snoc.
  - intros cfg rpc provider key. apply createTransport_listed.
  - intros Hf. rewrite urls_for_slots. unfold Transports.slot.
    destruct (Js.nonempty alchemyId), (Js.nonempty infuraId); simpl;
      now rewrite ?createTransport_unlisted.
  - intros i Hnone. unfold Transports.getDefaultTransports.
    destruct (transports_fold
                (default [Transports.mainnet; Transports.polygon; Transports.optimism;
                          Transports.arbitrum] chains) ∅ i)
      as [(c & Hc & Hid & _)|[_ Hl]].
    + now contradiction (Hnone c Hc).
    + rewrite Hl. apply lookup_empty.
  - intros cfg rpc key Hf Hr of_provider. subst of_provider. cbv beta. split.
    + apply (createTransport_exact chain cfg rpc Transports.Alchemy _ key Hf Hr).
      left. now split.
    + apply (createTransport_exact chain cfg rpc Transports.Infura _ key Hf Hr).
      right. now split.
  - intros cfg Hf Hr. rewrite urls_for_slots. unfold Transports.slot.
    destruct (Js.nonempty alchemyId), (Js.nonempty infuraId); simpl;
      now rewrite ?(createTransport_no_rpcUrls chain cfg _ _ Hf Hr).
Qed.

End TransportFacts.

Lemma C8_witness :
  let table := [ {| Transports.id := 1;
                    Transports.rpcUrls :=
                      Some {| Transports.alchemy :=
                                Some {| Transports.httpUrl := Some "https://eth-mainnet.g.alchemy.com/v2/";
                                        Transports.webSocketUrl := Some "wss://eth-mainnet.g.alchemy.com/v2/" |};
                              Transports.infura :=
                                Some {| Transports.httpUrl := None;
                                        Transports.webSocketUrl := Some "wss://mainnet.infura.io/ws/v3/" |} |} |} ] in
  let sepolia := {| Transports.chain_id := 11155111; Transports.chain_name := "Sepolia" |} in
  Transports.getDefaultTransports table (Some [Transports.mainnet; sepolia])
    (Some "AKEY") (Some "IKEY") !! 1%Z
  = Some (Transports.fallback
            [Transports.http (Some "https://eth-mainnet.g.alchemy.com/v2/AKEY");
             Transports.webSocket "wss://mainnet.infura.io/ws/v3/IKEY";
             Transports.http None])
  /\ Transports.getDefaultTransports table (Some [Transports.mainnet; sepolia])
       (Some "AKEY") (Some "IKEY") !! 11155111%Z
     = Some (Transports.fallback
               [Transports.http None; Transports.http None; Transports.http None])
  /\ Transports.getDefaultTransports table (Some [Transports.mainnet; sepolia])
       None (Some "IKEY") !! 1%Z
     = Some (Transports.fallback
               [Transports.webSocket "wss://mainnet.infura.io/ws/v3/IKEY";
                Transports.http None]).
Proof.
  intros table sepolia.
  destruct (C8_default_transports table (Some "AKEY") (Some "IKEY")
              (Some [Transports.mainnet; sepolia]) Transports.mainnet)
    as (urls & Hl & Hu & _ & _ & _ & _ & Hexact & _); [simpl; now left|].
  destruct (Hexact _ _ "AKEY" eq_refl eq_refl) as [(Ha & _) _].
  destruct (Hexact _ _ "IKEY" eq_refl eq_refl) as [_ (_ & Hi & _)].
  specialize (Ha "https://eth-mainnet.g.alchemy.com/v2/" eq_refl ltac:(discriminate)).
  specialize (Hi "wss://mainnet.infura.io/ws/v3/" eq_refl eq_refl).
  destruct (C8_default_transports table (Some "AKEY") (Some "IKEY")
              (Some [Transports.mainnet; sepolia]) sepolia)
    as (urls2 & Hl2 & Hu2 & _); [simpl; right; now left|].
  destruct (C8_default_transports table None (Some "IKEY")
              (Some [Transports.mainnet; sepolia]) Transports.mainnet)
    as (urls3 & Hl3 & Hu3 & _); [simpl; now left|].
  split; [|split].
  - rewrite Hu in Hl. cbn [Js.nonempty Js.truthy String.eqb negb app] in Hl.
    rewrite Ha, Hi in Hl. exact Hl.
  - rewrite Hu2 in Hl2. exact Hl2.
  - rewrite Hu3 in Hl3. cbn [Js.nonempty Js.truthy String.eqb negb app] in Hl3.
    rewrite Hi in Hl3. exact Hl3.
Defined.

(** ** Connect-error logging *)

(** C10. The [onError] handler logs nothing when the error's message is
    exactly 'User rejected request'; logs the message and the error when the
    message is any other non-empty string; and logs 'Could not connect.' and
    the error when the message is empty or absent. *)
Theorem C10_onError_filter (err : Js.Error) :
  (Js.message err = Some "User rejected request" -> UseConnect.onError err = [])
  /\ (forall m, Js.message err = Some m -> m <> "" -> m <> "User rejected request" ->
        UseConnect.onError err = [[Js.LStr m; Js.LErr err]])
  /\ (Js.message err = Some "" \/ Js.message err = None ->
        UseConnect.onError err = [[Js.LStr "Could not connect."; Js.LErr err]]).
Proof.
  unfold UseConnect.onError. split; [|split].
  - intros ->. reflexivity.
  - intros m -> Hne Hnr. unfold Js.nonempty, Js.truthy.
    destruct (String.eqb_spec m ""); [contradiction|]. simpl.
    destruct (String.eqb_spec m "User rejected request"); [contradiction|]. reflexivity.
  - intros [-> | ->]; reflexivity.
Qed.

Lemma C10_witness :
  UseConnect.onError (Js.mkError (Some "User rejected request")) = []
  /\ UseConnect.onError (Js.mkError (Some "Connector not found"))
     = [[Js.LStr "Connector not found"; Js.LErr (Js.mkError (Some "Connector not found"))]]
  /\ UseConnect.onError (Js.mkError (Some ""))
     = [[Js.LStr "Could not connect."; Js.LErr (Js.mkError (Some ""))]]
  /\ UseConnect.onError (Js.mkError None)
     = [[Js.LStr "Could not connect."; Js.LErr (Js.mkError None)]].
Proof.
  split; [|split; [|split]].
  - apply (C10_onError_filter (Js.mkError (Some "User rejected request"))). reflexivity.
  - apply (C10_onError_filter (Js.mkError (Some "Connector not found")));
      [reflexivity|discriminate|discriminate].
  - apply (C10_onError_filter (Js.mkError (Some ""))). now left.
  - apply (C10_onError_filter (Js.mkError None)). now right.
Defined.

(** ** Strings and URLs *)

#[local] Arguments String.append !s1 s2 : simpl nomatch.

Lemma string_app_assoc (a b c : string) : (a +:+ b) +:+ c = a +:+ (b +:+ c).
Proof. induction a as [|x a IH]; simpl; [reflexivity|now rewrite IH]. Qed.

Lemma string_app_empty_r (a : string) : a +:+ "" = a.
Proof. induction a as [|x a IH]; simpl; [reflexivity|now rewrite IH]. Qed.

Lemma has_app (c : ascii) (a b : string) :
  Url.has c (a +:+ b) = Url.has c a || Url.has c b.
Proof.
  induction a as [|x a IH]; simpl; [reflexivity|].
  now rewrite IH, orb_assoc.
Qed.

Lemma startsWith_app (pat rest : string) : Url.startsWith pat (pat +:+ rest) = true.
Proof.
  induction pat as [|p pat IH]; simpl; [reflexivity|].
  now rewrite Ascii.eqb_refl, IH.
Qed.

Lemma drop_app (pat rest : string) : Url.drop (String.length pat) (pat +:+ rest) = rest.
Proof. induction pat as [|p pat IH]; simpl; [reflexivity|exact IH]. Qed.

(** A pattern that contains neither of two bytes cannot tell which of them
    follows a common prefix. *)
Lemma startsWith_blind (pat pre rest : string) (c1 c2 : ascii) :
  Url.has c1 pat = false -> Url.has c2 pat = false ->
  Url.startsWith pat (pre +:+ String c1 rest) = Url.startsWith pat (pre +:+ String c2 rest).
Proof.
  revert pat. induction pre as [|a pre IH]; intros pat H1 H2.
  - destruct pat as [|p pat]; simpl in *; [reflexivity|].
    apply orb_false_elim in H1 as [H1 _]. apply orb_false_elim in H2 as [H2 _].
    now rewrite H1, H2.
  - destruct pat as [|p pat]; simpl in *; [reflexivity|].
    apply orb_false_elim in H1 as [_ H1]. apply orb_false_elim in H2 as [_ H2].
    now rewrite (IH pat H1 H2).
Qed.

Lemma replace_absent (pat rep s : string) :
  Url.includes pat s = false -> Url.replace pat rep s = s.
Proof.
  induction s as [|a s IH]; simpl; intros Hi.
  - apply orb_false_elim in Hi as [Hs _]. now rewrite Hs.
  - apply orb_false_elim in Hi as [Hs Hi]. rewrite Hs. now rewrite (IH Hi).
Qed.

Lemma replace_unfold (pat rep s : string) :
  Url.replace pat rep s
  = if Url.startsWith pat s then rep +:+ Url.drop (String.length pat) s
    else match s with
         | EmptyString => EmptyString
         | String c s' => String c (Url.replace pat rep s')
         end.
Proof. destruct s; reflexivity. Qed.

Lemma replace_here (pat rep rest : string) :
  Url.replace pat rep (pat +:+ rest) = rep +:+ rest.
Proof. now rewrite replace_unfold, startsWith_app, drop_app. Qed.

(** Replacing the first byte [p] of the pattern [p pat] by [c]: when the
    result has no occurrence of the pattern, the occurrence after [pre] was the
    first one. *)
Lemma replace_first_byte (p c : ascii) (pat pre rest : string) :
  Url.has p pat = false -> Url.has c pat = false ->
  Url.includes (String p pat) (pre +:+ String c (pat +:+ rest)) = false ->
  Url.replace (String p pat) (String c pat) (pre +:+ String p (pat +:+ rest))
  = pre +:+ String c (pat +:+ rest).
Proof.
  intros Hp Hc. induction pre as [|a pre IH]; intros Hi.
  - change (Url.replace (String p pat) (String c pat) (String p pat +:+ rest)
            = String c pat +:+ rest).
    apply replace_here.
  - simpl in Hi. apply orb_false_elim in Hi as [Hs Hi].
    simpl. rewrite (startsWith_blind pat pre (pat +:+ rest) p c Hp Hc), Hs.
    now rewrite (IH Hi).
Qed.

Lemma cut_fst_has (sep : ascii) (s : string) : Url.has sep (fst (Url.cut sep s)) = false.
Proof.
  induction s as [|a s IH]; simpl; [reflexivity|].
  destruct (Ascii.eqb a sep) eqn:Ha; simpl; [reflexivity|].
  destruct (Url.cut sep s) as [x y]; simpl in *. now rewrite Ha.
Qed.

Lemma cut_fst_has_other (c sep : ascii) (s : string) :
  Url.has c s = false -> Url.has c (fst (Url.cut sep s)) = false.
Proof.
  induction s as [|a s IH]; simpl; [reflexivity|]. intros Hc.
  apply orb_false_elim in Hc as [Ha Hc].
  destruct (Ascii.eqb a sep); simpl; [reflexivity|].
  specialize (IH Hc). destruct (Url.cut sep s) as [x y]; simpl in *.
  now rewrite Ha.
Qed.

Lemma cut_absent (sep : ascii) (s : string) :
  Url.has sep s = false -> Url.cut sep s = (s, None).
Proof.
  induction s as [|a s IH]; simpl; [reflexivity|]. intros Hc.
  apply orb_false_elim in Hc as [Ha Hc]. now rewrite Ha, (IH Hc).
Qed.

Lemma cut_app (sep : ascii) (a b : string) :
  Url.has sep a = false -> Url.cut sep (a +:+ String sep b) = (a, Some b).
Proof.
  induction a as [|x a IH]; simpl.
  - intros _. now rewrite Ascii.eqb_refl.
  - intros Hc. apply orb_false_elim in Hc as [Hx Hc]. now rewrite Hx, (IH Hc).
Qed.

Lemma split_absent (sep : ascii) (s : string) :
  Url.has sep s = false -> Url.split sep s = [s].
Proof.
  induction s as [|a s IH]; simpl; [reflexivity|]. intros Hc.
  apply orb_false_elim in Hc as [Ha Hc]. now rewrite Ha, (IH Hc).
Qed.

Lemma split_app (sep : ascii) (a b : string) :
  Url.has sep a = false ->
  Url.split sep (a +:+ String sep b) = a :: Url.split sep b.
Proof.
  induction a as [|x a IH]; simpl.
  - intros _. now rewrite Ascii.eqb_refl.
  - intros Hc. apply orb_false_elim in Hc as [Hx Hc]. now rewrite Hx, (IH Hc).
Qed.

(** The base of a parsed URL has neither [?] nor [#]. *)
Lemma new_URL_base (s : string) :
  Url.has "?" (Url.base (Url.new_URL s)) = false
  /\ Url.has "#" (Url.base (Url.new_URL s)) = false.
Proof.
  unfold Url.new_URL.
  pose proof (cut_fst_has "#" s) as Hh.
  destruct (Url.cut "#" s) as [rest frag]; simpl in Hh.
  pose proof (cut_fst_has "?" rest) as Hq.
  pose proof (cut_fst_has_other "#" "?" rest Hh) as Hh'.
  destruct (Url.cut "?" rest) as [b q]; simpl in *. now split.
Qed.

Lemma cut_snd_has (c sep : ascii) (s a r : string) :
  Url.has c s = false -> Url.cut sep s = (a, Some r) -> Url.has c r = false.
Proof.
  revert a. induction s as [|x s IH]; intros a Hc Hcut; simpl in *; [discriminate|].
  apply orb_false_elim in Hc as [Hx Hc].
  destruct (Ascii.eqb x sep).
  - injection Hcut as _ <-. exact Hc.
  - destruct (Url.cut sep s) as [a' r'] eqn:Hs. injection Hcut as _ ->.
    now apply (IH a').
Qed.

Lemma drop_has (c : ascii) (n : nat) (s : string) :
  Url.has c s = false -> Url.has c (Url.drop n s) = false.
Proof.
  revert s. induction n as [|n IH]; intros s Hc; [exact Hc|].
  destruct s as [|x s]; [reflexivity|]. simpl in *.
  apply orb_false_elim in Hc as [_ Hc]. now apply IH.
Qed.

Lemma hostport_has (c : ascii) (s : string) :
  Url.has c s = false -> Url.has c (Url.hostport s) = false.
Proof.
  induction s as [|x s IH]; intros Hc; [reflexivity|].
  pose proof Hc as Hc'. simpl in Hc'. apply orb_false_elim in Hc' as [_ Hs].
  simpl. destruct (Url.has "@" s); [now apply IH|].
  destruct (Ascii.eqb x "@"); [exact Hs|exact Hc].
Qed.

(** Origin plus path of a location has neither [?] nor [#]. *)
Lemma origin_pathname_plain (href : string) :
  Url.has "?" (Url.origin_pathname href) = false
  /\ Url.has "#" (Url.origin_pathname href) = false.
Proof.
  assert (Hgen : forall c : ascii,
             Url.has c (Url.base (Url.new_URL href)) = false ->
             Url.has c "://" = false -> Url.has c "/" = false -> Url.has c "null" = false ->
             Url.has c (Url.origin_pathname href) = false).
  { intros c Hb Hl1 Hl2 Hl3.
    change (Url.has c "/") with (Ascii.eqb "/" c || false) in Hl2.
    apply orb_false_elim in Hl2 as [Hslash _].
    unfold Url.origin_pathname, Url.origin, Url.pathname, Url.hierarchy.
    destruct (Url.cut ":" (Url.base (Url.new_URL href))) as [scheme [rest|]] eqn:Hcut.
    - pose proof (cut_fst_has_other c ":" _ Hb) as Hscheme. rewrite Hcut in Hscheme.
      pose proof (cut_snd_has c ":" _ _ _ Hb Hcut) as Hrest.
      simpl in Hscheme.
      destruct (Url.startsWith "//" rest).
      + pose proof (drop_has c 2 rest Hrest) as Hdrop.
        pose proof (cut_fst_has_other c "/" _ Hdrop) as Hauth.
        assert (Hpath : forall path,
                   Url.cut "/" (Url.drop 2 rest) = (fst (Url.cut "/" (Url.drop 2 rest)), path) ->
                   Url.has c match path with
                             | Some p => String "/" p
                             | None => "/"
                             end = false).
        { intros [p|] Hp.
          - change (Url.has c (String "/" p)) with (Ascii.eqb "/" c || Url.has c p).
            now rewrite Hslash, (cut_snd_has c "/" _ _ _ Hdrop Hp).
          - change (Url.has c "/") with (Ascii.eqb "/" c || false). now rewrite Hslash. }
        destruct (Url.cut "/" (Url.drop 2 rest)) as [authority path] eqn:Hcut2.
        simpl in Hauth. specialize (Hpath path eq_refl).
        destruct (Url.tuple_origin_scheme scheme).
        * now rewrite !has_app, Hscheme, Hl1, (hostport_has c _ Hauth), Hpath.
        * now rewrite has_app, Hl3, Hpath.
      + now rewrite has_app, Hl3, Hrest.
    - pose proof (cut_fst_has_other c ":" _ Hb) as Hscheme. rewrite Hcut in Hscheme.
      simpl in Hscheme. now rewrite has_app, Hl3, Hscheme. }
  destruct (new_URL_base href) as [Hq Hh].
  split; apply Hgen; try reflexivity; assumption.
Qed.

(** On an href without [?state=] the mount effect works on the plain
    [new URL(href)]. *)
Lemma page_url_plain (href : string) :
  Url.includes "?state=" href = false ->
  EmailVerification.page_url href = Url.new_URL href.
Proof.
  intros Hi. unfold EmailVerification.page_url. now rewrite replace_absent.
Qed.

(** *** The urlencoded serialiser and parser are inverse *)

Lemma decode_encode_byte (c : ascii) (rest : string) :
  Url.percent_decode (Url.plus_to_space (Url.encode_byte c +:+ rest))
  = String c (Url.percent_decode (Url.plus_to_space rest)).
Proof. destruct c as [[] [] [] [] [] [] [] []]; reflexivity. Qed.

Lemma urldecode_urlencode (s : string) : Url.urldecode (Url.urlencode s) = s.
Proof.
  unfold Url.urldecode. induction s as [|c s IH]; simpl; [reflexivity|].
  now rewrite decode_encode_byte, IH.
Qed.

Lemma encode_byte_plain (c : ascii) :
  Url.has "&" (Url.encode_byte c) = false
  /\ Url.has "=" (Url.encode_byte c) = false
  /\ Url.has "#" (Url.encode_byte c) = false.
Proof. destruct c as [[] [] [] [] [] [] [] []]; repeat split; reflexivity. Qed.

Lemma urlencode_plain (s : string) :
  Url.has "&" (Url.urlencode s) = false
  /\ Url.has "=" (Url.urlencode s) = false
  /\ Url.has "#" (Url.urlencode s) = false.
Proof.
  induction s as [|c s (Ha & He & Hh)]; simpl; [now repeat split|].
  destruct (encode_byte_plain c) as (Ha' & He' & Hh').
  rewrite !has_app, Ha, He, Hh, Ha', He', Hh'. now repeat split.
Qed.

Lemma serialize_pair_plain (p : string * string) :
  Url.has "&" (Url.serialize_pair p) = false
  /\ Url.has "#" (Url.serialize_pair p) = false
  /\ Url.serialize_pair p <> "".
Proof.
  unfold Url.serialize_pair.
  destruct (urlencode_plain (fst p)) as (Ha & _ & Hh).
  destruct (urlencode_plain (snd p)) as (Ha' & _ & Hh').
  rewrite !has_app, Ha, Ha', Hh, Hh'. repeat split.
  destruct (Url.urlencode (fst p)); discriminate.
Qed.

Lemma parse_serialize_pair (p : string * string) :
  Url.parse_pair (Url.serialize_pair p) = p.
Proof.
  unfold Url.parse_pair, Url.serialize_pair.
  destruct (urlencode_plain (fst p)) as (_ & He & _).
  change ("=" +:+ Url.urlencode (snd p)) with (String "=" (Url.urlencode (snd p))).
  rewrite (cut_app "=" _ _ He). simpl.
  rewrite !urldecode_urlencode. now destruct p.
Qed.

Lemma serialize_plain (ps : list (string * string)) :
  Url.has "#" (Url.serialize_urlencoded ps) = false.
Proof.
  unfold Url.serialize_urlencoded.
  induction ps as [|p ps IH]; [reflexivity|].
  destruct (serialize_pair_plain p) as (_ & Hh & _).
  destruct ps as [|q ps]; [exact Hh|].
  change (Url.has "#" (Url.serialize_pair p +:+ "&" +:+ Url.join "&" (map Url.serialize_pair (q :: ps))) = false).
  now rewrite !has_app, Hh, IH.
Qed.

Lemma parse_serialize (ps : list (string * string)) :
  Url.parse_urlencoded (Url.serialize_urlencoded ps) = ps.
Proof.
  unfold Url.parse_urlencoded, Url.serialize_urlencoded.
  induction ps as [|p ps IH]; [reflexivity|].
  destruct (serialize_pair_plain p) as (Ha & _ & Hne).
  destruct ps as [|q ps].
  - simpl. rewrite (split_absent "&" _ Ha).
    rewrite filter_cons, decide_True by exact Hne. rewrite filter_nil.
    simpl. now rewrite parse_serialize_pair.
  - change (Url.join "&" (map Url.serialize_pair (p :: q :: ps)))
      with (Url.serialize_pair p +:+ String "&" (Url.join "&" (map Url.serialize_pair (q :: ps)))).
    rewrite (split_app "&" _ _ Ha). rewrite filter_cons, decide_True by exact Hne.
    rewrite map_cons, parse_serialize_pair. now rewrite IH.
Qed.

(** Re-parsing the serialisation of a URL whose parameters were just updated
    gives the same URL object back. *)
Lemma new_URL_toString_update (ps : list (string * string)) (u : Url.URL) :
  Url.has "?" (Url.base u) = false -> Url.has "#" (Url.base u) = false ->
  Url.new_URL (Url.toString (Url.update ps u)) = Url.update ps u.
Proof.
  intros Hq Hh. unfold Url.toString, Url.update, Url.new_URL. simpl.
  pose proof (parse_serialize ps) as Hps.
  pose proof (serialize_plain ps) as Hplain.
  destruct (String.eqb_spec (Url.serialize_urlencoded ps) "") as [He|Hne].
  - rewrite He in Hps.
    destruct (Url.fragment u) as [f|]; simpl.
    + rewrite (cut_app "#" _ _ Hh), (cut_absent "?" _ Hq). simpl. now rewrite Hps.
    + rewrite string_app_empty_r, (cut_absent "#" _ Hh), (cut_absent "?" _ Hq).
      simpl. now rewrite Hps.
  - set (q := Url.serialize_urlencoded ps) in *.
    assert (Hbq : Url.has "#" (Url.base u +:+ String "?" q) = false).
    { rewrite has_app, Hh. simpl. exact Hplain. }
    destruct (Url.fragment u) as [f|]; simpl.
    + replace (Url.base u +:+ String "?" (q +:+ String "#" f))
        with ((Url.base u +:+ String "?" q) +:+ String "#" f)
        by now rewrite string_app_assoc.
      rewrite (cut_app "#" _ _ Hbq), (cut_app "?" _ _ Hq). simpl. now rewrite Hps.
    + rewrite string_app_empty_r.
      rewrite (cut_absent "#" _ Hbq), (cut_app "?" _ _ Hq). simpl. now rewrite Hps.
Qed.

Lemma find_filter_out {A} (p : A -> bool) (l : list A) :
  List.find p (List.filter (fun x => negb (p x)) l) = None.
Proof.
  induction l as [|x l IH]; simpl; [reflexivity|].
  destruct (p x) eqn:Hp; simpl; [exact IH|]. now rewrite Hp.
Qed.

Lemma find_filter_none {A} (p q : A -> bool) (l : list A) :
  List.find p l = None -> List.find p (List.filter q l) = None.
Proof.
  induction l as [|x l IH]; simpl; [reflexivity|].
  destruct (p x) eqn:Hp; [discriminate|]. intros Hn.
  destruct (q x); simpl; [rewrite Hp|]; now apply IH.
Qed.

Lemma get_delete (name : string) (u : Url.URL) : Url.get name (Url.delete name u) = None.
Proof.
  unfold Url.get, Url.delete. simpl.
  now rewrite (find_filter_out (fun p => String.eqb (fst p) name)).
Qed.

Lemma get_delete_none (name other : string) (u : Url.URL) :
  Url.get name u = None -> Url.get name (Url.delete other u) = None.
Proof.
  unfold Url.get, Url.delete. simpl. intros Hn.
  destruct (List.find _ (Url.searchParams u)) eqn:Hf; [discriminate|].
  now rewrite (find_filter_none _ _ _ Hf).
Qed.

Lemma find_filter_keep {A} (p q : A -> bool) (l : list A) :
  (forall x, p x = true -> q x = true) ->
  List.find p (List.filter q l) = List.find p l.
Proof.
  intros Hpq. induction l as [|x l IH]; simpl; [reflexivity|].
  destruct (p x) eqn:Hp.
  - rewrite (Hpq x Hp). simpl. now rewrite Hp.
  - destruct (q x); simpl; [rewrite Hp|]; exact IH.
Qed.

Lemma get_delete_ne (name other : string) (u : Url.URL) :
  name <> other -> Url.get name (Url.delete other u) = Url.get name u.
Proof.
  intros Hne. unfold Url.get, Url.delete. simpl.
  rewrite find_filter_keep; [reflexivity|].
  intros [n v]. simpl. intros Hn. apply String.eqb_eq in Hn. subst n.
  apply negb_true_iff. now apply String.eqb_neq.
Qed.

Lemma filter_filter {A} (f g : A -> bool) (l : list A) :
  List.filter f (List.filter g l) = List.filter (fun x => g x && f x) l.
Proof.
  induction l as [|x l IH]; simpl; [reflexivity|].
  destruct (g x); simpl; [destruct (f x)|]; now rewrite IH.
Qed.

(** ** Email verification page *)

Section PageFacts.

Variable key : string.
Variable client : EmailVerification.Auth.

Lemma nonempty_truthy (v : option string) (s : string) :
  Js.nonempty v = Some s -> v = Some s /\ s <> "".
Proof.
  destruct v as [x|]; simpl; [|discriminate].
  unfold Js.truthy. destruct (String.eqb_spec x ""); simpl; [discriminate|].
  intros [= ->]. now split.
Qed.

(** Flag not read, nothing stored: the page only changes the route. *)
Lemma page_load_login (w : EmailVerification.World) :
  EmailVerification.reads "openfortEmailVerificationUI" (EmailVerification.href w) = None ->
  Js.nonempty (EmailVerification.localStorage w !! key) = None ->
  EmailVerification.page_load key client w = (EmailVerification.first_render key w, EmailVerification.setRoute EmailVerification.EMAIL_LOGIN w).
Proof.
  unfold EmailVerification.reads, EmailVerification.page_url. intros Hflag Hstore.
  unfold EmailVerification.page_load, EmailVerification.mount_effect,
    EmailVerification.send_effect. simpl.
  rewrite Hflag, Hstore. reflexivity.
Qed.

(** Flag not read, an email stored: the key is removed by the mount effect and
    the request is sent by the re-run of the first effect. *)
Lemma page_load_request (w : EmailVerification.World) (e : string) :
  EmailVerification.reads "openfortEmailVerificationUI" (EmailVerification.href w) = None ->
  Js.nonempty (EmailVerification.localStorage w !! key) = Some e ->
  EmailVerification.page_load key client w
  = (EmailVerification.setLoading false
       (EmailVerification.setShouldSendEmailVerification (Some e) (EmailVerification.first_render key w)),
     EmailVerification.sendEmailVerification client e (EmailVerification.removeItem key w)).
Proof.
  unfold EmailVerification.reads, EmailVerification.page_url. intros Hflag Hstore.
  destruct (nonempty_truthy _ _ Hstore) as [Hs _].
  unfold EmailVerification.page_load, EmailVerification.mount_effect,
    EmailVerification.send_effect. simpl.
  rewrite Hs in Hstore.
  unfold EmailVerification.first_render. rewrite Hflag, Hs, Hstore.
  cbn [EmailVerification.setLoading EmailVerification.setShouldSendEmailVerification
       EmailVerification.shouldSendEmailVerification].
  rewrite Hstore. reflexivity.
Qed.

(** Flag read, no state read: only the console message. *)
Lemma page_load_no_state (w : EmailVerification.World) (flag : string) :
  EmailVerification.reads "openfortEmailVerificationUI" (EmailVerification.href w) = Some flag ->
  EmailVerification.reads "state" (EmailVerification.href w) = None ->
  EmailVerification.page_load key client w
  = (EmailVerification.first_render key w,
     EmailVerification.emit (EmailVerification.ConsoleError "No state found in URL") w).
Proof.
  unfold EmailVerification.reads, EmailVerification.page_url. intros Hflag Hstate.
  unfold EmailVerification.page_load, EmailVerification.mount_effect,
    EmailVerification.send_effect. simpl.
  rewrite Hflag, Hstate. reflexivity.
Qed.

(** Flag and state read, no email read: only the route change. *)
Lemma page_load_no_email (w : EmailVerification.World) (flag state : string) :
  EmailVerification.reads "openfortEmailVerificationUI" (EmailVerification.href w) = Some flag ->
  EmailVerification.reads "state" (EmailVerification.href w) = Some state ->
  EmailVerification.reads "email" (EmailVerification.href w) = None ->
  EmailVerification.page_load key client w = (EmailVerification.first_render key w, EmailVerification.setRoute EmailVerification.EMAIL_LOGIN w).
Proof.
  unfold EmailVerification.reads, EmailVerification.page_url. intros Hflag Hstate Hemail.
  unfold EmailVerification.page_load, EmailVerification.mount_effect,
    EmailVerification.send_effect. simpl.
  rewrite Hflag, Hstate, Hemail. reflexivity.
Qed.

(** Flag, state and email read: the verification call, its result, the
    clean-up of the URL. *)
Lemma page_load_confirm (w : EmailVerification.World) (flag state email : string) :
  EmailVerification.reads "openfortEmailVerificationUI" (EmailVerification.href w) = Some flag ->
  EmailVerification.reads "state" (EmailVerification.href w) = Some state ->
  EmailVerification.reads "email" (EmailVerification.href w) = Some email ->
  let w1 := EmailVerification.emit (EmailVerification.VerifyEmail email state)
              (EmailVerification.emit
                 (EmailVerification.Log
                    [Js.LStr "EmailVerification"; Js.LStr state; Js.LStr email]) w) in
  let url := EmailVerification.page_url (EmailVerification.href w) in
  EmailVerification.page_load key client w
  = match EmailVerification.verifyEmail client email state with
    | Js.Fulfilled =>
        (EmailVerification.setLoading false
           (EmailVerification.setVerificationResponse
              {| EmailVerification.success := true; EmailVerification.error := None |}
              (EmailVerification.first_render key w)),
         EmailVerification.removeParams url w1)
    | Js.Rejected e =>
        (EmailVerification.setLoading false
           (EmailVerification.setVerificationResponse
              {| EmailVerification.success := false;
                 EmailVerification.error := Some EmailVerification.verify_error_text |}
              (EmailVerification.first_render key w)),
         EmailVerification.removeParams url
           (EmailVerification.emit
              (EmailVerification.Log [Js.LStr "Error verifying email"; Js.LErr e]) w1))
    end.
Proof.
  unfold EmailVerification.reads, EmailVerification.page_url. intros Hflag Hstate Hemail.
  unfold EmailVerification.page_load, EmailVerification.mount_effect,
    EmailVerification.send_effect. simpl.
  rewrite Hflag, Hstate, Hemail. simpl.
  destruct (EmailVerification.verifyEmail client email state); reflexivity.
Qed.

End PageFacts.

(** C7. When the page reads no verification flag from the URL and local
    storage holds no pending email (no entry, or an empty one), a page load
    does one thing: it sets the route to the login route. No SDK operation is
    called, and local storage, the URL and the history are left as they
    were. *)
Theorem C7_no_flag_no_email (key : string) (client : EmailVerification.Auth)
    (w : EmailVerification.World) :
  EmailVerification.reads "openfortEmailVerificationUI" (EmailVerification.href w) = None ->
  Js.nonempty (EmailVerification.localStorage w !! key) = None ->
  let w' := snd (EmailVerification.page_load key client w) in
  EmailVerification.trace w'
    = (EmailVerification.trace w ++ [EmailVerification.SetRoute "emailLogin"])%list
  /\ forallb (fun e => negb (EmailVerification.is_sdk_call e))
       [EmailVerification.SetRoute "emailLogin"] = true
  /\ EmailVerification.route w' = "emailLogin"
  /\ EmailVerification.localStorage w' = EmailVerification.localStorage w
  /\ EmailVerification.href w' = EmailVerification.href w
  /\ EmailVerification.entries w' = EmailVerification.entries w.
Proof.
  intros Hflag Hstore w'. subst w'.
  rewrite (page_load_login key client w Hflag Hstore). now repeat split.
Qed.

Lemma C7_witness :
  let w := EmailVerification.at_load "https://app/callback" ∅ in
  let w' := snd (EmailVerification.page_load "openfort.emailToVerify"
                   (EmailVerification.settling Js.Fulfilled Js.Fulfilled) w) in
  EmailVerification.trace w' = [EmailVerification.SetRoute "emailLogin"]
  /\ EmailVerification.route w' = "emailLogin".
Proof.
  intros w w'.
  destruct (C7_no_flag_no_email "openfort.emailToVerify"
              (EmailVerification.settling Js.Fulfilled Js.Fulfilled) w)
    as (Ht & _ & Hr & _); [reflexivity|reflexivity|].
  split; [exact Ht|exact Hr].
Defined.

(** C6. When the page reads the verification flag: if it reads no [state]
    (parameter missing or empty), a page load only writes the diagnostic
    'No state found in URL' to the console, with no SDK call, no route change
    and no change to the URL, and the page stays on its loading view; if it
    reads a [state] but no [email], a page load only sets the route to the
    login route, with no SDK call. *)
Theorem C6_confirmation_guards (key : string) (client : EmailVerification.Auth)
    (w : EmailVerification.World) (flag : string) :
  EmailVerification.reads "openfortEmailVerificationUI" (EmailVerification.href w) = Some flag ->
  let r := EmailVerification.page_load key client w in
  (EmailVerification.reads "state" (EmailVerification.href w) = None ->
     EmailVerification.trace (snd r)
       = (EmailVerification.trace w
            ++ [EmailVerification.ConsoleError "No state found in URL"])%list
     /\ EmailVerification.route (snd r) = EmailVerification.route w
     /\ EmailVerification.href (snd r) = EmailVerification.href w
     /\ EmailVerification.localStorage (snd r) = EmailVerification.localStorage w
     /\ EmailVerification.phase (fst r) = EmailVerification.CHECKING)
  /\ (forall state,
        EmailVerification.reads "state" (EmailVerification.href w) = Some state ->
        EmailVerification.reads "email" (EmailVerification.href w) = None ->
        EmailVerification.trace (snd r)
          = (EmailVerification.trace w ++ [EmailVerification.SetRoute "emailLogin"])%list
        /\ EmailVerification.route (snd r) = "emailLogin"
        /\ EmailVerification.href (snd r) = EmailVerification.href w).
Proof.
  intros Hflag r. subst r. split.
  - intros Hstate. rewrite (page_load_no_state key client w flag Hflag Hstate).
    now repeat split.
  - intros state Hstate Hemail.
    rewrite (page_load_no_email key client w flag state Hflag Hstate Hemail).
    now repeat split.
Qed.

Lemma C6_witness :
  let client := EmailVerification.settling Js.Fulfilled Js.Fulfilled in
  let no_state :=
    EmailVerification.at_load
      "https://app/callback?openfortEmailVerificationUI=true&email=a%40b.com" ∅ in
  let no_email :=
    EmailVerification.at_load
      "https://app/callback?openfortEmailVerificationUI=true&state=XYZ" ∅ in
  EmailVerification.trace (snd (EmailVerification.page_load "openfort.emailToVerify" client no_state))
    = [EmailVerification.ConsoleError "No state found in URL"]
  /\ EmailVerification.trace (snd (EmailVerification.page_load "openfort.emailToVerify" client no_email))
     = [EmailVerification.SetRoute "emailLogin"].
Proof.
  intros client no_state no_email. split.
  - destruct (C6_confirmation_guards "openfort.emailToVerify" client no_state "true" eq_refl)
      as [Habort _].
    destruct (Habort eq_refl) as (Ht & _). exact Ht.
  - destruct (C6_confirmation_guards "openfort.emailToVerify" client no_email "true" eq_refl)
      as [_ Hlogin].
    destruct (Hlogin "XYZ" eq_refl eq_refl) as (Ht & _). exact Ht.
Defined.

(** The redirect URL built by [sendEmailVerification]: origin and path of the
    location, then the flag and the urlencoded email. *)
Lemma redirectUrl_eq (href email : string) :
  Url.toString
    (Url.append "email" email
       (Url.append "openfortEmailVerificationUI" "true"
          (Url.new_URL (Url.origin_pathname href))))
  = Url.origin_pathname href +:+ "?openfortEmailVerificationUI=true&email="
      +:+ Url.urlencode email.
Proof.
  destruct (origin_pathname_plain href) as [Hq Hh].
  set (P := Url.origin_pathname href) in *.
  assert (HP : Url.new_URL P
               = {| Url.base := P; Url.query := None; Url.fragment := None;
                    Url.searchParams := [] |}).
  { unfold Url.new_URL. now rewrite (cut_absent "#" _ Hh), (cut_absent "?" _ Hq). }
  rewrite HP. unfold Url.append, Url.update, Url.toString. simpl.
  rewrite string_app_empty_r. reflexivity.
Qed.

Lemma sendEmailVerification_trace (client : EmailVerification.Auth) (email : string)
    (w : EmailVerification.World) :
  email <> "" ->
  let redirectUrl :=
    Url.origin_pathname (EmailVerification.href w)
      +:+ "?openfortEmailVerificationUI=true&email=" +:+ Url.urlencode email in
  EmailVerification.sendEmailVerification client email w
  = match EmailVerification.requestEmailVerification client email redirectUrl with
    | Js.Fulfilled =>
        EmailVerification.emit
          (EmailVerification.RequestEmailVerification email redirectUrl) w
    | Js.Rejected e =>
        EmailVerification.emit
          (EmailVerification.Log [Js.LStr "Error requesting email verification"; Js.LErr e])
          (EmailVerification.emit
             (EmailVerification.RequestEmailVerification email redirectUrl) w)
    end.
Proof.
  intros Hne redirectUrl. unfold EmailVerification.sendEmailVerification, Js.truthy.
  destruct (String.eqb_spec email ""); [contradiction|]. simpl negb. cbv iota.
  rewrite redirectUrl_eq. reflexivity.
Qed.

(** C5, as the code has it. On an http(s) page, when the page reads no
    verification flag and local storage holds the pending email [e]
    (non-empty), a page load first removes the persisted key and then calls
    [requestEmailVerification] with [e] and the redirect URL made of the
    location's origin (scheme, host and port, without any credentials) and
    path, followed by [?openfortEmailVerificationUI=true&email=] and the
    urlencoded [e]; a rejected request is only logged. The key is gone from
    local storage, the URL and route are unchanged, and the page shows the
    'check your email' view with [e]. *)
Theorem C5_request_phase (key : string) (client : EmailVerification.Auth)
    (w : EmailVerification.World) (e : string) :
  Url.is_http (EmailVerification.href w) = true ->
  EmailVerification.reads "openfortEmailVerificationUI" (EmailVerification.href w) = None ->
  EmailVerification.localStorage w !! key = Some e ->
  e <> "" ->
  let redirectUrl :=
    Url.origin_pathname (EmailVerification.href w)
      +:+ "?openfortEmailVerificationUI=true&email=" +:+ Url.urlencode e in
  let r := EmailVerification.page_load key client w in
  EmailVerification.trace (snd r)
    = (EmailVerification.trace w
         ++ [EmailVerification.RemoveItem key;
             EmailVerification.RequestEmailVerification e redirectUrl]
         ++ match EmailVerification.requestEmailVerification client e redirectUrl with
            | Js.Fulfilled => []
            | Js.Rejected err =>
                [EmailVerification.Log
                   [Js.LStr "Error requesting email verification"; Js.LErr err]]
            end)%list
  /\ EmailVerification.localStorage (snd r) = delete key (EmailVerification.localStorage w)
  /\ EmailVerification.localStorage (snd r) !! key = None
  /\ EmailVerification.href (snd r) = EmailVerification.href w
  /\ EmailVerification.route (snd r) = EmailVerification.route w
  /\ EmailVerification.render (fst r) = EmailVerification.EmailSent (Some e)
  /\ EmailVerification.phase (fst r) = EmailVerification.AWAITING_USER_CHECK.
Proof.
  intros _ Hflag Hstore Hne redirectUrl r. subst r.
  assert (Hs : Js.nonempty (EmailVerification.localStorage w !! key) = Some e).
  { rewrite Hstore. unfold Js.nonempty, Js.truthy.
    now destruct (String.eqb_spec e ""). }
  rewrite (page_load_request key client w e Hflag Hs).
  cbn [fst snd].
  rewrite (sendEmailVerification_trace client e _ Hne).
  change (EmailVerification.href (EmailVerification.removeItem key w))
    with (EmailVerification.href w).
  fold redirectUrl.
  assert (Hview : EmailVerification.render
                    (EmailVerification.setLoading false
                       (EmailVerification.setShouldSendEmailVerification (Some e)
                          (EmailVerification.first_render key w)))
                  = EmailVerification.EmailSent (Some e)).
  { unfold EmailVerification.render. simpl. now rewrite Hstore. }
  assert (Hphase : EmailVerification.phase
                     (EmailVerification.setLoading false
                        (EmailVerification.setShouldSendEmailVerification (Some e)
                           (EmailVerification.first_render key w)))
                   = EmailVerification.AWAITING_USER_CHECK).
  { unfold EmailVerification.phase. now rewrite Hview. }
  destruct (EmailVerification.requestEmailVerification client e redirectUrl); simpl;
    rewrite <- ?app_assoc; simpl;
    (split; [reflexivity|]); (split; [reflexivity|]);
    (split; [apply lookup_delete_eq|]); now repeat split.
Qed.

Lemma C5_witness :
  let key := "openfort.emailToVerify" in
  let client := EmailVerification.settling Js.Fulfilled Js.Fulfilled in
  let w := EmailVerification.at_load "https://app/callback" {[ key := "a@b.com" ]} in
  let r := EmailVerification.page_load key client w in
  let w2 := EmailVerification.at_load "https://user:pw@app:8443/callback?tab=2#top"
              {[ key := "a b@c.com" ]} in
  let r2 := EmailVerification.page_load key client w2 in
  EmailVerification.trace (snd r)
    = [EmailVerification.RemoveItem key;
       EmailVerification.RequestEmailVerification "a@b.com"
         "https://app/callback?openfortEmailVerificationUI=true&email=a%40b.com"]
  /\ EmailVerification.localStorage (snd r) !! key = None
  /\ EmailVerification.render (fst r) = EmailVerification.EmailSent (Some "a@b.com")
  /\ EmailVerification.trace (snd r2)
     = [EmailVerification.RemoveItem key;
        EmailVerification.RequestEmailVerification "a b@c.com"
          "https://app:8443/callback?openfortEmailVerificationUI=true&email=a+b%40c.com"].
Proof.
  intros key client w r w2 r2.
  destruct (C5_request_phase key client w "a@b.com")
    as (Ht & _ & Hk & _ & _ & Hv & _); [reflexivity|reflexivity|reflexivity|discriminate|].
  destruct (C5_request_phase key client w2 "a b@c.com")
    as (Ht2 & _); [reflexivity|reflexivity|reflexivity|discriminate|].
  split; [exact Ht|]. split; [exact Hk|]. split; [exact Hv|exact Ht2].
Defined.

(** C5 as stated fails: on the spec's own example the key is removed before
    the request is issued, not after. *)
Lemma C5_counterexample :
  let key := "openfort.emailToVerify" in
  let w := EmailVerification.at_load "https://app/callback" {[ key := "a@b.com" ]} in
  let t := EmailVerification.trace
             (snd (EmailVerification.page_load key
                     (EmailVerification.settling Js.Fulfilled Js.Fulfilled) w)) in
  EmailVerification.first_index (EmailVerification.is_remove key) t = Some 0
  /\ EmailVerification.first_index EmailVerification.is_request t = Some 1
  /\ ~ EmailVerification.request_before_removal key t.
Proof.
  intros key w t.
  assert (Hrm : EmailVerification.first_index (EmailVerification.is_remove key) t = Some 0)
    by reflexivity.
  assert (Hrq : EmailVerification.first_index EmailVerification.is_request t = Some 1)
    by reflexivity.
  split; [exact Hrm|]. split; [exact Hrq|].
  intros (i & j & Hi & Hj & Hlt).
  rewrite Hrq in Hi. rewrite Hrm in Hj.
  injection Hi as <-. injection Hj as <-. lia.
Qed.

(** After [removeParams] the URL object has none of the three parameters, and
    the href written to the history parses back to that object. *)
Lemma removeParams_strips (href : string) :
  let url := EmailVerification.page_url href in
  let url' := foldl (fun u k => Url.delete k u) url EmailVerification.verification_keys in
  Url.new_URL (Url.toString url') = url'
  /\ Forall (fun k => Url.get k url' = None) EmailVerification.verification_keys.
Proof.
  intros url url'. subst url'. unfold EmailVerification.verification_keys.
  cbn [foldl]. split.
  - destruct (new_URL_base (Url.replace "?state=" "&state=" href)) as [Hq Hh].
    unfold Url.delete at 1. now apply new_URL_toString_update.
  - repeat constructor.
    + apply get_delete_none, get_delete_none, get_delete.
    + apply get_delete_none, get_delete.
    + apply get_delete.
Qed.

(** What [removeParams] keeps of the URL object: origin and path, fragment,
    and every parameter that is not one of the three. *)
Lemma removeParams_keeps (href : string) :
  let url := EmailVerification.page_url href in
  let url' := foldl (fun u k => Url.delete k u) url EmailVerification.verification_keys in
  url' = Url.delete "email" (Url.delete "openfortEmailVerificationUI" (Url.delete "state" url))
  /\ Url.base url' = Url.base url
  /\ Url.fragment url' = Url.fragment url
  /\ Url.searchParams url'
     = List.filter
         (fun p => negb (String.eqb (fst p) "state")
                   && negb (String.eqb (fst p) "openfortEmailVerificationUI")
                   && negb (String.eqb (fst p) "email"))
         (Url.searchParams url).
Proof.
  intros url url'. subst url'. unfold EmailVerification.verification_keys. cbn [foldl].
  split; [reflexivity|]. split; [reflexivity|]. split; [reflexivity|].
  unfold Url.delete at 1 2 3. cbn [Url.searchParams Url.update].
  rewrite !filter_filter. apply List.filter_ext. intros p. now rewrite andb_assoc.
Qed.

Lemma removeParams_href (url : Url.URL) (w : EmailVerification.World) :
  EmailVerification.href (EmailVerification.removeParams url w)
  = Url.toString (foldl (fun u k => Url.delete k u) url EmailVerification.verification_keys).
Proof. reflexivity. Qed.

(** C2. When the page reads a verification flag, a state token and an email
    from the URL, a page load calls [verifyEmail] once with that email and
    state. If the promise fulfils, the result state is [{success: true}]; if
    it rejects with [err], the result state is [{success: false, error}] with
    a non-empty error text and [err] is logged. In both cases the last thing
    done is [history.replaceState] with the URL stripped of [state], [email]
    and [openfortEmailVerificationUI] (the new href has none of them, and no
    history entry is added), and the page shows its result view (DONE). The
    new href is the serialisation of the URL object the effect parsed, after
    the three deletions: it has the old origin and path, the old fragment, and
    exactly the old query parameters other than the three, in their old order
    and with their old values. *)
Theorem C2_confirmation_phase (key : string) (client : EmailVerification.Auth)
    (w : EmailVerification.World) (flag state email : string) :
  EmailVerification.reads "openfortEmailVerificationUI" (EmailVerification.href w) = Some flag ->
  EmailVerification.reads "state" (EmailVerification.href w) = Some state ->
  EmailVerification.reads "email" (EmailVerification.href w) = Some email ->
  let r := EmailVerification.page_load key client w in
  let called :=
    [EmailVerification.Log [Js.LStr "EmailVerification"; Js.LStr state; Js.LStr email];
     EmailVerification.VerifyEmail email state] in
  let old := EmailVerification.page_url (EmailVerification.href w) in
  let new := Url.new_URL (EmailVerification.href (snd r)) in
  (EmailVerification.verifyEmail client email state = Js.Fulfilled ->
     EmailVerification.verificationResponse (fst r)
       = Some {| EmailVerification.success := true; EmailVerification.error := None |}
     /\ EmailVerification.trace (snd r)
        = (EmailVerification.trace w ++ called
             ++ [EmailVerification.ReplaceState (EmailVerification.href (snd r))])%list)
  /\ (forall err,
        EmailVerification.verifyEmail client email state = Js.Rejected err ->
        (exists text,
           EmailVerification.verificationResponse (fst r)
             = Some {| EmailVerification.success := false;
                       EmailVerification.error := Some text |}
           /\ text <> "")
        /\ EmailVerification.trace (snd r)
           = (EmailVerification.trace w ++ called
                ++ [EmailVerification.Log [Js.LStr "Error verifying email"; Js.LErr err];
                    EmailVerification.ReplaceState (EmailVerification.href (snd r))])%list)
  /\ Forall (fun k => Url.get k (Url.new_URL (EmailVerification.href (snd r))) = None)
       ["state"; "email"; "openfortEmailVerificationUI"]
  /\ EmailVerification.entries (snd r) = EmailVerification.entries w
  /\ EmailVerification.route (snd r) = EmailVerification.route w
  /\ EmailVerification.loading (fst r) = false
  /\ EmailVerification.phase (fst r) = EmailVerification.DONE
  /\ EmailVerification.href (snd r)
     = Url.toString
         (Url.delete "email"
            (Url.delete "openfortEmailVerificationUI" (Url.delete "state" old)))
  /\ Url.base new = Url.base old
  /\ Url.fragment new = Url.fragment old
  /\ Url.searchParams new
     = List.filter
         (fun p => negb (String.eqb (fst p) "state")
                   && negb (String.eqb (fst p) "openfortEmailVerificationUI")
                   && negb (String.eqb (fst p) "email"))
         (Url.searchParams old)
  /\ (forall name,
        name <> "state" -> name <> "openfortEmailVerificationUI" -> name <> "email" ->
        Url.get name new = Url.get name old).
Proof.
  intros Hflag Hstate Hemail r called old new. subst r called old new.
  rewrite (page_load_confirm key client w flag state email Hflag Hstate Hemail).
  destruct (removeParams_strips (EmailVerification.href w)) as [Hback Hnone].
  destruct (removeParams_keeps (EmailVerification.href w)) as (Hdel & Hbase & Hfrag & Hsp).
  cbv zeta in Hback, Hnone, Hdel, Hbase, Hfrag, Hsp.
  assert (Hstripped :
            Forall (fun k =>
                      Url.get k
                        (Url.new_URL
                           (Url.toString
                              (foldl (fun u k => Url.delete k u)
                                 (EmailVerification.page_url (EmailVerification.href w))
                                 EmailVerification.verification_keys))) = None)
              ["state"; "email"; "openfortEmailVerificationUI"]).
  { rewrite Hback. unfold EmailVerification.verification_keys in Hnone.
    inversion Hnone as [|? ? Hs Hrest]; subst.
    inversion Hrest as [|? ? Hf Hrest']; subst.
    inversion Hrest' as [|? ? He _]; subst.
    repeat constructor; assumption. }
  assert (Hstate_of :
            forall (h : EmailVerification.Hooks) (w1 : EmailVerification.World),
              EmailVerification.entries w1 = EmailVerification.entries w ->
              EmailVerification.route w1 = EmailVerification.route w ->
              EmailVerification.verificationResponse h <> None ->
              let r := (EmailVerification.setLoading false h,
                        EmailVerification.removeParams
                          (EmailVerification.page_url (EmailVerification.href w)) w1) in
              let old := EmailVerification.page_url (EmailVerification.href w) in
              let new := Url.new_URL (EmailVerification.href (snd r)) in
              Forall (fun k => Url.get k (Url.new_URL (EmailVerification.href (snd r))) = None)
                ["state"; "email"; "openfortEmailVerificationUI"]
              /\ EmailVerification.entries (snd r) = EmailVerification.entries w
              /\ EmailVerification.route (snd r) = EmailVerification.route w
              /\ EmailVerification.loading (fst r) = false
              /\ EmailVerification.phase (fst r) = EmailVerification.DONE
              /\ EmailVerification.href (snd r)
                 = Url.toString
                     (Url.delete "email"
                        (Url.delete "openfortEmailVerificationUI" (Url.delete "state" old)))
              /\ Url.base new = Url.base old
              /\ Url.fragment new = Url.fragment old
              /\ Url.searchParams new
                 = List.filter
                     (fun p => negb (String.eqb (fst p) "state")
                               && negb (String.eqb (fst p) "openfortEmailVerificationUI")
                               && negb (String.eqb (fst p) "email"))
                     (Url.searchParams old)
              /\ (forall name,
                    name <> "state" -> name <> "openfortEmailVerificationUI" ->
                    name <> "email" ->
                    Url.get name new = Url.get name old)).
  { intros h w1 Hent Hroute Hresp r old new. subst r old new. cbn [fst snd].
    rewrite !removeParams_href.
    split; [exact Hstripped|]. split; [exact Hent|]. split; [exact Hroute|].
    split; [reflexivity|].
    split.
    { unfold EmailVerification.phase, EmailVerification.render. cbn.
      now destruct (EmailVerification.verificationResponse h). }
    split; [now rewrite Hdel|].
    rewrite Hback. split; [exact Hbase|]. split; [exact Hfrag|]. split; [exact Hsp|].
    intros name Hs Hf He. rewrite Hdel. now rewrite !get_delete_ne. }
  destruct (EmailVerification.verifyEmail client email state) as [|err0].
  - split.
    { intros _. split; [reflexivity|].
      cbn [fst snd].
      unfold EmailVerification.removeParams, EmailVerification.replaceState,
        EmailVerification.emit. simpl. now rewrite <- !app_assoc. }
    split; [intros err [=]|].
    apply Hstate_of; [reflexivity|reflexivity|discriminate].
  - split; [intros [=]|].
    split.
    { intros err [= <-]. split.
      - exists EmailVerification.verify_error_text. split; [reflexivity|discriminate].
      - cbn [fst snd].
        unfold EmailVerification.removeParams, EmailVerification.replaceState,
          EmailVerification.emit. simpl. now rewrite <- !app_assoc. }
    apply Hstate_of; [reflexivity|reflexivity|discriminate].
Qed.

Lemma C2_witness :
  let href := "https://app/callback?openfortEmailVerificationUI=true&state=XYZ&email=a%40b.com" in
  let busy := "https://app/callback?tab=2&openfortEmailVerificationUI=true&state=XYZ&email=a%40b.com&ref=mail#done" in
  let boom := Js.mkError (Some "Invalid state") in
  let good := EmailVerification.page_load "openfort.emailToVerify"
                (EmailVerification.settling Js.Fulfilled Js.Fulfilled)
                (EmailVerification.at_load href ∅) in
  let bad := EmailVerification.page_load "openfort.emailToVerify"
               (EmailVerification.settling Js.Fulfilled (Js.Rejected boom))
               (EmailVerification.at_load href ∅) in
  let kept := EmailVerification.page_load "openfort.emailToVerify"
                (EmailVerification.settling Js.Fulfilled Js.Fulfilled)
                (EmailVerification.at_load busy ∅) in
  EmailVerification.verificationResponse (fst good)
    = Some {| EmailVerification.success := true; EmailVerification.error := None |}
  /\ EmailVerification.href (snd good) = "https://app/callback"
  /\ EmailVerification.trace (snd bad)
     = [EmailVerification.Log [Js.LStr "EmailVerification"; Js.LStr "XYZ"; Js.LStr "a@b.com"];
        EmailVerification.VerifyEmail "a@b.com" "XYZ";
        EmailVerification.Log [Js.LStr "Error verifying email"; Js.LErr boom];
        EmailVerification.ReplaceState "https://app/callback"]
  /\ EmailVerification.phase (fst bad) = EmailVerification.DONE
  /\ EmailVerification.href (snd kept) = "https://app/callback?tab=2&ref=mail#done"
  /\ Url.searchParams (Url.new_URL (EmailVerification.href (snd kept)))
     = [("tab", "2"); ("ref", "mail")].
Proof.
  intros href busy boom good bad kept.
  destruct (C2_confirmation_phase "openfort.emailToVerify"
              (EmailVerification.settling Js.Fulfilled Js.Fulfilled)
              (EmailVerification.at_load href ∅) "true" "XYZ" "a@b.com"
              eq_refl eq_refl eq_refl)
    as (Hok & _ & _ & _ & _ & _ & _ & Hhref & _).
  destruct (C2_confirmation_phase "openfort.emailToVerify"
              (EmailVerification.settling Js.Fulfilled (Js.Rejected boom))
              (EmailVerification.at_load href ∅) "true" "XYZ" "a@b.com"
              eq_refl eq_refl eq_refl)
    as (_ & Hbad & _ & _ & _ & _ & Hdone & _).
  destruct (C2_confirmation_phase "openfort.emailToVerify"
              (EmailVerification.settling Js.Fulfilled Js.Fulfilled)
              (EmailVerification.at_load busy ∅) "true" "XYZ" "a@b.com"
              eq_refl eq_refl eq_refl)
    as (_ & _ & _ & _ & _ & _ & _ & Hkept & _ & _ & Hparams & _).
  destruct (Hok eq_refl) as [Hresp _].
  destruct (Hbad boom eq_refl) as [_ Htrace].
  split; [exact Hresp|]. split; [exact Hhref|]. split; [exact Htrace|].
  split; [exact Hdone|]. split; [exact Hkept|exact Hparams].
Defined.

(** The hooks after a page load depend on the location only through the URL
    object the mount effect builds. *)
Lemma page_load_hooks (key : string) (client : EmailVerification.Auth)
    (w1 w2 : EmailVerification.World) :
  EmailVerification.page_url (EmailVerification.href w1)
    = EmailVerification.page_url (EmailVerification.href w2) ->
  EmailVerification.localStorage w1 !! key = EmailVerification.localStorage w2 !! key ->
  fst (EmailVerification.page_load key client w1)
  = fst (EmailVerification.page_load key client w2).
Proof.
  intros Hurl Hstore.
  assert (Hreads : forall name,
             EmailVerification.reads name (EmailVerification.href w1)
             = EmailVerification.reads name (EmailVerification.href w2)).
  { intros name. unfold EmailVerification.reads. now rewrite Hurl. }
  assert (Hfirst : EmailVerification.first_render key w1
                   = EmailVerification.first_render key w2).
  { unfold EmailVerification.first_render. now rewrite Hstore. }
  destruct (EmailVerification.reads "openfortEmailVerificationUI" (EmailVerification.href w1))
    as [flag|] eqn:Hflag.
  - pose proof Hflag as Hflag2. rewrite Hreads in Hflag2.
    destruct (EmailVerification.reads "state" (EmailVerification.href w1))
      as [state|] eqn:Hstate.
    + pose proof Hstate as Hstate2. rewrite Hreads in Hstate2.
      destruct (EmailVerification.reads "email" (EmailVerification.href w1))
        as [email|] eqn:Hemail.
      * pose proof Hemail as Hemail2. rewrite Hreads in Hemail2.
        rewrite (page_load_confirm key client w1 flag state email Hflag Hstate Hemail).
        rewrite (page_load_confirm key client w2 flag state email Hflag2 Hstate2 Hemail2).
        destruct (EmailVerification.verifyEmail client email state); simpl;
          now rewrite Hfirst.
      * pose proof Hemail as Hemail2. rewrite Hreads in Hemail2.
        rewrite (page_load_no_email key client w1 flag state Hflag Hstate Hemail).
        rewrite (page_load_no_email key client w2 flag state Hflag2 Hstate2 Hemail2).
        exact Hfirst.
    + pose proof Hstate as Hstate2. rewrite Hreads in Hstate2.
      rewrite (page_load_no_state key client w1 flag Hflag Hstate).
      rewrite (page_load_no_state key client w2 flag Hflag2 Hstate2).
      exact Hfirst.
  - pose proof Hflag as Hflag2. rewrite Hreads in Hflag2.
    destruct (Js.nonempty (EmailVerification.localStorage w1 !! key)) as [e|] eqn:Hs.
    + pose proof Hs as Hs2. rewrite Hstore in Hs2.
      rewrite (page_load_request key client w1 e Hflag Hs).
      rewrite (page_load_request key client w2 e Hflag2 Hs2).
      simpl. now rewrite Hfirst.
    + pose proof Hs as Hs2. rewrite Hstore in Hs2.
      rewrite (page_load_login key client w1 Hflag Hs).
      rewrite (page_load_login key client w2 Hflag2 Hs2).
      exact Hfirst.
Qed.

Lemma normalization_rewrites (pre post : string) :
  Url.includes "?state=" (pre +:+ "&state=" +:+ post) = false ->
  Url.replace "?state=" "&state=" (pre +:+ "?state=" +:+ post)
  = pre +:+ "&state=" +:+ post
  /\ Url.replace "?state=" "&state=" (pre +:+ "&state=" +:+ post)
     = pre +:+ "&state=" +:+ post.
Proof.
  intros Hi. split.
  - change (pre +:+ "?state=" +:+ post) with (pre +:+ String "?" ("state=" +:+ post)).
    change (pre +:+ "&state=" +:+ post) with (pre +:+ String "&" ("state=" +:+ post)) in *.
    now apply (replace_first_byte "?" "&" "state=").
  - now apply replace_absent.
Qed.

(** C4, as the code has it. The normalisation rewrites the first [?state=] of
    the href into [&state=]. So an href [pre ?state= post], whose rewritten
    form [pre &state= post] has no further [?state=], is handled exactly like
    that rewritten form: the effect works on the same URL object, reads the
    same three parameter values, and the page ends with the same hooks, hence
    in the same phase. This is the redirect
    [P?openfortEmailVerificationUI=true&email=E?state=S], where the provider
    appended [?state=] to a redirect URL that already had a query. *)
Theorem C4_normalization (key : string) (client : EmailVerification.Auth)
    (pre post : string) (w1 w2 : EmailVerification.World) :
  Url.includes "?state=" (pre +:+ "&state=" +:+ post) = false ->
  EmailVerification.href w1 = pre +:+ "?state=" +:+ post ->
  EmailVerification.href w2 = pre +:+ "&state=" +:+ post ->
  EmailVerification.localStorage w1 = EmailVerification.localStorage w2 ->
  EmailVerification.page_url (EmailVerification.href w1)
    = Url.new_URL (pre +:+ "&state=" +:+ post)
  /\ EmailVerification.page_url (EmailVerification.href w1)
     = EmailVerification.page_url (EmailVerification.href w2)
  /\ EmailVerification.verification_params (EmailVerification.href w1)
     = EmailVerification.verification_params (EmailVerification.href w2)
  /\ fst (EmailVerification.page_load key client w1)
     = fst (EmailVerification.page_load key client w2)
  /\ EmailVerification.phase (fst (EmailVerification.page_load key client w1))
     = EmailVerification.phase (fst (EmailVerification.page_load key client w2)).
Proof.
  intros Hi H1 H2 Hstore.
  destruct (normalization_rewrites pre post Hi) as [Hmal Hwell].
  assert (Hurl1 : EmailVerification.page_url (EmailVerification.href w1)
                  = Url.new_URL (pre +:+ "&state=" +:+ post)).
  { unfold EmailVerification.page_url. now rewrite H1, Hmal. }
  assert (Hurl : EmailVerification.page_url (EmailVerification.href w1)
                 = EmailVerification.page_url (EmailVerification.href w2)).
  { rewrite Hurl1. unfold EmailVerification.page_url. now rewrite H2, Hwell. }
  assert (Hhooks : fst (EmailVerification.page_load key client w1)
                   = fst (EmailVerification.page_load key client w2)).
  { apply page_load_hooks; [exact Hurl|now rewrite Hstore]. }
  split; [exact Hurl1|]. split; [exact Hurl|]. split; [|split].
  - unfold EmailVerification.verification_params. now rewrite Hurl.
  - exact Hhooks.
  - now rewrite Hhooks.
Qed.

Lemma C4_witness :
  let pre := "https://app/callback?openfortEmailVerificationUI=true&email=a%40b.com" in
  let w1 := EmailVerification.at_load (pre +:+ "?state=" +:+ "XYZ") ∅ in
  let w2 := EmailVerification.at_load (pre +:+ "&state=" +:+ "XYZ") ∅ in
  EmailVerification.verification_params (EmailVerification.href w1)
    = [Some "true"; Some "XYZ"; Some "a@b.com"]
  /\ EmailVerification.verification_params (EmailVerification.href w1)
     = EmailVerification.verification_params (EmailVerification.href w2)
  /\ EmailVerification.phase
       (fst (EmailVerification.page_load "openfort.emailToVerify"
               (EmailVerification.settling Js.Fulfilled Js.Fulfilled) w1))
     = EmailVerification.phase
         (fst (EmailVerification.page_load "openfort.emailToVerify"
                 (EmailVerification.settling Js.Fulfilled Js.Fulfilled) w2)).
Proof.
  intros pre w1 w2.
  destruct (C4_normalization "openfort.emailToVerify"
              (EmailVerification.settling Js.Fulfilled Js.Fulfilled)
              pre "XYZ" w1 w2 eq_refl eq_refl eq_refl eq_refl)
    as (_ & _ & Hparams & _ & Hphase).
  split; [reflexivity|]. split; [exact Hparams|exact Hphase].
Defined.

(** C4 as stated fails: in the shape given by the claim [?state=] is the only
    [?] of the href, so the rewrite leaves no query at all; the page reads
    none of the three parameters and leaves for the login route, while the
    well-formed URL is confirmed. *)
Lemma C4_counterexample :
  let malformed :=
    "https://app/callback?state=XYZ&email=a@b.com&openfortEmailVerificationUI=true" in
  let wellformed :=
    "https://app/callback?openfortEmailVerificationUI=true&state=XYZ&email=a@b.com" in
  let load := fun href =>
    EmailVerification.page_load "openfort.emailToVerify"
      (EmailVerification.settling Js.Fulfilled Js.Fulfilled)
      (EmailVerification.at_load href ∅) in
  EmailVerification.verification_params malformed = [None; None; None]
  /\ EmailVerification.verification_params wellformed
     = [Some "true"; Some "XYZ"; Some "a@b.com"]
  /\ EmailVerification.trace (snd (load malformed)) = [EmailVerification.SetRoute "emailLogin"]
  /\ EmailVerification.phase (fst (load malformed)) = EmailVerification.CHECKING
  /\ EmailVerification.phase (fst (load wellformed)) = EmailVerification.DONE
  /\ ~ (EmailVerification.verification_params malformed
          = EmailVerification.verification_params wellformed
        /\ EmailVerification.phase (fst (load malformed))
           = EmailVerification.phase (fst (load wellformed))).
Proof.
  intros malformed wellformed load.
  split; [reflexivity|]. split; [reflexivity|]. split; [reflexivity|].
  split; [reflexivity|]. split; [reflexivity|].
  intros [Hparams _].
  assert (Hm : EmailVerification.verification_params malformed = [None; None; None])
    by reflexivity.
  assert (Hw : EmailVerification.verification_params wellformed
               = [Some "true"; Some "XYZ"; Some "a@b.com"]) by reflexivity.
  rewrite Hm, Hw in Hparams. discriminate.
Qed.

(** * Further properties *)

#[local] Set Warnings "-clear-no-such-hyp".

(** ** Client registry *)

Lemma run_app (calls1 calls2 : list Registry.Call) (st : Registry.State) :
  Registry.run (calls1 ++ calls2)%list st = Registry.run calls2 (Registry.run calls1 st).
Proof. unfold Registry.run. apply foldl_app. Qed.

Lemma step_constructed_mono (call : Registry.Call) (st : Registry.State) :
  Registry.constructed st <= Registry.constructed (Registry.step call st).
Proof.
  destruct call as [config|options|client]; simpl; [lia| |lia].
  unfold Registry.getDefaultClient.
  destruct (Registry.defaultClient st) as [c|] eqn:Hc; simpl.
  - rewrite Hc. simpl. lia.
  - destruct options as [config|]; simpl; [lia|]. rewrite Hc. simpl. lia.
Qed.

Lemma run_constructed_mono (calls : list Registry.Call) (st : Registry.State) :
  Registry.constructed st <= Registry.constructed (Registry.run calls st).
Proof.
  revert st. induction calls as [|call calls IH]; intros st; simpl; [lia|].
  pose proof (step_constructed_mono call st). pose proof (IH (Registry.step call st)).
  unfold Registry.run in *. lia.
Qed.

(** With the singleton set, calls other than [createOpenfortClient] construct
    nothing. *)
Lemma run_set_constructs_nothing (calls : list Registry.Call) (st : Registry.State) :
  is_Some (Registry.defaultClient st) ->
  forallb (fun call => negb (Registry.is_create call)) calls = true ->
  Registry.constructed (Registry.run calls st) = Registry.constructed st.
Proof.
  revert st. induction calls as [|call calls IH]; intros st Hs Hnc; simpl in *;
    [reflexivity|].
  apply andb_prop in Hnc as [Hcall Hrest].
  change (Registry.constructed (Registry.run calls (Registry.step call st))
          = Registry.constructed st).
  rewrite (IH _ (step_keeps_set call st Hs) Hrest).
  destruct Hs as [c Hc]. destruct call as [config|options|client]; simpl in *.
  - discriminate.
  - now rewrite (getDefaultClient_set st c options Hc).
  - reflexivity.
Qed.

(** X1. Objects made by [createOpenfortClient] at different times are
    different objects, whatever calls are made in between; each carries the
    config it was made from, and making one leaves the shared singleton as it
    was. *)
Theorem X1_create_is_fresh (c1 c2 : Registry.OpenfortSDKConfiguration)
    (calls : list Registry.Call) (st : Registry.State) :
  let r1 := Registry.createOpenfortClient c1 st in
  let r2 := Registry.createOpenfortClient c2 (Registry.run calls (snd r1)) in
  fst r1 <> fst r2
  /\ Registry.configuration (fst r1) = c1
  /\ Registry.configuration (fst r2) = c2
  /\ Registry.defaultClient (snd r1) = Registry.defaultClient st.
Proof.
  intros r1 r2. subst r1 r2. split; [|now repeat split].
  unfold Registry.createOpenfortClient, Registry.new_OpenfortClient.
  cbn [fst snd]. intros Heq. injection Heq as Href _.
  pose proof (run_constructed_mono calls
                {| Registry.constructed := S (Registry.constructed st);
                   Registry.defaultClient := Registry.defaultClient st |}) as Hmono.
  simpl in Hmono. lia.
Qed.

(** X2. However often [getDefaultClient] and [setDefaultClient] are called,
    with whatever configs, at most one client is ever constructed by them, and
    none at all once the singleton is set. *)
Theorem X2_at_most_one_construction (calls : list Registry.Call) (st : Registry.State) :
  forallb (fun call => negb (Registry.is_create call)) calls = true ->
  Registry.constructed (Registry.run calls st) <= S (Registry.constructed st)
  /\ (is_Some (Registry.defaultClient st) ->
      Registry.constructed (Registry.run calls st) = Registry.constructed st).
Proof.
  intros Hnc. split; [|intros Hs; now apply run_set_constructs_nothing].
  revert st Hnc. induction calls as [|call calls IH]; intros st Hnc; simpl in *; [lia|].
  apply andb_prop in Hnc as [Hcall Hrest].
  change (Registry.constructed (Registry.run calls (Registry.step call st))
          <= S (Registry.constructed st)).
  destruct (Registry.defaultClient (Registry.step call st)) as [c|] eqn:Hafter.
  - rewrite (run_set_constructs_nothing calls _ (mk_is_Some _ _ Hafter) Hrest).
    destruct call as [config|options|client]; simpl in *; [discriminate| |lia].
    unfold Registry.getDefaultClient.
    destruct (Registry.defaultClient st) as [d|] eqn:Hd; simpl.
    + rewrite Hd. simpl. lia.
    + destruct options as [config|]; simpl; [lia|]. rewrite Hd. simpl. lia.
  - specialize (IH (Registry.step call st) Hrest).
    destruct call as [config|options|client]; simpl in *; [discriminate| |discriminate].
    destruct (Registry.defaultClient st) as [d|] eqn:Hd.
    + rewrite (getDefaultClient_set st d options Hd) in Hafter. simpl in Hafter.
      congruence.
    + destruct options as [config|].
      * rewrite (getDefaultClient_unset_config st config Hd) in Hafter. discriminate.
      * rewrite (getDefaultClient_unset_none st Hd) in *. exact IH.
Qed.

Lemma X2_witness :
  let cfg := {| Registry.publishableKey := "pk_test_123" |} in
  let other := {| Registry.publishableKey := "pk_test_456" |} in
  Registry.constructed
    (Registry.run [Registry.CallGet None; Registry.CallGet (Some cfg);
                   Registry.CallGet (Some other); Registry.CallGet None]
       Registry.initial) <= 1.
Proof.
  intros cfg other.
  apply (X2_at_most_one_construction
           [Registry.CallGet None; Registry.CallGet (Some cfg);
            Registry.CallGet (Some other); Registry.CallGet None]
           Registry.initial).
  reflexivity.
Defined.

(** X3. Last write wins: after any history of calls, the client returned by
    [getDefaultClient] is the one passed to the most recent
    [setDefaultClient], whatever was stored or initialised before it and
    whatever gets and creates came after it. *)
Theorem X3_last_set_wins (before after : list Registry.Call) (h : Registry.OpenfortClient)
    (options : option Registry.OpenfortSDKConfiguration) (st : Registry.State) :
  forallb (fun call => negb (Registry.is_set call)) after = true ->
  fst (Registry.getDefaultClient options
         (Registry.run (before ++ Registry.CallSet h :: after)%list st))
  = Js.Normal h.
Proof.
  intros Hns. rewrite run_app.
  change (Registry.run (Registry.CallSet h :: after) (Registry.run before st))
    with (Registry.run after (Registry.setDefaultClient h (Registry.run before st))).
  rewrite (getDefaultClient_set _ h options); [reflexivity|].
  now apply run_keeps_instance.
Qed.

Lemma X3_witness :
  let cfg := {| Registry.publishableKey := "pk_test_123" |} in
  let h1 := {| Registry.ref := 7; Registry.configuration := cfg |} in
  let h2 := {| Registry.ref := 8; Registry.configuration := cfg |} in
  fst (Registry.getDefaultClient (Some cfg)
         (Registry.run ([Registry.CallGet (Some cfg); Registry.CallSet h1]
                        ++ Registry.CallSet h2 :: [Registry.CallCreate cfg; Registry.CallGet None])%list
            Registry.initial))
  = Js.Normal h2.
Proof.
  intros cfg h1 h2.
  apply (X3_last_set_wins [Registry.CallGet (Some cfg); Registry.CallSet h1]
           [Registry.CallCreate cfg; Registry.CallGet None] h2 (Some cfg) Registry.initial).
  reflexivity.
Defined.

(** X4. [getDefaultClient] throws exactly when the singleton is unset and no
    config is given. When it throws the module state is unchanged; when it
    returns a client, that client is the stored singleton afterwards. *)
Theorem X4_throws_iff_unset_and_no_config
    (options : option Registry.OpenfortSDKConfiguration) (st : Registry.State) :
  ((exists e, fst (Registry.getDefaultClient options st) = Js.Throw e)
   <-> Registry.defaultClient st = None /\ options = None)
  /\ (forall e, fst (Registry.getDefaultClient options st) = Js.Throw e ->
        snd (Registry.getDefaultClient options st) = st)
  /\ (forall c, fst (Registry.getDefaultClient options st) = Js.Normal c ->
        Registry.defaultClient (snd (Registry.getDefaultClient options st)) = Some c).
Proof.
  destruct (Registry.defaultClient st) as [d|] eqn:Hd.
  - rewrite (getDefaultClient_set st d options Hd). simpl. split; [|split].
    + split; [intros [e [=]]|intros [[=] _]].
    + intros e [=].
    + intros c [= <-]. exact Hd.
  - destruct options as [config|].
    + rewrite (getDefaultClient_unset_config st config Hd). simpl. split; [|split].
      * split; [intros [e [=]]|intros [_ [=]]].
      * intros e [=].
      * intros c [= <-]. reflexivity.
    + rewrite (getDefaultClient_unset_none st Hd). simpl. split; [|split].
      * split; [now intros _|intros _; now eexists].
      * reflexivity.
      * intros c [=].
Qed.

Lemma X4_witness :
  fst (Registry.getDefaultClient None Registry.initial)
    = Js.Throw (Js.mkError (Some Registry.uninitialized_message))
  /\ snd (Registry.getDefaultClient None Registry.initial) = Registry.initial.
Proof.
  destruct (X4_throws_iff_unset_and_no_config None Registry.initial) as (_ & Hstate & _).
  split; [reflexivity|].
  apply (Hstate (Js.mkError (Some Registry.uninitialized_message))). reflexivity.
Defined.

(** ** Transport helper *)

Section MoreTransportFacts.

Variable chainConfigs : list Transports.ChainConfig.
Variables alchemyId infuraId : option string.

Lemma transports_dom (chains : list Transports.Chain)
    (m : gmap Z Transports.FallbackTransport) :
  dom (foldl (fun (transports : gmap Z Transports.FallbackTransport) chain =>
                <[Transports.chain_id chain :=
                    Transports.fallback
                      (Transports.urls_for chainConfigs alchemyId infuraId chain)]> transports)
             m chains)
  = dom m ∪ list_to_set (Transports.chain_id <$> chains).
Proof.
  revert m. induction chains as [|c cs IH]; intros m; simpl.
  - set_solver.
  - rewrite IH, dom_insert_L. set_solver.
Qed.

(** X5. The record has exactly one entry per distinct chain id of the input:
    its key set is the set of the input's chain ids, so an empty chain list
    gives an empty record and repeated ids give one entry. *)
Theorem X5_transports_keys (chains : option (list Transports.Chain)) :
  dom (Transports.getDefaultTransports chainConfigs chains alchemyId infuraId)
  = list_to_set
      (Transports.chain_id
         <$> default [Transports.mainnet; Transports.polygon; Transports.optimism;
                      Transports.arbitrum] chains)
  /\ Transports.getDefaultTransports chainConfigs (Some []) alchemyId infuraId = ∅
  /\ dom (Transports.getDefaultTransports chainConfigs None alchemyId infuraId)
     = {[ 1%Z; 137%Z; 10%Z; 42161%Z ]}.
Proof.
  split; [|split].
  - unfold Transports.getDefaultTransports. rewrite transports_dom. set_solver.
  - reflexivity.
  - unfold Transports.getDefaultTransports. rewrite transports_dom. simpl. set_solver.
Qed.

(** X6. The record depends on the input chains only through their ids: two
    chain lists with the same set of ids, in any order and with any
    repetitions or other chain fields, give the same record. *)
Theorem X6_transports_by_id (chains1 chains2 : list Transports.Chain) :
  (forall i, i ∈ Transports.chain_id <$> chains1 <-> i ∈ Transports.chain_id <$> chains2) ->
  Transports.getDefaultTransports chainConfigs (Some chains1) alchemyId infuraId
  = Transports.getDefaultTransports chainConfigs (Some chains2) alchemyId infuraId.
Proof.
  intros Hids. apply map_eq. intros i. unfold Transports.getDefaultTransports. simpl.
  destruct (transports_fold chainConfigs alchemyId infuraId chains1 ∅ i)
    as [(c1 & Hin1 & Hid1 & Hl1)|[Hnone1 Hl1]];
    destruct (transports_fold chainConfigs alchemyId infuraId chains2 ∅ i)
      as [(c2 & Hin2 & Hid2 & Hl2)|[Hnone2 Hl2]];
    cbv zeta in Hl1, Hl2; rewrite Hl1, Hl2.
  - f_equal. f_equal. apply urls_for_id. congruence.
  - exfalso. assert (Hi : i ∈ Transports.chain_id <$> chains2).
    { apply Hids. apply list_elem_of_fmap. now exists c1. }
    apply list_elem_of_fmap in Hi as (c & -> & Hc). now apply (Hnone2 c Hc).
  - exfalso. assert (Hi : i ∈ Transports.chain_id <$> chains1).
    { apply Hids. apply list_elem_of_fmap. now exists c2. }
    apply list_elem_of_fmap in Hi as (c & -> & Hc). now apply (Hnone1 c Hc).
  - reflexivity.
Qed.

(** X7. Without usable keys the table is never consulted: when both keys are
    absent or empty, every input chain gets the one-element list [http()],
    whatever the chain-config table holds. *)
Theorem X7_no_keys_public_only (chains : option (list Transports.Chain))
    (chain : Transports.Chain) :
  Js.truthy_opt alchemyId = false ->
  Js.truthy_opt infuraId = false ->
  chain ∈ default [Transports.mainnet; Transports.polygon; Transports.optimism;
                   Transports.arbitrum] chains ->
  Transports.getDefaultTransports chainConfigs chains alchemyId infuraId
    !! Transports.chain_id chain
  = Some (Transports.fallback [Transports.http None]).
Proof.
  intros Ha Hi Hin. unfold Transports.getDefaultTransports.
  assert (Hna : Js.nonempty alchemyId = None).
  { destruct alchemyId as [k|]; simpl in *; [now rewrite Ha|reflexivity]. }
  assert (Hni : Js.nonempty infuraId = None).
  { destruct infuraId as [k|]; simpl in *; [now rewrite Hi|reflexivity]. }
  destruct (transports_fold chainConfigs alchemyId infuraId
              (default [Transports.mainnet; Transports.polygon; Transports.optimism;
                        Transports.arbitrum] chains) ∅ (Transports.chain_id chain))
    as [(c & _ & _ & Hl)|[Hnone _]].
  - cbv zeta in Hl. rewrite Hl. unfold Transports.urls_for. now rewrite Hna, Hni.
  - now contradiction (Hnone chain Hin).
Qed.

(** X8. For a chain listed in the table with RPC URLs, a provider transport is
    never the public transport: it is [http(url + key)] when the provider has
    a non-empty http URL (http is preferred even if a webSocket URL exists),
    otherwise [webSocket(url + key)] on the provider's webSocket URL, and when
    the entry has no webSocket URL for that provider either, the transport is
    [webSocket] on the text 'undefined' followed by the key. *)
Theorem X8_listed_chain_provider_transport (chain : Transports.Chain)
    (cfg : Transports.ChainConfig) (rpc : Transports.RpcUrls) (key : string) :
  List.find (fun c => Z.eqb (Transports.id c) (Transports.chain_id chain)) chainConfigs
    = Some cfg ->
  Transports.rpcUrls cfg = Some rpc ->
  let of_provider := fun (provider : Transports.Provider) (urls : option Transports.ProviderUrls) =>
    Transports.createTransport chainConfigs chain provider key <> Transports.http None
    /\ (forall u, urls ≫= Transports.httpUrl = Some u -> u <> "" ->
          Transports.createTransport chainConfigs chain provider key
          = Transports.http (Some (u +:+ key)))
    /\ (forall ws, Js.truthy_opt (urls ≫= Transports.httpUrl) = false ->
          urls ≫= Transports.webSocketUrl = Some ws ->
          Transports.createTransport chainConfigs chain provider key
          = Transports.webSocket (ws +:+ key))
    /\ (Js.truthy_opt (urls ≫= Transports.httpUrl) = false ->
        urls ≫= Transports.webSocketUrl = None ->
        Transports.createTransport chainConfigs chain provider key
        = Transports.webSocket ("undefined" +:+ key)) in
  of_provider Transports.Alchemy (Transports.alchemy rpc)
  /\ of_provider Transports.Infura (Transports.infura rpc).
Proof.
  intros Hf Hr of_provider. subst of_provider. cbv beta.
  unfold Transports.createTransport. rewrite Hf. simpl. rewrite Hr.
  split.
  - destruct (Transports.alchemy rpc ≫= Transports.httpUrl) as [u|] eqn:Hu; simpl.
    + unfold Js.truthy. destruct (String.eqb_spec u ""); simpl.
      * subst u. split; [discriminate|]. split; [intros u [= <-] Hne; contradiction|].
        split; [intros ws _ ->; reflexivity|intros _ ->; reflexivity].
      * split; [discriminate|]. split; [intros u' [= <-] _; reflexivity|].
        split; [intros ws [=]|intros [=]].
    + split; [discriminate|]. split; [intros u [=]|].
      split; [intros ws _ ->; reflexivity|intros _ ->; reflexivity].
  - destruct (Transports.infura rpc ≫= Transports.httpUrl) as [u|] eqn:Hu; simpl.
    + unfold Js.truthy. destruct (String.eqb_spec u ""); simpl.
      * subst u. split; [discriminate|]. split; [intros u [= <-] Hne; contradiction|].
        split; [intros ws _ ->; reflexivity|intros _ ->; reflexivity].
      * split; [discriminate|]. split; [intros u' [= <-] _; reflexivity|].
        split; [intros ws [=]|intros [=]].
    + split; [discriminate|]. split; [intros u [=]|].
      split; [intros ws _ ->; reflexivity|intros _ ->; reflexivity].
Qed.

End MoreTransportFacts.

Lemma X6_witness :
  let sepolia := {| Transports.chain_id := 11155111; Transports.chain_name := "Sepolia" |} in
  let renamed := {| Transports.chain_id := 1; Transports.chain_name := "Homestead" |} in
  Transports.getDefaultTransports [] (Some [Transports.mainnet; sepolia]) (Some "KEY") None
  = Transports.getDefaultTransports [] (Some [sepolia; renamed; sepolia]) (Some "KEY") None.
Proof.
  intros sepolia renamed.
  apply (X6_transports_by_id [] (Some "KEY") None
           [Transports.mainnet; sepolia] [sepolia; renamed; sepolia]).
  intros i. simpl. rewrite !elem_of_cons, !elem_of_nil. tauto.
Defined.

Lemma X7_witness :
  let table := [ {| Transports.id := 1;
                    Transports.rpcUrls :=
                      Some {| Transports.alchemy :=
                                Some {| Transports.httpUrl := Some "https://eth-mainnet.g.alchemy.com/v2/";
                                        Transports.webSocketUrl := None |};
                              Transports.infura := None |} |} ] in
  Transports.getDefaultTransports table None (Some "") None !! 1%Z
  = Some (Transports.fallback [Transports.http None]).
Proof.
  intros table.
  apply (X7_no_keys_public_only table (Some "") None None Transports.mainnet);
    [reflexivity|reflexivity|simpl; now left].
Defined.

Lemma X8_witness :
  let entry := {| Transports.id := 1;
                  Transports.rpcUrls :=
                    Some {| Transports.alchemy :=
                              Some {| Transports.httpUrl := Some "https://eth-mainnet.g.alchemy.com/v2/";
                                      Transports.webSocketUrl := Some "wss://eth-mainnet.g.alchemy.com/v2/" |};
                            Transports.infura := None |} |} in
  Transports.createTransport [entry] Transports.mainnet Transports.Alchemy "KEY"
    = Transports.http (Some "https://eth-mainnet.g.alchemy.com/v2/KEY")
  /\ Transports.createTransport [entry] Transports.mainnet Transports.Infura "KEY"
     = Transports.webSocket "undefinedKEY".
Proof.
  intros entry.
  destruct (X8_listed_chain_provider_transport [entry] Transports.mainnet entry
              {| Transports.alchemy :=
                   Some {| Transports.httpUrl := Some "https://eth-mainnet.g.alchemy.com/v2/";
                           Transports.webSocketUrl := Some "wss://eth-mainnet.g.alchemy.com/v2/" |};
                 Transports.infura := None |}
              "KEY" eq_refl eq_refl)
    as [(_ & Hhttp & _) (_ & _ & _ & Hundef)].
  split.
  - apply (Hhttp "https://eth-mainnet.g.alchemy.com/v2/"); [reflexivity|discriminate].
  - apply Hundef; reflexivity.
Defined.

(** ** Email verification page: links *)

Lemma includes_skip (p : ascii) (pat a b : string) :
  Url.has p a = false ->
  Url.includes (String p pat) (a +:+ b) = Url.includes (String p pat) b.
Proof.
  induction a as [|x a IH]; [reflexivity|]. intros Hh.
  simpl in Hh. apply orb_false_elim in Hh as [Hx Hh].
  change (Url.includes (String p pat) (String x a +:+ b))
    with (Url.startsWith (String p pat) (String x (a +:+ b))
          || Url.includes (String p pat) (a +:+ b)).
  simpl Url.startsWith. rewrite Ascii.eqb_sym, Hx. simpl. now apply IH.
Qed.

Lemma includes_absent_byte (p : ascii) (pat s : string) :
  Url.has p s = false -> Url.includes (String p pat) s = false.
Proof.
  intros Hh. rewrite <- (string_app_empty_r s). now rewrite includes_skip.
Qed.

Lemma encode_byte_no_query (c : ascii) : Url.has "?" (Url.encode_byte c) = false.
Proof. destruct c as [[] [] [] [] [] [] [] []]; reflexivity. Qed.

Lemma urlencode_no_query (s : string) : Url.has "?" (Url.urlencode s) = false.
Proof.
  induction s as [|c s IH]; simpl; [reflexivity|].
  now rewrite has_app, encode_byte_no_query, IH.
Qed.

Lemma urldecode_plain (s : string) :
  Url.has "+" s = false -> Url.has "%" s = false -> Url.urldecode s = s.
Proof.
  unfold Url.urldecode. induction s as [|c s IH]; [reflexivity|]. intros Hp Hc.
  simpl in Hp, Hc. apply orb_false_elim in Hp as [Hp Hp'].
  apply orb_false_elim in Hc as [Hc Hc'].
  cbn [Url.plus_to_space]. rewrite Hp.
  change (Url.percent_decode (String c (Url.plus_to_space s)))
    with (if Ascii.eqb c "%"
          then match Url.plus_to_space s with
               | String h (String l s'') =>
                   match Url.hex_val h, Url.hex_val l with
                   | Some a, Some b =>
                       String (ascii_of_nat (16 * a + b)) (Url.percent_decode s'')
                   | _, _ => String c (Url.percent_decode (Url.plus_to_space s))
                   end
               | _ => String c (Url.percent_decode (Url.plus_to_space s))
               end
          else String c (Url.percent_decode (Url.plus_to_space s))).
  rewrite Hc. now rewrite (IH Hp' Hc').
Qed.

Lemma plain_token_has (s : string) :
  EmailVerification.plain_token s = true ->
  Url.has "?" s = false /\ Url.has "#" s = false /\ Url.has "&" s = false
  /\ Url.has "+" s = false /\ Url.has "%" s = false.
Proof.
  unfold EmailVerification.plain_token. intros H.
  apply negb_true_iff in H.
  repeat (apply orb_false_elim in H as [H ?]). now repeat split.
Qed.

(** The link the request phase asks the SDK to send, with a state token
    attached by either separator: what the mount effect parses from it. *)
Lemma request_link_params (href0 e S : string) (sep : ascii) :
  EmailVerification.plain_token S = true ->
  sep = "?"%char \/ sep = "&"%char ->
  Url.searchParams
    (EmailVerification.page_url
       (EmailVerification.redirectUrl_of href0 e +:+ String sep ("state=" +:+ S)))
  = [("openfortEmailVerificationUI", "true"); ("email", e); ("state", S)].
Proof.
  intros Hplain Hsep.
  destruct (plain_token_has S Hplain) as (Sq & Sh & Sa & Sp & Sc).
  unfold EmailVerification.redirectUrl_of. rewrite redirectUrl_eq.
  destruct (origin_pathname_plain href0) as [Pq Ph].
  set (P := Url.origin_pathname href0) in *.
  destruct (urlencode_plain e) as (Ea & Ee & Eh).
  pose proof (urlencode_no_query e) as Eq.
  set (E := Url.urlencode e) in *.
  set (pre := P +:+ "?openfortEmailVerificationUI=true&email=" +:+ E).
  set (rest := "openfortEmailVerificationUI=true&email=" +:+ E +:+ "&state=" +:+ S).
  assert (HN : pre +:+ "&state=" +:+ S = P +:+ String "?" rest).
  { unfold pre, rest. rewrite string_app_assoc. reflexivity. }
  assert (Hrest_q : Url.has "?" rest = false).
  { unfold rest. rewrite !has_app, Eq, Sq. reflexivity. }
  assert (Hrest_h : Url.has "#" rest = false).
  { unfold rest. rewrite !has_app, Eh, Sh. reflexivity. }
  assert (Hrest_eq : rest = "openfortEmailVerificationUI=true"
                            +:+ String "&" (("email=" +:+ E) +:+ String "&" ("state=" +:+ S)))
    by reflexivity.
  clearbody rest pre.
  assert (Hinc : Url.includes "?state=" (pre +:+ "&state=" +:+ S) = false).
  { rewrite HN, (includes_skip "?" "state=" P _ Pq).
    change (Url.includes "?state=" (String "?" rest))
      with (Url.startsWith "?state=" (String "?" rest) || Url.includes "?state=" rest).
    rewrite (includes_absent_byte "?" "state=" rest Hrest_q), orb_false_r.
    rewrite Hrest_eq. reflexivity. }
  destruct (normalization_rewrites pre S Hinc) as [Hmal Hwell].
  assert (Hfixed : Url.replace "?state=" "&state=" (pre +:+ String sep ("state=" +:+ S))
                   = P +:+ String "?" rest).
  { rewrite <- HN. destruct Hsep as [-> | ->]; [exact Hmal|exact Hwell]. }
  unfold EmailVerification.page_url. rewrite Hfixed.
  assert (Hhash : Url.has "#" (P +:+ String "?" rest) = false).
  { rewrite has_app, Ph.
    change (Url.has "#" (String "?" rest)) with (Url.has "#" rest).
    now rewrite Hrest_h. }
  unfold Url.new_URL. rewrite (cut_absent "#" _ Hhash), (cut_app "?" _ _ Pq).
  cbn [Url.searchParams default].
  unfold Url.parse_urlencoded. change (id rest) with rest. rewrite Hrest_eq.
  rewrite (split_app "&" "openfortEmailVerificationUI=true" _ eq_refl).
  assert (HB : Url.has "&" ("email=" +:+ E) = false) by (rewrite has_app, Ea; reflexivity).
  assert (HC : Url.has "&" ("state=" +:+ S) = false) by (rewrite has_app, Sa; reflexivity).
  rewrite (split_app "&" _ _ HB), (split_absent "&" _ HC).
  rewrite !filter_cons, filter_nil.
  rewrite !decide_True by discriminate.
  assert (HpA : Url.parse_pair "openfortEmailVerificationUI=true"
                = ("openfortEmailVerificationUI", "true")) by reflexivity.
  assert (HpB : Url.parse_pair ("email=" +:+ E) = ("email", e)).
  { unfold Url.parse_pair.
    change ("email=" +:+ E) with ("email" +:+ String "=" E).
    rewrite (cut_app "=" "email" E eq_refl). cbn [default from_option id].
    unfold E. now rewrite urldecode_urlencode. }
  assert (HpC : Url.parse_pair ("state=" +:+ S) = ("state", S)).
  { unfold Url.parse_pair.
    change ("state=" +:+ S) with ("state" +:+ String "=" S).
    rewrite (cut_app "=" "state" S eq_refl). cbn [default from_option id].
    now rewrite (urldecode_plain S Sp Sc). }
  rewrite !map_cons, HpA, HpB, HpC. reflexivity.
Qed.

(** ** Email verification page: one page load, by cases *)

Lemma reads_nonempty (name href v : string) :
  EmailVerification.reads name href = Some v -> v <> "".
Proof. unfold EmailVerification.reads. intros H. now destruct (nonempty_truthy _ _ H). Qed.

(** The five ways a page load can go. *)
Lemma page_load_cases (key : string) (client : EmailVerification.Auth)
    (w : EmailVerification.World) :
  let r := EmailVerification.page_load key client w in
  let h0 := EmailVerification.first_render key w in
  let href := EmailVerification.href w in
  (EmailVerification.reads "openfortEmailVerificationUI" href = None
   /\ Js.nonempty (EmailVerification.localStorage w !! key) = None
   /\ r = (h0, EmailVerification.setRoute EmailVerification.EMAIL_LOGIN w))
  \/ (exists e,
        EmailVerification.reads "openfortEmailVerificationUI" href = None
        /\ EmailVerification.localStorage w !! key = Some e /\ e <> ""
        /\ r = (EmailVerification.setLoading false
                  (EmailVerification.setShouldSendEmailVerification (Some e) h0),
                EmailVerification.sendEmailVerification client e
                  (EmailVerification.removeItem key w)))
  \/ (EmailVerification.reads "openfortEmailVerificationUI" href <> None
      /\ EmailVerification.reads "state" href = None
      /\ r = (h0, EmailVerification.emit
                    (EmailVerification.ConsoleError "No state found in URL") w))
  \/ (EmailVerification.reads "openfortEmailVerificationUI" href <> None
      /\ EmailVerification.reads "state" href <> None
      /\ EmailVerification.reads "email" href = None
      /\ r = (h0, EmailVerification.setRoute EmailVerification.EMAIL_LOGIN w))
  \/ (exists state email,
        EmailVerification.reads "openfortEmailVerificationUI" href <> None
        /\ EmailVerification.reads "state" href = Some state
        /\ EmailVerification.reads "email" href = Some email
        /\ state <> "" /\ email <> ""
        /\ r = let w1 := EmailVerification.emit (EmailVerification.VerifyEmail email state)
                           (EmailVerification.emit
                              (EmailVerification.Log
                                 [Js.LStr "EmailVerification"; Js.LStr state; Js.LStr email]) w) in
               let url := EmailVerification.page_url href in
               match EmailVerification.verifyEmail client email state with
               | Js.Fulfilled =>
                   (EmailVerification.setLoading false
                      (EmailVerification.setVerificationResponse
                         {| EmailVerification.success := true;
                            EmailVerification.error := None |} h0),
                    EmailVerification.removeParams url w1)
               | Js.Rejected err =>
                   (EmailVerification.setLoading false
                      (EmailVerification.setVerificationResponse
                         {| EmailVerification.success := false;
                            EmailVerification.error :=
                              Some EmailVerification.verify_error_text |} h0),
                    EmailVerification.removeParams url
                      (EmailVerification.emit
                         (EmailVerification.Log
                            [Js.LStr "Error verifying email"; Js.LErr err]) w1))
               end).
Proof.
  intros r h0 href. subst r h0 href.
  destruct (EmailVerification.reads "openfortEmailVerificationUI" (EmailVerification.href w))
    as [flag|] eqn:Hflag.
  - right. right.
    destruct (EmailVerification.reads "state" (EmailVerification.href w))
      as [state|] eqn:Hstate.
    + right.
      destruct (EmailVerification.reads "email" (EmailVerification.href w))
        as [email|] eqn:Hemail.
      * right. exists state, email.
        split; [discriminate|]. split; [reflexivity|]. split; [reflexivity|].
        split; [exact (reads_nonempty _ _ _ Hstate)|].
        split; [exact (reads_nonempty _ _ _ Hemail)|].
        exact (page_load_confirm key client w flag state email Hflag Hstate Hemail).
      * left. split; [discriminate|]. split; [discriminate|]. split; [reflexivity|].
        exact (page_load_no_email key client w flag state Hflag Hstate Hemail).
    + left. split; [discriminate|]. split; [reflexivity|].
      exact (page_load_no_state key client w flag Hflag Hstate).
  - destruct (Js.nonempty (EmailVerification.localStorage w !! key)) as [e|] eqn:Hs.
    + right. left. exists e. destruct (nonempty_truthy _ _ Hs) as [Hstore Hne].
      split; [reflexivity|]. split; [exact Hstore|]. split; [exact Hne|].
      exact (page_load_request key client w e Hflag Hs).
    + left. split; [reflexivity|]. split; [reflexivity|].
      exact (page_load_login key client w Hflag Hs).
Qed.

(** What the request branch adds to the trace. *)
Lemma request_events (key : string) (client : EmailVerification.Auth)
    (w : EmailVerification.World) (e : string) :
  e <> "" ->
  let w' := EmailVerification.sendEmailVerification client e
              (EmailVerification.removeItem key w) in
  let url := EmailVerification.redirectUrl_of (EmailVerification.href w) e in
  EmailVerification.trace w'
    = (EmailVerification.trace w
         ++ [EmailVerification.RemoveItem key;
             EmailVerification.RequestEmailVerification e url]
         ++ match EmailVerification.requestEmailVerification client e url with
            | Js.Fulfilled => []
            | Js.Rejected err =>
                [EmailVerification.Log
                   [Js.LStr "Error requesting email verification"; Js.LErr err]]
            end)%list
  /\ EmailVerification.href w' = EmailVerification.href w
  /\ EmailVerification.entries w' = EmailVerification.entries w
  /\ EmailVerification.route w' = EmailVerification.route w
  /\ EmailVerification.localStorage w' = delete key (EmailVerification.localStorage w).
Proof.
  intros Hne w' url. subst w' url.
  rewrite (sendEmailVerification_trace client e _ Hne).
  change (EmailVerification.href (EmailVerification.removeItem key w))
    with (EmailVerification.href w).
  unfold EmailVerification.redirectUrl_of. rewrite redirectUrl_eq.
  destruct (EmailVerification.requestEmailVerification client e _); simpl;
    rewrite <- ?app_assoc; now repeat split.
Qed.

(** What the confirmation branch adds to the trace, and the href it leaves. *)
Lemma confirm_events (w : EmailVerification.World) (url : Url.URL)
    (mid : list EmailVerification.Event) (state email : string) :
  let w1 := EmailVerification.emit (EmailVerification.VerifyEmail email state)
              (EmailVerification.emit
                 (EmailVerification.Log
                    [Js.LStr "EmailVerification"; Js.LStr state; Js.LStr email]) w) in
  let w2 := foldl (fun x e => EmailVerification.emit e x) w1 mid in
  let w' := EmailVerification.removeParams url w2 in
  let stripped :=
    Url.toString (foldl (fun u k => Url.delete k u) url EmailVerification.verification_keys) in
  EmailVerification.trace w'
    = (EmailVerification.trace w
         ++ [EmailVerification.Log
               [Js.LStr "EmailVerification"; Js.LStr state; Js.LStr email];
             EmailVerification.VerifyEmail email state]
         ++ mid ++ [EmailVerification.ReplaceState stripped])%list
  /\ EmailVerification.href w' = stripped
  /\ EmailVerification.entries w' = EmailVerification.entries w
  /\ EmailVerification.route w' = EmailVerification.route w
  /\ EmailVerification.localStorage w' = EmailVerification.localStorage w.
Proof.
  intros w1 w2 w' stripped. subst w' stripped.
  assert (Hfold : forall (evs : list EmailVerification.Event) (x : EmailVerification.World),
             EmailVerification.trace (foldl (fun x e => EmailVerification.emit e x) x evs)
               = (EmailVerification.trace x ++ evs)%list
             /\ EmailVerification.href (foldl (fun x e => EmailVerification.emit e x) x evs)
                = EmailVerification.href x
             /\ EmailVerification.entries (foldl (fun x e => EmailVerification.emit e x) x evs)
                = EmailVerification.entries x
             /\ EmailVerification.route (foldl (fun x e => EmailVerification.emit e x) x evs)
                = EmailVerification.route x
             /\ EmailVerification.localStorage (foldl (fun x e => EmailVerification.emit e x) x evs)
                = EmailVerification.localStorage x).
  { induction evs as [|ev evs IH]; intros x; simpl.
    - now rewrite app_nil_r.
    - destruct (IH (EmailVerification.emit ev x)) as (Ht & Hh & He & Hr & Hl).
      rewrite Ht, Hh, He, Hr, Hl. simpl. now rewrite <- app_assoc. }
  destruct (Hfold mid w1) as (Ht & Hh & He & Hr & Hl).
  unfold EmailVerification.removeParams, EmailVerification.replaceState. simpl.
  fold w2. subst w2. rewrite Ht, He, Hr, Hl. subst w1. simpl.
  rewrite <- !app_assoc. now repeat split.
Qed.

(** X9. The two phases fit together. Take the redirect URL that the request
    phase hands to the SDK for an email [e] and let the provider attach a
    state token [S] (free of [? # & + %]) with either [?state=] or [&state=]:
    loading the page at that link reads the flag, exactly [e] (whatever bytes
    it contains) and exactly [S], and calls [verifyEmail] with [e] and [S]. *)
Theorem X9_request_link_round_trip (key : string) (client : EmailVerification.Auth)
    (href0 e S : string) (sep : ascii) (w : EmailVerification.World) :
  e <> "" -> S <> "" ->
  EmailVerification.plain_token S = true ->
  sep = "?"%char \/ sep = "&"%char ->
  EmailVerification.href w
    = EmailVerification.redirectUrl_of href0 e +:+ String sep ("state=" +:+ S) ->
  EmailVerification.reads "openfortEmailVerificationUI" (EmailVerification.href w) = Some "true"
  /\ EmailVerification.reads "email" (EmailVerification.href w) = Some e
  /\ EmailVerification.reads "state" (EmailVerification.href w) = Some S
  /\ EmailVerification.VerifyEmail e S
       ∈ EmailVerification.trace (snd (EmailVerification.page_load key client w)).
Proof.
  intros He HS Hplain Hsep Hhref.
  pose proof (request_link_params href0 e S sep Hplain Hsep) as Hparams.
  rewrite <- Hhref in Hparams.
  assert (Htruthy : forall v, v <> "" -> Js.nonempty (Some v) = Some v).
  { intros v Hv. unfold Js.nonempty, Js.truthy. now destruct (String.eqb_spec v ""). }
  assert (Hflag : EmailVerification.reads "openfortEmailVerificationUI"
                    (EmailVerification.href w) = Some "true").
  { unfold EmailVerification.reads, Url.get. now rewrite Hparams. }
  assert (Hemail : EmailVerification.reads "email" (EmailVerification.href w) = Some e).
  { unfold EmailVerification.reads, Url.get. rewrite Hparams. simpl. now apply Htruthy. }
  assert (Hstate : EmailVerification.reads "state" (EmailVerification.href w) = Some S).
  { unfold EmailVerification.reads, Url.get. rewrite Hparams. simpl. now apply Htruthy. }
  split; [exact Hflag|]. split; [exact Hemail|]. split; [exact Hstate|].
  rewrite (page_load_confirm key client w "true" S e Hflag Hstate Hemail).
  destruct (EmailVerification.verifyEmail client e S) as [|err]; cbn [snd].
  - destruct (confirm_events w (EmailVerification.page_url (EmailVerification.href w)) [] S e)
      as (Ht & _). cbv zeta in Ht. cbn [foldl] in Ht. rewrite Ht. set_solver.
  - destruct (confirm_events w (EmailVerification.page_url (EmailVerification.href w))
                [EmailVerification.Log [Js.LStr "Error verifying email"; Js.LErr err]] S e)
      as (Ht & _). cbv zeta in Ht. cbn [foldl] in Ht. rewrite Ht. set_solver.
Qed.

Lemma X9_witness :
  let link := EmailVerification.redirectUrl_of "https://app/callback?x=1#top" "a b+c@d.com"
              +:+ String "?" ("state=" +:+ "XYZ") in
  link = "https://app/callback?openfortEmailVerificationUI=true&email=a+b%2Bc%40d.com?state=XYZ"
  /\ EmailVerification.VerifyEmail "a b+c@d.com" "XYZ"
       ∈ EmailVerification.trace
           (snd (EmailVerification.page_load "openfort.emailToVerify"
                   (EmailVerification.settling Js.Fulfilled Js.Fulfilled)
                   (EmailVerification.at_load link ∅))).
Proof.
  intros link. split; [reflexivity|].
  apply (X9_request_link_round_trip "openfort.emailToVerify"
           (EmailVerification.settling Js.Fulfilled Js.Fulfilled)
           "https://app/callback?x=1#top" "a b+c@d.com" "XYZ" "?"
           (EmailVerification.at_load link ∅));
    [discriminate|discriminate|reflexivity|now left|reflexivity].
Defined.

(** Everything one page load does, in one statement: the events it adds and
    what it leaves of the world, in each of its four kinds of run. *)
Lemma page_load_effects (key : string) (client : EmailVerification.Auth)
    (w : EmailVerification.World) :
  let w' := snd (EmailVerification.page_load key client w) in
  exists evs,
    EmailVerification.trace w' = (EmailVerification.trace w ++ evs)%list
    /\ EmailVerification.entries w' = EmailVerification.entries w
    /\ ((evs = [EmailVerification.SetRoute "emailLogin"]
         /\ EmailVerification.href w' = EmailVerification.href w
         /\ EmailVerification.localStorage w' = EmailVerification.localStorage w)
        \/ (exists e tail,
              EmailVerification.localStorage w !! key = Some e /\ e <> ""
              /\ evs = ([EmailVerification.RemoveItem key;
                         EmailVerification.RequestEmailVerification e
                           (EmailVerification.redirectUrl_of (EmailVerification.href w) e)]
                        ++ tail)%list
              /\ (tail = []
                  \/ exists err,
                       tail = [EmailVerification.Log
                                 [Js.LStr "Error requesting email verification"; Js.LErr err]])
              /\ EmailVerification.href w' = EmailVerification.href w
              /\ EmailVerification.localStorage w'
                 = delete key (EmailVerification.localStorage w))
        \/ (evs = [EmailVerification.ConsoleError "No state found in URL"]
            /\ EmailVerification.href w' = EmailVerification.href w
            /\ EmailVerification.localStorage w' = EmailVerification.localStorage w)
        \/ (exists state email mid,
              state <> "" /\ email <> ""
              /\ evs = ([EmailVerification.Log
                           [Js.LStr "EmailVerification"; Js.LStr state; Js.LStr email];
                         EmailVerification.VerifyEmail email state]
                        ++ mid
                        ++ [EmailVerification.ReplaceState (EmailVerification.href w')])%list
              /\ (mid = []
                  \/ exists err,
                       mid = [EmailVerification.Log
                                [Js.LStr "Error verifying email"; Js.LErr err]])
              /\ EmailVerification.localStorage w' = EmailVerification.localStorage w)).
Proof.
  intros w'. subst w'.
  destruct (page_load_cases key client w)
    as [(_ & _ & ->)|[(e & _ & Hs & Hne & ->)|[(_ & _ & ->)|[(_ & _ & _ & ->)
       |(state & email & _ & _ & _ & Hst & Hem & ->)]]]]; cbn [snd].
  - exists [EmailVerification.SetRoute "emailLogin"].
    split; [reflexivity|]. split; [reflexivity|]. left. now repeat split.
  - destruct (request_events key client w e Hne) as (Ht & Hh & He & _ & Hl).
    cbv zeta in Ht, Hh, He, Hl. eexists. split; [exact Ht|]. split; [exact He|].
    right. left. exists e. eexists. split; [exact Hs|]. split; [exact Hne|].
    split; [reflexivity|]. split; [|now split].
    destruct (EmailVerification.requestEmailVerification client e _);
      [now left|right; now eexists].
  - exists [EmailVerification.ConsoleError "No state found in URL"].
    split; [reflexivity|]. split; [reflexivity|]. right. right. left. now repeat split.
  - exists [EmailVerification.SetRoute "emailLogin"].
    split; [reflexivity|]. split; [reflexivity|]. left. now repeat split.
  - cbv zeta. destruct (EmailVerification.verifyEmail client email state) as [|err]; cbn [snd].
    + destruct (confirm_events w (EmailVerification.page_url (EmailVerification.href w))
                  [] state email) as (Ht & Hh & He & _ & Hl).
      cbv zeta in Ht, Hh, He, Hl. cbn [foldl] in Ht, Hh, He, Hl.
      eexists. split; [exact Ht|]. split; [exact He|].
      right. right. right. exists state, email, [].
      split; [exact Hst|]. split; [exact Hem|]. rewrite Hh.
      split; [reflexivity|]. split; [now left|exact Hl].
    + destruct (confirm_events w (EmailVerification.page_url (EmailVerification.href w))
                  [EmailVerification.Log [Js.LStr "Error verifying email"; Js.LErr err]]
                  state email) as (Ht & Hh & He & _ & Hl).
      cbv zeta in Ht, Hh, He, Hl. cbn [foldl] in Ht, Hh, He, Hl.
      eexists. split; [exact Ht|]. split; [exact He|].
      right. right. right.
      exists state, email,
        [EmailVerification.Log [Js.LStr "Error verifying email"; Js.LErr err]].
      split; [exact Hst|]. split; [exact Hem|]. rewrite Hh.
      split; [reflexivity|]. split; [right; now eexists|exact Hl].
Qed.

(** Membership of an event in an explicit list of events. *)
Ltac in_events H :=
  simpl in H;
  repeat (apply elem_of_cons in H as [H|H]);
  try (now apply elem_of_nil in H);
  try discriminate H;
  try (injection H as -> ->).

(** X10. One page load makes at most one SDK call, never both a request and
    a verification. [requestEmailVerification] is only ever called with the
    non-empty email found in local storage, and [verifyEmail] only with a
    non-empty email and a non-empty state. *)
Theorem X10_at_most_one_sdk_call (key : string) (client : EmailVerification.Auth)
    (w : EmailVerification.World) :
  exists evs,
    EmailVerification.trace (snd (EmailVerification.page_load key client w))
      = (EmailVerification.trace w ++ evs)%list
    /\ length (List.filter EmailVerification.is_sdk_call evs) <= 1
    /\ (forall email url,
          EmailVerification.RequestEmailVerification email url ∈ evs ->
          email <> "" /\ EmailVerification.localStorage w !! key = Some email)
    /\ (forall email state,
          EmailVerification.VerifyEmail email state ∈ evs ->
          email <> "" /\ state <> "").
Proof.
  destruct (page_load_effects key client w) as (evs & Ht & _ & Hcases).
  cbv zeta in Ht, Hcases. exists evs. split; [exact Ht|].
  destruct Hcases as [(-> & _)|[(e & tail & Hs & Hne & -> & Htail & _)
                     |[(-> & _)|(state & email & mid & Hst & Hem & -> & Hmid & _)]]].
  - split; [simpl; lia|]. split; intros a b Hin; in_events Hin.
  - destruct Htail as [->|[err ->]]; (split; [simpl; lia|]);
      split; intros a b Hin; in_events Hin; now split.
  - split; [simpl; lia|]. split; intros a b Hin; in_events Hin.
  - destruct Hmid as [->|[err ->]]; (split; [simpl; lia|]);
      split; intros a b Hin; in_events Hin; now split.
Qed.

Lemma X10_witness :
  exists evs,
    EmailVerification.trace
      (snd (EmailVerification.page_load "openfort.emailToVerify"
              (EmailVerification.settling (Js.Rejected (Js.mkError (Some "offline"))) Js.Fulfilled)
              (EmailVerification.at_load "https://app/callback"
                 {[ "openfort.emailToVerify" := "a@b.com" ]})))
      = evs
    /\ length (List.filter EmailVerification.is_sdk_call evs) <= 1.
Proof.
  destruct (X10_at_most_one_sdk_call "openfort.emailToVerify"
              (EmailVerification.settling (Js.Rejected (Js.mkError (Some "offline"))) Js.Fulfilled)
              (EmailVerification.at_load "https://app/callback"
                 {[ "openfort.emailToVerify" := "a@b.com" ]}))
    as (evs & Ht & Hlen & _).
  exists evs. split; [exact Ht|exact Hlen].
Defined.

(** X11. The request phase is optimistic: how [requestEmailVerification]
    settles has no influence on the component state, on what is rendered, or
    on the URL, route, history and local storage after the page load. Two
    clients that agree on [verifyEmail] leave all of these equal; a rejected
    request only adds a log line. *)
Theorem X11_request_outcome_is_not_observed (key : string)
    (client1 client2 : EmailVerification.Auth) (w : EmailVerification.World) :
  (forall email state,
     EmailVerification.verifyEmail client1 email state
     = EmailVerification.verifyEmail client2 email state) ->
  let r1 := EmailVerification.page_load key client1 w in
  let r2 := EmailVerification.page_load key client2 w in
  fst r1 = fst r2
  /\ EmailVerification.render (fst r1) = EmailVerification.render (fst r2)
  /\ EmailVerification.href (snd r1) = EmailVerification.href (snd r2)
  /\ EmailVerification.route (snd r1) = EmailVerification.route (snd r2)
  /\ EmailVerification.entries (snd r1) = EmailVerification.entries (snd r2)
  /\ EmailVerification.localStorage (snd r1) = EmailVerification.localStorage (snd r2)
  /\ let settled :=
       fun (client : EmailVerification.Auth) (common tail : list EmailVerification.Event) =>
         (tail = []
          /\ forall e url,
               EmailVerification.RequestEmailVerification e url ∈ common ->
               EmailVerification.requestEmailVerification client e url = Js.Fulfilled)
         \/ (exists e url err,
               EmailVerification.RequestEmailVerification e url ∈ common
               /\ EmailVerification.requestEmailVerification client e url = Js.Rejected err
               /\ tail = [EmailVerification.Log
                            [Js.LStr "Error requesting email verification"; Js.LErr err]]) in
     exists common tail1 tail2,
       EmailVerification.trace (snd r1) = (EmailVerification.trace w ++ common ++ tail1)%list
       /\ EmailVerification.trace (snd r2) = (EmailVerification.trace w ++ common ++ tail2)%list
       /\ settled client1 common tail1
       /\ settled client2 common tail2.
Proof.
  intros Hverify r1 r2. subst r1 r2.
  assert (Htrace :
            exists common tail1 tail2,
              EmailVerification.trace (snd (EmailVerification.page_load key client1 w))
                = (EmailVerification.trace w ++ common ++ tail1)%list
              /\ EmailVerification.trace (snd (EmailVerification.page_load key client2 w))
                 = (EmailVerification.trace w ++ common ++ tail2)%list
              /\ ((tail1 = []
                   /\ forall e url,
                        EmailVerification.RequestEmailVerification e url ∈ common ->
                        EmailVerification.requestEmailVerification client1 e url = Js.Fulfilled)
                  \/ (exists e url err,
                        EmailVerification.RequestEmailVerification e url ∈ common
                        /\ EmailVerification.requestEmailVerification client1 e url
                           = Js.Rejected err
                        /\ tail1 = [EmailVerification.Log
                                      [Js.LStr "Error requesting email verification";
                                       Js.LErr err]]))
              /\ ((tail2 = []
                   /\ forall e url,
                        EmailVerification.RequestEmailVerification e url ∈ common ->
                        EmailVerification.requestEmailVerification client2 e url = Js.Fulfilled)
                  \/ (exists e url err,
                        EmailVerification.RequestEmailVerification e url ∈ common
                        /\ EmailVerification.requestEmailVerification client2 e url
                           = Js.Rejected err
                        /\ tail2 = [EmailVerification.Log
                                      [Js.LStr "Error requesting email verification";
                                       Js.LErr err]]))).
  { assert (Hquiet : forall (client : EmailVerification.Auth)
                            (common : list EmailVerification.Event),
               (forall e url, EmailVerification.RequestEmailVerification e url ∉ common) ->
               ([] : list EmailVerification.Event) = []
               /\ forall e url,
                    EmailVerification.RequestEmailVerification e url ∈ common ->
                    EmailVerification.requestEmailVerification client e url = Js.Fulfilled).
    { intros client common Hno. split; [reflexivity|].
      intros e url Hin. now contradiction (Hno e url). }
    destruct (EmailVerification.reads "openfortEmailVerificationUI" (EmailVerification.href w))
      as [flag|] eqn:Hflag.
    - destruct (EmailVerification.reads "state" (EmailVerification.href w))
        as [state|] eqn:Hstate.
      + destruct (EmailVerification.reads "email" (EmailVerification.href w))
          as [email|] eqn:Hemail.
        * rewrite (page_load_confirm key client1 w flag state email Hflag Hstate Hemail).
          rewrite (page_load_confirm key client2 w flag state email Hflag Hstate Hemail).
          cbv zeta. rewrite (Hverify email state).
          destruct (EmailVerification.verifyEmail client2 email state) as [|err]; cbn [snd].
          -- destruct (confirm_events w
                         (EmailVerification.page_url (EmailVerification.href w))
                         [] state email) as (Ht & _).
             cbv zeta in Ht. cbn [foldl] in Ht.
             match type of Ht with
             | _ = (_ ++ ?common)%list => exists common, [], []
             end.
             rewrite !app_nil_r.
             split; [exact Ht|]. split; [exact Ht|].
             split; left; apply Hquiet; intros e url Hin; in_events Hin.
          -- destruct (confirm_events w
                         (EmailVerification.page_url (EmailVerification.href w))
                         [EmailVerification.Log [Js.LStr "Error verifying email"; Js.LErr err]]
                         state email) as (Ht & _).
             cbv zeta in Ht. cbn [foldl] in Ht.
             match type of Ht with
             | _ = (_ ++ ?common)%list => exists common, [], []
             end.
             rewrite !app_nil_r.
             split; [exact Ht|]. split; [exact Ht|].
             split; left; apply Hquiet; intros e url Hin; in_events Hin.
        * rewrite (page_load_no_email key client1 w flag state Hflag Hstate Hemail).
          rewrite (page_load_no_email key client2 w flag state Hflag Hstate Hemail).
          exists [EmailVerification.SetRoute EmailVerification.EMAIL_LOGIN], [], [].
          split; [reflexivity|]. split; [reflexivity|].
          split; left; apply Hquiet; intros e url Hin; in_events Hin.
      + rewrite (page_load_no_state key client1 w flag Hflag Hstate).
        rewrite (page_load_no_state key client2 w flag Hflag Hstate).
        exists [EmailVerification.ConsoleError "No state found in URL"], [], [].
        split; [reflexivity|]. split; [reflexivity|].
        split; left; apply Hquiet; intros e url Hin; in_events Hin.
    - destruct (Js.nonempty (EmailVerification.localStorage w !! key)) as [e|] eqn:Hs.
      + destruct (nonempty_truthy _ _ Hs) as [_ Hne].
        rewrite (page_load_request key client1 w e Hflag Hs).
        rewrite (page_load_request key client2 w e Hflag Hs).
        destruct (request_events key client1 w e Hne) as (Ht1 & _).
        destruct (request_events key client2 w e Hne) as (Ht2 & _).
        cbv zeta in Ht1, Ht2. cbn [snd].
        set (url := EmailVerification.redirectUrl_of (EmailVerification.href w) e) in *.
        assert (Hsettled : forall client : EmailVerification.Auth,
                   (match EmailVerification.requestEmailVerification client e url with
                    | Js.Fulfilled => []
                    | Js.Rejected err =>
                        [EmailVerification.Log
                           [Js.LStr "Error requesting email verification"; Js.LErr err]]
                    end = []
                    /\ forall e' url',
                         EmailVerification.RequestEmailVerification e' url'
                           ∈ [EmailVerification.RemoveItem key;
                              EmailVerification.RequestEmailVerification e url] ->
                         EmailVerification.requestEmailVerification client e' url'
                         = Js.Fulfilled)
                   \/ (exists e' url' err,
                         EmailVerification.RequestEmailVerification e' url'
                           ∈ [EmailVerification.RemoveItem key;
                              EmailVerification.RequestEmailVerification e url]
                         /\ EmailVerification.requestEmailVerification client e' url'
                            = Js.Rejected err
                         /\ match EmailVerification.requestEmailVerification client e url with
                            | Js.Fulfilled => []
                            | Js.Rejected err =>
                                [EmailVerification.Log
                                   [Js.LStr "Error requesting email verification"; Js.LErr err]]
                            end
                            = [EmailVerification.Log
                                 [Js.LStr "Error requesting email verification";
                                  Js.LErr err]])).
        { intros client.
          destruct (EmailVerification.requestEmailVerification client e url) as [|err] eqn:Hout.
          - left. split; [reflexivity|]. intros e' url' Hin. in_events Hin. exact Hout.
          - right. exists e, url, err. split; [|now split].
            apply elem_of_cons. right. apply elem_of_cons. now left. }
        exists [EmailVerification.RemoveItem key;
                EmailVerification.RequestEmailVerification e url].
        eexists _, _. split; [exact Ht1|]. split; [exact Ht2|].
        split; apply Hsettled.
      + rewrite (page_load_login key client1 w Hflag Hs).
        rewrite (page_load_login key client2 w Hflag Hs).
        exists [EmailVerification.SetRoute EmailVerification.EMAIL_LOGIN], [], [].
        split; [reflexivity|]. split; [reflexivity|].
        split; left; apply Hquiet; intros e url Hin; in_events Hin. }
  assert (Hall : fst (EmailVerification.page_load key client1 w)
                 = fst (EmailVerification.page_load key client2 w)
                 /\ EmailVerification.href (snd (EmailVerification.page_load key client1 w))
                    = EmailVerification.href (snd (EmailVerification.page_load key client2 w))
                 /\ EmailVerification.route (snd (EmailVerification.page_load key client1 w))
                    = EmailVerification.route (snd (EmailVerification.page_load key client2 w))
                 /\ EmailVerification.entries (snd (EmailVerification.page_load key client1 w))
                    = EmailVerification.entries (snd (EmailVerification.page_load key client2 w))
                 /\ EmailVerification.localStorage (snd (EmailVerification.page_load key client1 w))
                    = EmailVerification.localStorage (snd (EmailVerification.page_load key client2 w))).
  { destruct (EmailVerification.reads "openfortEmailVerificationUI" (EmailVerification.href w))
      as [flag|] eqn:Hflag.
    - destruct (EmailVerification.reads "state" (EmailVerification.href w))
        as [state|] eqn:Hstate.
      + destruct (EmailVerification.reads "email" (EmailVerification.href w))
          as [email|] eqn:Hemail.
        * rewrite (page_load_confirm key client1 w flag state email Hflag Hstate Hemail).
          rewrite (page_load_confirm key client2 w flag state email Hflag Hstate Hemail).
          cbv zeta. rewrite (Hverify email state).
          destruct (EmailVerification.verifyEmail client2 email state); now repeat split.
        * rewrite (page_load_no_email key client1 w flag state Hflag Hstate Hemail).
          rewrite (page_load_no_email key client2 w flag state Hflag Hstate Hemail).
          now repeat split.
      + rewrite (page_load_no_state key client1 w flag Hflag Hstate).
        rewrite (page_load_no_state key client2 w flag Hflag Hstate).
        now repeat split.
    - destruct (Js.nonempty (EmailVerification.localStorage w !! key)) as [e|] eqn:Hs.
      + destruct (nonempty_truthy _ _ Hs) as [_ Hne].
        rewrite (page_load_request key client1 w e Hflag Hs).
        rewrite (page_load_request key client2 w e Hflag Hs).
        destruct (request_events key client1 w e Hne) as (_ & Hh1 & He1 & Hr1 & Hl1).
        destruct (request_events key client2 w e Hne) as (_ & Hh2 & He2 & Hr2 & Hl2).
        cbv zeta in *. cbn [fst snd].
        rewrite Hh1, Hh2, He1, He2, Hr1, Hr2, Hl1, Hl2. now repeat split.
      + rewrite (page_load_login key client1 w Hflag Hs).
        rewrite (page_load_login key client2 w Hflag Hs).
        now repeat split. }
  destruct Hall as (Hh & Hhref & Hroute & Hent & Hls).
  split; [exact Hh|]. split; [now rewrite Hh|].
  split; [exact Hhref|]. split; [exact Hroute|]. split; [exact Hent|].
  split; [exact Hls|]. exact Htrace.
Qed.

Lemma X11_witness :
  let w := EmailVerification.at_load "https://app/callback"
             {[ "openfort.emailToVerify" := "a@b.com" ]} in
  let offline := EmailVerification.settling (Js.Rejected (Js.mkError (Some "offline"))) Js.Fulfilled in
  let online := EmailVerification.settling Js.Fulfilled Js.Fulfilled in
  EmailVerification.render (fst (EmailVerification.page_load "openfort.emailToVerify" offline w))
  = EmailVerification.render (fst (EmailVerification.page_load "openfort.emailToVerify" online w))
  /\ exists common tail1 tail2,
       EmailVerification.trace (snd (EmailVerification.page_load "openfort.emailToVerify" offline w))
         = ([] ++ common ++ tail1)%list
       /\ EmailVerification.trace (snd (EmailVerification.page_load "openfort.emailToVerify" online w))
          = ([] ++ common ++ tail2)%list.
Proof.
  intros w offline online.
  destruct (X11_request_outcome_is_not_observed "openfort.emailToVerify" offline online w)
    as (_ & Hrender & _ & _ & _ & _ & common & tail1 & tail2 & Ht1 & Ht2 & _);
    [reflexivity|].
  split; [exact Hrender|]. exists common, tail1, tail2. split; [exact Ht1|exact Ht2].
Defined.

(** X12. What the user sees after a confirmation: on success the title 'Email
    verified' with 'Your email has been verified.'; on failure the title
    'Email verification failed' with the fixed text 'There was an error
    verifying your email. Please try again.', the same for every error: the
    error's own message is never rendered. *)
Theorem X12_result_view (key : string) (client : EmailVerification.Auth)
    (w : EmailVerification.World) (flag state email : string) :
  EmailVerification.reads "openfortEmailVerificationUI" (EmailVerification.href w) = Some flag ->
  EmailVerification.reads "state" (EmailVerification.href w) = Some state ->
  EmailVerification.reads "email" (EmailVerification.href w) = Some email ->
  EmailVerification.render (fst (EmailVerification.page_load key client w))
  = match EmailVerification.verifyEmail client email state with
    | Js.Fulfilled =>
        EmailVerification.ResultView "Email verified" "Your email has been verified."
    | Js.Rejected _ =>
        EmailVerification.ResultView "Email verification failed"
          "There was an error verifying your email. Please try again."
    end.
Proof.
  intros Hflag Hstate Hemail.
  rewrite (page_load_confirm key client w flag state email Hflag Hstate Hemail).
  cbv zeta. now destruct (EmailVerification.verifyEmail client email state).
Qed.

Lemma X12_witness :
  let href := "https://app/callback?openfortEmailVerificationUI=true&state=XYZ&email=a%40b.com" in
  EmailVerification.render
    (fst (EmailVerification.page_load "openfort.emailToVerify"
            (EmailVerification.settling Js.Fulfilled
               (Js.Rejected (Js.mkError (Some "Invalid state: token expired"))))
            (EmailVerification.at_load href ∅)))
  = EmailVerification.ResultView "Email verification failed"
      "There was an error verifying your email. Please try again.".
Proof.
  intros href.
  apply (X12_result_view "openfort.emailToVerify"
           (EmailVerification.settling Js.Fulfilled
              (Js.Rejected (Js.mkError (Some "Invalid state: token expired"))))
           (EmailVerification.at_load href ∅) "true" "XYZ" "a@b.com");
    reflexivity.
Defined.



(** X14. The empty-email guard of [sendEmailVerification] is never hit by the
    page: whatever the URL, the stored value and the SDK do, a page load never
    logs 'No linked account found'. *)
Theorem X14_no_linked_account_guard_unreachable (key : string)
    (client : EmailVerification.Auth) (w : EmailVerification.World) :
  EmailVerification.Log [Js.LStr "No linked account found"] ∉ EmailVerification.trace w ->
  EmailVerification.Log [Js.LStr "No linked account found"]
    ∉ EmailVerification.trace (snd (EmailVerification.page_load key client w)).
Proof.
  intros Hold Hin.
  destruct (page_load_effects key client w) as (evs & Ht & _ & Hcases).
  cbv zeta in Ht, Hcases. rewrite Ht in Hin.
  apply elem_of_app in Hin as [Hin|Hin]; [now apply Hold|].
  destruct Hcases as [(-> & _)|[(e & tail & _ & _ & -> & Htail & _)
                     |[(-> & _)|(state & email & mid & _ & _ & -> & Hmid & _)]]].
  - in_events Hin.
  - destruct Htail as [->|[err ->]]; in_events Hin.
  - in_events Hin.
  - destruct Hmid as [->|[err ->]]; in_events Hin.
Qed.

Lemma X14_witness :
  EmailVerification.Log [Js.LStr "No linked account found"]
    ∉ EmailVerification.trace
        (snd (EmailVerification.page_load "openfort.emailToVerify"
                (EmailVerification.settling Js.Fulfilled Js.Fulfilled)
                (EmailVerification.at_load "https://app/callback"
                   {[ "openfort.emailToVerify" := "" ]}))).
Proof.
  apply (X14_no_linked_account_guard_unreachable "openfort.emailToVerify"
           (EmailVerification.settling Js.Fulfilled Js.Fulfilled)
           (EmailVerification.at_load "https://app/callback"
              {[ "openfort.emailToVerify" := "" ]})).
  simpl. apply not_elem_of_nil.
Defined.

(** X15. The [?state=] normalisation does not touch a URL that has no
    [?state=] in it: the mount effect then works on the plain parse of the
    location, and every parameter it reads is the one the URL carries. *)
Theorem X15_normalization_leaves_wellformed (href : string) :
  Url.includes "?state=" href = false ->
  EmailVerification.page_url href = Url.new_URL href
  /\ forall name,
       EmailVerification.reads name href = Js.nonempty (Url.get name (Url.new_URL href)).
Proof.
  intros Hi.
  assert (Hurl : EmailVerification.page_url href = Url.new_URL href).
  { unfold EmailVerification.page_url. now rewrite replace_absent. }
  split; [exact Hurl|]. intros name. unfold EmailVerification.reads. now rewrite Hurl.
Qed.

Lemma X15_witness :
  EmailVerification.page_url
    "https://app/callback?openfortEmailVerificationUI=true&state=XYZ&email=a%40b.com"
  = Url.new_URL
      "https://app/callback?openfortEmailVerificationUI=true&state=XYZ&email=a%40b.com".
Proof.
  apply (X15_normalization_leaves_wellformed
           "https://app/callback?openfortEmailVerificationUI=true&state=XYZ&email=a%40b.com").
  reflexivity.
Defined.

(** ** Email verification page: the URL after confirmation *)

(** X16. Stripping keeps everything else. After a confirmation the new URL
    has the same origin and path and the same fragment as the URL the effect
    parsed, and its query parameters are exactly the old ones without
    [state], [openfortEmailVerificationUI] and [email], in their old order
    and with their old values. *)
Theorem X16_strip_keeps_the_rest (key : string) (client : EmailVerification.Auth)
    (w : EmailVerification.World) (flag state email : string) :
  EmailVerification.reads "openfortEmailVerificationUI" (EmailVerification.href w) = Some flag ->
  EmailVerification.reads "state" (EmailVerification.href w) = Some state ->
  EmailVerification.reads "email" (EmailVerification.href w) = Some email ->
  let old := EmailVerification.page_url (EmailVerification.href w) in
  let new := Url.new_URL
               (EmailVerification.href (snd (EmailVerification.page_load key client w))) in
  Url.base new = Url.base old
  /\ Url.fragment new = Url.fragment old
  /\ Url.searchParams new
     = List.filter
         (fun p => negb (String.eqb (fst p) "state")
                   && negb (String.eqb (fst p) "openfortEmailVerificationUI")
                   && negb (String.eqb (fst p) "email"))
         (Url.searchParams old)
  /\ (forall name,
        name <> "state" -> name <> "openfortEmailVerificationUI" -> name <> "email" ->
        Url.get name new = Url.get name old).
Proof.
  intros Hflag Hstate Hemail old new. subst old new.
  assert (Hhref : EmailVerification.href (snd (EmailVerification.page_load key client w))
                  = Url.toString
                      (foldl (fun u k => Url.delete k u)
                         (EmailVerification.page_url (EmailVerification.href w))
                         EmailVerification.verification_keys)).
  { rewrite (page_load_confirm key client w flag state email Hflag Hstate Hemail).
    cbv zeta. now destruct (EmailVerification.verifyEmail client email state). }
  rewrite Hhref.
  destruct (removeParams_strips (EmailVerification.href w)) as [Hback _].
  cbv zeta in Hback. rewrite Hback.
  unfold EmailVerification.verification_keys. cbn [foldl].
  split; [reflexivity|]. split; [reflexivity|]. split.
  - unfold Url.delete at 1 2 3. cbn [Url.searchParams Url.update].
    rewrite !filter_filter. apply List.filter_ext. intros p. now rewrite andb_assoc.
  - intros name Hs Hf He. now rewrite !get_delete_ne.
Qed.

Lemma X16_witness :
  let href := "https://app/callback?tab=2&openfortEmailVerificationUI=true&state=XYZ&email=a%40b.com&ref=mail#done" in
  EmailVerification.href
    (snd (EmailVerification.page_load "openfort.emailToVerify"
            (EmailVerification.settling Js.Fulfilled Js.Fulfilled)
            (EmailVerification.at_load href ∅)))
  = "https://app/callback?tab=2&ref=mail#done"
  /\ Url.get "ref"
       (Url.new_URL
          (EmailVerification.href
             (snd (EmailVerification.page_load "openfort.emailToVerify"
                     (EmailVerification.settling Js.Fulfilled Js.Fulfilled)
                     (EmailVerification.at_load href ∅)))))
     = Url.get "ref" (EmailVerification.page_url href).
Proof.
  intros href. split; [reflexivity|].
  destruct (X16_strip_keeps_the_rest "openfort.emailToVerify"
              (EmailVerification.settling Js.Fulfilled Js.Fulfilled)
              (EmailVerification.at_load href ∅) "true" "XYZ" "a@b.com"
              eq_refl eq_refl eq_refl)
    as (_ & _ & _ & Hget).
  apply Hget; discriminate.
Defined.

Lemma encode_serialize_no_query (ps : list (string * string)) :
  Url.has "?" (Url.serialize_urlencoded ps) = false.
Proof.
  unfold Url.serialize_urlencoded.
  assert (Hpair : forall p, Url.has "?" (Url.serialize_pair p) = false).
  { intros p. unfold Url.serialize_pair. now rewrite !has_app, !urlencode_no_query. }
  induction ps as [|p ps IH]; [reflexivity|].
  destruct ps as [|q ps]; [apply Hpair|].
  change (Url.has "?" (Url.serialize_pair p +:+ "&"
                       +:+ Url.join "&" (map Url.serialize_pair (q :: ps))) = false).
  now rewrite !has_app, Hpair, IH.
Qed.

(** A string that starts with [pat c] and has no [c] before its first [c]
    starts with exactly [pat]. *)
Lemma startsWith_until (c : ascii) (pat a r : string) :
  Url.has c a = false -> Url.has c pat = false ->
  Url.startsWith (pat +:+ String c "") (a +:+ String c r) = true -> a = pat.
Proof.
  revert a. induction pat as [|p pat IH]; intros a Ha Hp Hs.
  - destruct a as [|x a]; [reflexivity|]. simpl in Ha, Hs.
    apply orb_false_elim in Ha as [Hx _].
    apply andb_prop in Hs as [Hcx _]. rewrite Ascii.eqb_sym in Hcx. congruence.
  - simpl in Hp. apply orb_false_elim in Hp as [Hpc Hp].
    destruct a as [|x a]; simpl in Ha, Hs.
    + apply andb_prop in Hs as [Hpc' _]. congruence.
    + apply orb_false_elim in Ha as [_ Ha].
      apply andb_prop in Hs as [Hpx Hs]. apply Ascii.eqb_eq in Hpx. subst x.
      f_equal. now apply IH.
Qed.

Lemma serialize_not_state_first (ps : list (string * string)) :
  List.find (fun p => String.eqb (fst p) "state") ps = None ->
  Url.startsWith "state=" (Url.serialize_urlencoded ps) = false.
Proof.
  intros Hfind. destruct ps as [|[n v] ps]; [reflexivity|].
  simpl in Hfind. destruct (String.eqb_spec n "state") as [|Hn]; [discriminate|].
  destruct (Url.startsWith "state=" (Url.serialize_urlencoded ((n, v) :: ps))) eqn:Hs;
    [|reflexivity].
  exfalso. apply Hn.
  assert (Hshape : exists r, Url.serialize_urlencoded ((n, v) :: ps)
                             = Url.urlencode n +:+ String "=" r).
  { unfold Url.serialize_urlencoded. destruct ps as [|q ps].
    - exists (Url.urlencode v). reflexivity.
    - exists (Url.urlencode v +:+ "&" +:+ Url.join "&" (map Url.serialize_pair (q :: ps))).
      change (Url.join "&" (map Url.serialize_pair ((n, v) :: q :: ps)))
        with ((Url.urlencode n +:+ "=" +:+ Url.urlencode v)
              +:+ "&" +:+ Url.join "&" (map Url.serialize_pair (q :: ps))).
      rewrite !string_app_assoc. reflexivity. }
  destruct Hshape as [r Hr]. rewrite Hr in Hs.
  destruct (urlencode_plain n) as (_ & He & _).
  pose proof (startsWith_until "=" "state" (Url.urlencode n) r He eq_refl Hs) as Henc.
  rewrite <- (urldecode_urlencode n), Henc. reflexivity.
Qed.

Lemma startsWith_extend (c : ascii) (pat x f : string) :
  Url.has c pat = false -> Url.startsWith pat x = false ->
  Url.startsWith pat (x +:+ String c f) = false.
Proof.
  revert pat. induction x as [|a x IH]; intros pat Hc Hs.
  - destruct pat as [|p pat]; [discriminate|]. simpl in *.
    apply orb_false_elim in Hc as [Hpc _]. now rewrite Hpc.
  - destruct pat as [|p pat]; [discriminate|]. simpl in *.
    apply orb_false_elim in Hc as [_ Hc].
    destruct (Ascii.eqb p a); [|reflexivity]. simpl in *. now apply IH.
Qed.

(** A pattern without the byte [c] cannot match across a [c]: when it does not
    occur before the [c], only the text after it is rewritten. *)
Lemma replace_past_byte (c : ascii) (pat rep x f : string) :
  Url.has c pat = false -> Url.includes pat x = false ->
  Url.replace pat rep (x +:+ String c f) = x +:+ String c (Url.replace pat rep f).
Proof.
  intros Hc. induction x as [|a x IH]; intros Hi.
  - simpl in Hi. apply orb_false_elim in Hi as [Hs _].
    change ("" +:+ String c f) with (String c f).
    rewrite (replace_unfold pat rep (String c f)).
    pose proof (startsWith_extend c pat "" f Hc Hs) as Hs'.
    change ("" +:+ String c f) with (String c f) in Hs'. now rewrite Hs'.
  - simpl in Hi. apply orb_false_elim in Hi as [Hs Hi].
    change (String a x +:+ String c f) with (String a (x +:+ String c f)).
    rewrite (replace_unfold pat rep (String a (x +:+ String c f))).
    pose proof (startsWith_extend c pat (String a x) f Hc Hs) as Hs'.
    change (String a x +:+ String c f) with (String a (x +:+ String c f)) in Hs'.
    rewrite Hs'. now rewrite (IH Hi).
Qed.

(** The mount effect, run on the serialisation of a URL whose parameters were
    just updated and hold no [state], sees those parameters again. *)
Lemma page_url_after_update (ps : list (string * string)) (u : Url.URL) :
  Url.has "?" (Url.base u) = false -> Url.has "#" (Url.base u) = false ->
  List.find (fun p => String.eqb (fst p) "state") ps = None ->
  Url.searchParams (EmailVerification.page_url (Url.toString (Url.update ps u))) = ps.
Proof.
  intros Hq Hh Hfind.
  set (bare := {| Url.base := Url.base u; Url.query := Url.query u;
                  Url.fragment := None; Url.searchParams := Url.searchParams u |}).
  set (X := Url.toString (Url.update ps bare)).
  assert (HX : Url.includes "?state=" X = false /\ Url.has "#" X = false).
  { unfold X, Url.toString, Url.update. cbn [Url.base Url.query Url.fragment bare].
    rewrite string_app_empty_r.
    pose proof (encode_serialize_no_query ps) as Hsq.
    pose proof (serialize_plain ps) as Hsh.
    pose proof (serialize_not_state_first ps Hfind) as Hst.
    destruct (String.eqb_spec (Url.serialize_urlencoded ps) "") as [He|Hne].
    - rewrite string_app_empty_r. split; [now apply includes_absent_byte|exact Hh].
    - set (q := Url.serialize_urlencoded ps) in *.
      change ("?" +:+ q) with (String "?" q). split.
      + rewrite (includes_skip "?" "state=" _ _ Hq).
        change (Url.includes "?state=" (String "?" q))
          with (Url.startsWith "?state=" (String "?" q) || Url.includes "?state=" q).
        rewrite (includes_absent_byte "?" "state=" q Hsq), orb_false_r.
        exact Hst.
      + rewrite has_app, Hh. exact Hsh. }
  destruct HX as [Hinc Hhash].
  unfold EmailVerification.page_url.
  destruct (Url.fragment u) as [f|] eqn:Hf.
  - assert (Hto : Url.toString (Url.update ps u) = X +:+ String "#" f).
    { unfold X, Url.toString, Url.update. cbn [Url.base Url.query Url.fragment bare].
      rewrite Hf, !string_app_empty_r, string_app_assoc. reflexivity. }
    rewrite Hto, (replace_past_byte "#" "?state=" "&state=" X f eq_refl Hinc).
    set (f' := Url.replace "?state=" "&state=" f).
    set (u' := {| Url.base := Url.base u; Url.query := Url.query u;
                  Url.fragment := Some f'; Url.searchParams := Url.searchParams u |}).
    assert (Hto' : X +:+ String "#" f' = Url.toString (Url.update ps u')).
    { unfold X, Url.toString, Url.update. cbn [Url.base Url.query Url.fragment bare u'].
      rewrite !string_app_empty_r, string_app_assoc. reflexivity. }
    rewrite Hto', (new_URL_toString_update ps u' Hq Hh). reflexivity.
  - assert (Hto : Url.toString (Url.update ps u) = X).
    { unfold X, Url.toString, Url.update. cbn [Url.base Url.query Url.fragment bare].
      now rewrite Hf. }
    rewrite Hto, (replace_absent _ _ _ Hinc). unfold X.
    rewrite (new_URL_toString_update ps bare Hq Hh). reflexivity.
Qed.

(** X17. Reloading after a confirmation does not verify again. The URL left
    by a confirmation, read by the mount effect (normalisation included, even
    when the fragment contains [?state=]), carries none of the flag, state and
    email; so the next page load at that URL, with any client, calls
    [verifyEmail] no more and leaves the URL as it is. *)
Theorem X17_reload_after_confirmation (key : string)
    (client client2 : EmailVerification.Auth)
    (w : EmailVerification.World) (flag state email : string) :
  EmailVerification.reads "openfortEmailVerificationUI" (EmailVerification.href w) = Some flag ->
  EmailVerification.reads "state" (EmailVerification.href w) = Some state ->
  EmailVerification.reads "email" (EmailVerification.href w) = Some email ->
  let w' := snd (EmailVerification.page_load key client w) in
  let w'' := snd (EmailVerification.page_load key client2 w') in
  EmailVerification.reads "openfortEmailVerificationUI" (EmailVerification.href w') = None
  /\ EmailVerification.reads "state" (EmailVerification.href w') = None
  /\ EmailVerification.reads "email" (EmailVerification.href w') = None
  /\ EmailVerification.href w'' = EmailVerification.href w'
  /\ exists evs,
       EmailVerification.trace w'' = (EmailVerification.trace w' ++ evs)%list
       /\ forall a b, EmailVerification.VerifyEmail a b ∉ evs.
Proof.
  intros Hflag Hstate Hemail w' w''. subst w''.
  assert (Hhref : EmailVerification.href w'
                  = Url.toString
                      (foldl (fun u k => Url.delete k u)
                         (EmailVerification.page_url (EmailVerification.href w))
                         EmailVerification.verification_keys)).
  { subst w'. rewrite (page_load_confirm key client w flag state email Hflag Hstate Hemail).
    cbv zeta. now destruct (EmailVerification.verifyEmail client email state). }
  destruct (removeParams_strips (EmailVerification.href w)) as [_ Hnone].
  cbv zeta in Hnone.
  set (url := EmailVerification.page_url (EmailVerification.href w)) in *.
  set (url' := foldl (fun u k => Url.delete k u) url EmailVerification.verification_keys) in *.
  assert (Hsp : Url.searchParams (EmailVerification.page_url (EmailVerification.href w'))
                = Url.searchParams url').
  { rewrite Hhref. subst url'. unfold EmailVerification.verification_keys. cbn [foldl].
    unfold Url.delete at 1.
    destruct (new_URL_base (Url.replace "?state=" "&state=" (EmailVerification.href w)))
      as [Hq Hh].
    rewrite page_url_after_update; [reflexivity|exact Hq|exact Hh|].
    apply find_filter_none, find_filter_none.
    apply (find_filter_out (fun p => String.eqb (fst p) "state")). }
  assert (Hreads : forall k, Url.get k url' = None ->
                             EmailVerification.reads k (EmailVerification.href w') = None).
  { intros k Hk. unfold EmailVerification.reads, Url.get. rewrite Hsp.
    unfold Url.get in Hk. now rewrite Hk. }
  unfold EmailVerification.verification_keys in Hnone.
  inversion Hnone as [|? ? Hs Hrest]; subst.
  inversion Hrest as [|? ? Hf Hrest']; subst.
  inversion Hrest' as [|? ? He _]; subst.
  pose proof (Hreads _ Hf) as Hflag'.
  split; [exact Hflag'|]. split; [exact (Hreads _ Hs)|]. split; [exact (Hreads _ He)|].
  destruct (Js.nonempty (EmailVerification.localStorage w' !! key)) as [e|] eqn:Hstore.
  - destruct (nonempty_truthy _ _ Hstore) as [_ Hne].
    rewrite (page_load_request key client2 w' e Hflag' Hstore). cbn [snd].
    destruct (request_events key client2 w' e Hne) as (Ht & Hh & _).
    cbv zeta in Ht, Hh. split; [exact Hh|].
    eexists. split; [exact Ht|].
    intros a b Hin.
    destruct (EmailVerification.requestEmailVerification client2 e _); in_events Hin.
  - rewrite (page_load_login key client2 w' Hflag' Hstore). cbn [snd].
    split; [reflexivity|].
    exists [EmailVerification.SetRoute EmailVerification.EMAIL_LOGIN].
    split; [reflexivity|]. intros a b Hin. in_events Hin.
Qed.

Lemma X17_witness :
  let href := "https://app/callback?openfortEmailVerificationUI=true&email=a%40b.com?state=XYZ#?state=old" in
  let client := EmailVerification.settling Js.Fulfilled Js.Fulfilled in
  let w' := snd (EmailVerification.page_load "openfort.emailToVerify" client
                   (EmailVerification.at_load href ∅)) in
  EmailVerification.href w' = "https://app/callback#?state=old"
  /\ EmailVerification.reads "openfortEmailVerificationUI" (EmailVerification.href w') = None
  /\ EmailVerification.href (snd (EmailVerification.page_load "openfort.emailToVerify" client w'))
     = EmailVerification.href w'.
Proof.
  intros href client w'.
  destruct (X17_reload_after_confirmation "openfort.emailToVerify" client client
              (EmailVerification.at_load href ∅) "true" "XYZ" "a@b.com"
              eq_refl eq_refl eq_refl)
    as (Hflag & _ & _ & Hhref & _).
  split; [reflexivity|]. split; [exact Hflag|exact Hhref].
Defined.

(** ** Connect hook *)

(** X18. The only connection error the hook keeps silent about is the one
    whose message is exactly 'User rejected request': nothing is logged if and
    only if that is the message. Every other error produces exactly one log
    call, and the error object itself is always its last argument. *)
Theorem X18_only_user_rejection_is_silent (err : Js.Error) :
  (UseConnect.onError err = [] <-> Js.message err = Some "User rejected request")
  /\ (Js.message err <> Some "User rejected request" ->
      exists text, UseConnect.onError err = [[Js.LStr text; Js.LErr err]] /\ text <> "")
  /\ length (UseConnect.onError err) <= 1.
Proof.
  unfold UseConnect.onError. destruct err as [[m|]]; simpl.
  - unfold Js.truthy. destruct (String.eqb_spec m "") as [->|Hne]; simpl.
    + split; [split; [intros [=]|intros [=]]|].
      split; [intros _; eexists; split; [reflexivity|discriminate]|lia].
    + destruct (String.eqb_spec m "User rejected request") as [->|Hnr]; simpl.
      * split; [split; reflexivity|]. split; [intros Hc; now contradiction Hc|lia].
      * split; [split; [intros [=]|intros [= Hm]; contradiction]|].
        split; [intros _; exists m; now split|lia].
  - split; [split; [intros [=]|intros [=]]|].
    split; [intros _; eexists; split; [reflexivity|discriminate]|lia].
Qed.

Lemma X18_witness :
  exists text,
    UseConnect.onError (Js.mkError (Some "user rejected request"))
    = [[Js.LStr text; Js.LErr (Js.mkError (Some "user rejected request"))]]
    /\ text <> "".
Proof.
  destruct (X18_only_user_rejection_is_silent (Js.mkError (Some "user rejected request")))
    as (_ & Hlogged & _).
  apply Hlogged. discriminate.
Defined.
